(** * pcstats: the hardware sensor acquisition engine of nexmacoro-macos

    A shallow embedding of [Sources/CPcStats/pcstats.c]: the SMC value
    decoder, the SMC key cache and its read paths, the HID fallback, the
    IOReport power/frequency sampler, the snapshot aggregator and the JSON
    formatter, followed by the properties proved about them.

    Conventions.
    - A C [float] is an IEEE-754 binary32 number and a C [double] a binary64
      number; both are values of [spec_float] (the Standard Library's
      executable specification of IEEE arithmetic, round to nearest even),
      with the operations instantiated at (prec, emax) = (24, 128) and
      (53, 1024).  A NaN carries no payload in [spec_float].
    - Fixed-width integers are [Z] with the wrap-around written out.
    - Memory is little-endian (arm64 and x86-64, the two macOS targets), so
      [memcpy] of 4 or 8 bytes into a [float] or [double] reads the bytes as
      a little-endian bit pattern.
    - The outside world (IOKit, the HID event system, libIOReport, the
      clock) is a [Platform] record of answers; each call into it is also
      appended to a log so that "is never fetched", "is not retried" and
      "is not consulted" can be stated. *)

From Stdlib Require Import ZArith List Bool String Ascii Lia DecimalString.
From Stdlib Require Import Floats.SpecFloat.
Import ListNotations.

#[local] Open Scope Z_scope.

(** ** IEEE-754 formats *)

(** The bit-level encoding of a binary interchange format with [mw] stored
    mantissa bits and [ew] exponent bits. *)
Section Encoding.
Variables mw ew : Z.

Definition fprec : Z := mw + 1.
Definition femax : Z := 2 ^ (ew - 1).

(** Reading a bit pattern as a number ([memcpy] into a float object). *)
Definition float_of_bits (x : Z) : spec_float :=
  let mant := x mod 2 ^ mw in
  let expo := (x / 2 ^ mw) mod 2 ^ ew in
  let sign := Z.odd (x / 2 ^ (mw + ew)) in
  if expo =? 0 then
    match mant with
    | Zpos m => S754_finite sign m (emin fprec femax)
    | _ => S754_zero sign
    end
  else if expo =? 2 ^ ew - 1 then
    if mant =? 0 then S754_infinity sign else S754_nan
  else
    match mant + 2 ^ mw with
    | Zpos m => S754_finite sign m (expo + emin fprec femax - 1)
    | _ => S754_nan
    end.

(** The bit pattern of a number; the quiet NaN with an empty payload
    stands for every NaN. *)
Definition bits_of_float (f : spec_float) : Z :=
  let sgn (s : bool) := if s then 2 ^ (mw + ew) else 0 in
  match f with
  | S754_zero s => sgn s
  | S754_infinity s => sgn s + (2 ^ ew - 1) * 2 ^ mw
  | S754_nan => (2 ^ ew - 1) * 2 ^ mw + 2 ^ (mw - 1)
  | S754_finite s m e =>
      if 2 ^ mw <=? Zpos m
      then sgn s + (e - emin fprec femax + 1) * 2 ^ mw + (Zpos m - 2 ^ mw)
      else sgn s + Zpos m
  end.
End Encoding.

Definition is_nan (f : spec_float) : bool :=
  match f with S754_nan => true | _ => false end.

Definition is_finite (f : spec_float) : bool :=
  match f with S754_zero _ | S754_finite _ _ _ => true | _ => false end.

(** C [float]. *)
Module F32.
Definition prec : Z := 24.
Definition emax : Z := 128.
Definition of_bits : Z -> spec_float := float_of_bits 23 8.
Definition to_bits : spec_float -> Z := bits_of_float 23 8.
Definition valid : spec_float -> bool := valid_binary prec emax.
(** Conversion of an integer ([(float)n]). *)
Definition of_Z (n : Z) : spec_float := binary_normalize prec emax n 0 false.
Definition add : spec_float -> spec_float -> spec_float := SFadd prec emax.
Definition sub : spec_float -> spec_float -> spec_float := SFsub prec emax.
Definition mul : spec_float -> spec_float -> spec_float := SFmul prec emax.
Definition div : spec_float -> spec_float -> spec_float := SFdiv prec emax.
Definition zero : spec_float := S754_zero false.
End F32.

(** C [double]. *)
Module F64.
Definition prec : Z := 53.
Definition emax : Z := 1024.
Definition of_bits : Z -> spec_float := float_of_bits 52 11.
Definition to_bits : spec_float -> Z := bits_of_float 52 11.
Definition valid : spec_float -> bool := valid_binary prec emax.
Definition of_Z (n : Z) : spec_float := binary_normalize prec emax n 0 false.
Definition add : spec_float -> spec_float -> spec_float := SFadd prec emax.
Definition mul : spec_float -> spec_float -> spec_float := SFmul prec emax.
Definition div : spec_float -> spec_float -> spec_float := SFdiv prec emax.
Definition zero : spec_float := S754_zero false.
End F64.

(** [(float)d]: a double narrowed to float. *)
Definition float_of_double (d : spec_float) : spec_float :=
  match d with
  | S754_finite s m e => binary_round F32.prec F32.emax s m e
  | _ => d
  end.

(** The C comparisons on floating values; all are false on a NaN except
    [!=]. *)
Definition fgt (a b : spec_float) : bool := SFltb b a.
Definition flt (a b : spec_float) : bool := SFltb a b.
Definition feq (a b : spec_float) : bool := SFeqb a b.

(** ** Integers and bytes *)

Definition wrap_unsigned (w : Z) (x : Z) : Z := x mod 2 ^ w.

Definition wrap_signed (w : Z) (x : Z) : Z :=
  (x + 2 ^ (w - 1)) mod 2 ^ w - 2 ^ (w - 1).

(** [data[i]] of a [uint8_t] buffer. *)
Definition byte_at (data : list Z) (i : nat) : Z := nth i data 0.

(** The value [memcpy] of [n] bytes builds on a little-endian machine. *)
Fixpoint le_bytes (n : nat) (data : list Z) : Z :=
  match n with
  | O => 0
  | S k => byte_at data 0 + 256 * le_bytes k (tl data)
  end.

(** The [n] bytes that store [x] on a little-endian machine. *)
Fixpoint to_le_bytes (n : nat) (x : Z) : list Z :=
  match n with
  | O => []
  | S k => x mod 256 :: to_le_bytes k (x / 256)
  end.

(** ** SMC key codes *)

Definition code_of (c : ascii) : Z := Z.of_nat (nat_of_ascii c).

Definition char_at (s : string) (i : nat) : ascii :=
  match String.get i s with Some c => c | None => Ascii.zero end.

(** [str_to_fourcc]: four characters packed big-endian into a [uint32_t]. *)
Definition str_to_fourcc (s : string) : Z :=
  Z.lor (Z.lor (Z.lor (Z.shiftl (code_of (char_at s 0)) 24)
                      (Z.shiftl (code_of (char_at s 1)) 16))
               (Z.shiftl (code_of (char_at s 2)) 8))
        (code_of (char_at s 3)).

Definition FOURCC_FLT : Z := 0x666c7420.
Definition FOURCC_SP78 : Z := 0x73703738.
Definition FOURCC_IOFT : Z := 0x696f6674.

(** ** The decoder *)

(** [smc_bytes_to_float(data, size, type)]. *)
Definition smc_bytes_to_float (data : list Z) (size type : Z) : spec_float :=
  if size =? 0 then F32.zero
  else if (type =? FOURCC_FLT) && (4 <=? size) then
    F32.of_bits (le_bytes 4 data)
  else if (type =? FOURCC_SP78) && (2 <=? size) then
    let raw := wrap_signed 16 (Z.lor (Z.shiftl (byte_at data 0) 8) (byte_at data 1)) in
    F32.div (F32.of_Z raw) (F32.of_Z 256)
  else if (type =? FOURCC_IOFT) && (8 <=? size) then
    float_of_double (F64.of_bits (le_bytes 8 data))
  else if size =? 1 then
    F32.of_Z (byte_at data 0)
  else if size =? 2 then
    F32.of_Z (Z.lor (Z.shiftl (byte_at data 0) 8) (byte_at data 1))
  else F32.zero.

(** ** Values of the decoder, in the words of the value formats *)

Definition is_byte (b : Z) : Prop := 0 <= b < 256.

(** The big-endian unsigned 16-bit number in the first two bytes. *)
Definition be16 (data : list Z) : Z := 256 * byte_at data 0 + byte_at data 1.

(** The same two bytes read as a two's complement number. *)
Definition be16_signed (data : list Z) : Z :=
  if be16 data <? 32768 then be16 data else be16 data - 65536.

(** [scaled_value k f] is [Some n] when [f] is finite and [f * 2^k] is the
    integer [n]: the exact value of [f] is then [n / 2^k]. *)
Definition scaled_value (k : Z) (f : spec_float) : option Z :=
  match f with
  | S754_zero _ => Some 0
  | S754_finite s m e =>
      if 0 <=? e + k then Some (cond_Zopp s (Zpos m * 2 ^ (e + k)))
      else if Zpos m mod 2 ^ (- (e + k)) =? 0
           then Some (cond_Zopp s (Zpos m / 2 ^ (- (e + k))))
           else None
  | _ => None
  end.

(** The integers from [lo], [n] of them. *)
Fixpoint Zrange (lo : Z) (n : nat) : list Z :=
  match n with
  | O => []
  | S k => lo :: Zrange (lo + 1) k
  end.

(** ** C strings *)

(** [strcmp(a, b) == 0]. *)
Definition streq (a b : string) : bool := String.eqb a b.

(** [strstr(haystack, needle) != NULL]. *)
Fixpoint strstr (haystack needle : string) : bool :=
  String.prefix needle haystack
  || match haystack with
     | EmptyString => false
     | String _ rest => strstr rest needle
     end.

(** The text of a buffer that starts zeroed and is filled from a CFString
    only when there is one. *)
Definition cstr (s : option string) : string :=
  match s with Some t => t | None => EmptyString end.

(** ** The platform *)

(** [SMCKeyDataKeyInfo]. *)
Record SMCKeyDataKeyInfo : Type := {
  data_size : Z;
  data_type : Z;
  data_attributes : Z
}.

Definition no_key_info : SMCKeyDataKeyInfo :=
  {| data_size := 0; data_type := 0; data_attributes := 0 |}.

(** What one [IOConnectCallStructMethod(smc_conn, 2, input, ..., output)]
    produces: whether the call itself succeeded, and the fields of the
    output [SMCKeyData] the program reads. *)
Record SMCReply : Type := {
  reply_kr_success : bool;
  reply_result : Z;
  reply_key_info : SMCKeyDataKeyInfo;
  reply_bytes : list Z
}.

(** One service of the HID event system: its "Product" property and the
    value of its temperature event, each possibly missing. *)
Record HIDService : Type := {
  hid_product : option string;
  hid_temperature : option spec_float
}.

(** One channel of an IOReport delta, as the accessor functions of
    libIOReport present it: group, channel name and unit label, the simple
    integer value, and the residency states (name and residency of each
    state, [IOReportStateGetCount] of them). *)
Record IORChannel : Type := {
  ch_group : option string;
  ch_name : option string;
  ch_unit : option string;
  ch_value : Z;
  ch_states : list (option string * Z)
}.

(** The function pointers [dlsym] fills in; [true] is a non-NULL pointer. *)
Record IORSymbols : Type := {
  pIOReportCopyChannelsInGroup : bool;
  pIOReportMergeChannels : bool;
  pIOReportCreateSubscription : bool;
  pIOReportCreateSamples : bool;
  pIOReportCreateSamplesDelta : bool;
  pIOReportChannelGetGroup : bool;
  pIOReportChannelGetSubGroup : bool;
  pIOReportChannelGetChannelName : bool;
  pIOReportChannelGetUnitLabel : bool;
  pIOReportSimpleGetIntegerValue : bool;
  pIOReportStateGetCount : bool;
  pIOReportStateGetNameForIndex : bool;
  pIOReportStateGetResidency : bool
}.

Definition no_symbols : IORSymbols :=
  {| pIOReportCopyChannelsInGroup := false; pIOReportMergeChannels := false;
     pIOReportCreateSubscription := false; pIOReportCreateSamples := false;
     pIOReportCreateSamplesDelta := false; pIOReportChannelGetGroup := false;
     pIOReportChannelGetSubGroup := false;
     pIOReportChannelGetChannelName := false;
     pIOReportChannelGetUnitLabel := false;
     pIOReportSimpleGetIntegerValue := false; pIOReportStateGetCount := false;
     pIOReportStateGetNameForIndex := false;
     pIOReportStateGetResidency := false |}.

(** A sample dictionary is opaque to the program; it is named by a number. *)
Definition IORSample : Type := Z.

(** [Memory], [Storage] and [Network] of pcstats.h. *)
Record Memory : Type := { mem_used : spec_float; mem_avail : spec_float; mem_percent : spec_float }.
Record Storage : Type := {
  sto_temp : spec_float; sto_read : spec_float; sto_write : spec_float; sto_percent : spec_float
}.
Record Network : Type := { net_up : spec_float; net_down : spec_float }.

(** The answers of the outside world during one call of the program.
    - [smc_endpoint]: the AppleSMC services can be listed, one of them is
      named AppleSMCKeysEndpoint and [IOServiceOpen] on it succeeds.
    - [smc_call key cmd info]: the reply to the request with that key,
      command ([data8]) and key info.
    - [hid_client], [hid_services]: [IOHIDEventSystemClientCreate] and
      [IOHIDEventSystemClientCopyServices].
    - [ior_dylib]: the symbols of libIOReport when [dlopen] succeeds.
    - [ior_energy_channels], [ior_gpu_channels]: the two
      [IOReportCopyChannelsInGroup] results are non-NULL.
    - [ior_channels_copy], [ior_subscribe]: the mutable copy and the
      subscription are non-NULL.
    - [ior_create_samples]: the sample [IOReportCreateSamples] returns.
    - [ior_samples_delta prev cur]: [None] when [IOReportCreateSamplesDelta]
      returns NULL; [Some None] when the delta has no "IOReportChannels";
      [Some (Some chans)] otherwise.
    - [pmgr]: [None] when the AppleARMIODevice services cannot be listed,
      else for each device its name and, when its properties can be read
      and hold "voltage-states9", the bytes of that entry.
    - [time_ms], [time_s], [tm_gmtoff]: [gettimeofday] in milliseconds,
      [time(NULL)], and the [tm_gmtoff] of [localtime].
    - [statvfs_root]: the fields [f_blocks], [f_frsize] and [f_bfree] of
      [statvfs("/")] when it succeeds.
    - the other simple collectors of the operating system (CPU ticks,
      virtual memory, interface counters, uptime) are taken at their
      results. *)
Record Platform : Type := {
  smc_endpoint : bool;
  smc_call : Z -> Z -> SMCKeyDataKeyInfo -> SMCReply;
  hid_client : bool;
  hid_services : option (list HIDService);
  ior_dylib : option IORSymbols;
  ior_energy_channels : bool;
  ior_gpu_channels : bool;
  ior_channels_copy : bool;
  ior_subscribe : bool;
  ior_create_samples : option IORSample;
  ior_samples_delta : IORSample -> IORSample -> option (option (list IORChannel));
  pmgr : option (list (string * option (list Z)));
  time_ms : Z;
  time_s : Z;
  tm_gmtoff : Z;
  statvfs_root : option (Z * Z * Z);
  cpu_usage : spec_float;
  memory_usage : Memory;
  network_throughput : Network;
  uptime_seconds : Z
}.

(** Calls into the platform, as they are logged. *)
Inductive Event : Type :=
| EvSMCOpen
| EvSMCCall (key cmd : Z)
| EvHIDQuery
| EvDlopen
| EvIORCopyChannels
| EvIORSubscribe
| EvIORCreateSamples
| EvIORSamplesDelta
| EvPmgr.

(** ** The static variables *)

Definition MAX_CACHED_KEYS : Z := 32.
Definition MAX_GPU_FREQS : Z := 32.
Definition MAX_FANS : Z := 4.

(** [CachedSMCKey]. *)
Record CachedSMCKey : Type := {
  key_fourcc : Z;
  key_info : SMCKeyDataKeyInfo
}.

(** The SMC connection and the three key caches.  An array
    [cached_x_keys] with its count [num_cached_x_keys] is the list of its
    first [num_cached_x_keys] entries. *)
Record SMCState : Type := {
  smc_conn : bool;
  cached_cpu_keys : list CachedSMCKey;
  cached_gpu_keys : list CachedSMCKey;
  cached_board_keys : list CachedSMCKey;
  smc_cache_initialized : bool
}.

(** The IOReport state.  [gpu_freqs] with [num_gpu_freqs] is the list of
    its first [num_gpu_freqs] entries. *)
Record IORState : Type := {
  ior_lib_loaded : bool;
  ior_handle : bool;
  ior_syms : IORSymbols;
  ior_subscription : bool;
  ior_channels : bool;
  ior_prev_sample : option IORSample;
  ior_prev_time_ms : Z;
  ior_initialized : bool;
  cached_cpu_power : spec_float;
  cached_gpu_power : spec_float;
  cached_gpu_freq : spec_float;
  cached_gpu_load : spec_float;
  gpu_freqs : list Z
}.

(** All static variables of pcstats.c that the sensor engine uses, and
    the log of platform calls, most recent first. *)
Record Globals : Type := {
  smc : SMCState;
  ior : IORState;
  cached_cpu_temp : spec_float;
  cached_gpu_temp : spec_float;
  use_native_temps : Z;
  pcstats_initialized : bool;
  log : list Event
}.

(** The variables as the C initialisers leave them at process start. *)
Definition initial_smc : SMCState :=
  {| smc_conn := false; cached_cpu_keys := []; cached_gpu_keys := [];
     cached_board_keys := []; smc_cache_initialized := false |}.

Definition initial_ior : IORState :=
  {| ior_lib_loaded := false; ior_handle := false; ior_syms := no_symbols;
     ior_subscription := false; ior_channels := false;
     ior_prev_sample := None; ior_prev_time_ms := 0; ior_initialized := false;
     cached_cpu_power := F32.zero; cached_gpu_power := F32.zero;
     cached_gpu_freq := F32.zero; cached_gpu_load := F32.zero;
     gpu_freqs := [] |}.

Definition initial_globals : Globals :=
  {| smc := initial_smc; ior := initial_ior;
     cached_cpu_temp := F32.zero; cached_gpu_temp := F32.zero;
     use_native_temps := 0; pcstats_initialized := false; log := [] |}.

Definition with_smc (s : SMCState) (g : Globals) : Globals :=
  {| smc := s; ior := ior g; cached_cpu_temp := cached_cpu_temp g;
     cached_gpu_temp := cached_gpu_temp g; use_native_temps := use_native_temps g;
     pcstats_initialized := pcstats_initialized g; log := log g |}.

Definition with_ior (i : IORState) (g : Globals) : Globals :=
  {| smc := smc g; ior := i; cached_cpu_temp := cached_cpu_temp g;
     cached_gpu_temp := cached_gpu_temp g; use_native_temps := use_native_temps g;
     pcstats_initialized := pcstats_initialized g; log := log g |}.

Definition with_temps (c t : spec_float) (g : Globals) : Globals :=
  {| smc := smc g; ior := ior g; cached_cpu_temp := c; cached_gpu_temp := t;
     use_native_temps := use_native_temps g;
     pcstats_initialized := pcstats_initialized g; log := log g |}.

Definition with_use_native_temps (e : Z) (g : Globals) : Globals :=
  {| smc := smc g; ior := ior g; cached_cpu_temp := cached_cpu_temp g;
     cached_gpu_temp := cached_gpu_temp g; use_native_temps := e;
     pcstats_initialized := pcstats_initialized g; log := log g |}.

Definition with_pcstats_initialized (b : bool) (g : Globals) : Globals :=
  {| smc := smc g; ior := ior g; cached_cpu_temp := cached_cpu_temp g;
     cached_gpu_temp := cached_gpu_temp g; use_native_temps := use_native_temps g;
     pcstats_initialized := b; log := log g |}.

Definition emit (e : Event) (g : Globals) : Globals :=
  {| smc := smc g; ior := ior g; cached_cpu_temp := cached_cpu_temp g;
     cached_gpu_temp := cached_gpu_temp g; use_native_temps := use_native_temps g;
     pcstats_initialized := pcstats_initialized g; log := e :: log g |}.

Definition set_smc_conn (b : bool) (s : SMCState) : SMCState :=
  {| smc_conn := b; cached_cpu_keys := cached_cpu_keys s;
     cached_gpu_keys := cached_gpu_keys s; cached_board_keys := cached_board_keys s;
     smc_cache_initialized := smc_cache_initialized s |}.

Definition set_caches (c g b : list CachedSMCKey) (s : SMCState) : SMCState :=
  {| smc_conn := smc_conn s; cached_cpu_keys := c; cached_gpu_keys := g;
     cached_board_keys := b; smc_cache_initialized := smc_cache_initialized s |}.

Definition set_smc_cache_initialized (i : bool) (s : SMCState) : SMCState :=
  {| smc_conn := smc_conn s; cached_cpu_keys := cached_cpu_keys s;
     cached_gpu_keys := cached_gpu_keys s; cached_board_keys := cached_board_keys s;
     smc_cache_initialized := i |}.

(** A function of the program: it reads and writes the static variables. *)
Definition M (A : Type) : Type := Globals -> A * Globals.

Definition ret {A : Type} (a : A) : M A := fun g => (a, g).

Definition bind {A B : Type} (m : M A) (k : A -> M B) : M B :=
  fun g => let (a, g') := m g in k a g'.

Notation "x <- m ;; k" := (bind m (fun x => k))
  (at level 61, m at next level, right associativity).

Notation "m ;;; k" := (bind m (fun _ => k))
  (at level 61, right associativity).

(** ** The SMC channel *)

(** [smc_open]: 0 when the connection is open, -1 otherwise.  The lookup
    is made only when no connection is open yet. *)
Definition smc_open (p : Platform) : M Z :=
  fun g =>
    if smc_conn (smc g) then (0, g)
    else
      let g1 := emit EvSMCOpen g in
      if smc_endpoint p then (0, with_smc (set_smc_conn true (smc g1)) g1)
      else (-1, g1).

(** [smc_read]: [Some output] stands for the return value 0 with the
    output structure filled in, [None] for -1.  The request is its key,
    command [data8] and key info; all other input fields are zero. *)
Definition smc_read (p : Platform) (key cmd : Z) (info : SMCKeyDataKeyInfo)
  : M (option SMCReply) :=
  fun g =>
    if negb (smc_conn (smc g)) then (None, g)
    else
      let out := smc_call p key cmd info in
      let g1 := emit (EvSMCCall key cmd) g in
      if negb (reply_kr_success out) then (None, g1)
      else if reply_result out =? 132 then (None, g1)
      else if negb (reply_result out =? 0) then (None, g1)
      else (Some out, g1).

(** [smc_read_key_info]: [Some info] for the return value 0. *)
Definition smc_read_key_info (p : Platform) (key : string)
  : M (option SMCKeyDataKeyInfo) :=
  r <- smc_read p (str_to_fourcc key) 9 no_key_info ;;
  match r with
  | None => ret None
  | Some out => ret (Some (reply_key_info out))
  end.

(** [smc_read_key]. *)
Definition smc_read_key (p : Platform) (key : string) : M spec_float :=
  r <- smc_read_key_info p key ;;
  match r with
  | None => ret F32.zero
  | Some info =>
      if 32 <? data_size info then ret F32.zero
      else
        v <- smc_read p (str_to_fourcc key) 5 info ;;
        match v with
        | None => ret F32.zero
        | Some out =>
            ret (smc_bytes_to_float (reply_bytes out) (data_size info) (data_type info))
        end
  end.

(** [smc_read_temp_cached]. *)
Definition smc_read_temp_cached (p : Platform) (key_fourcc : Z)
  (info : SMCKeyDataKeyInfo) : M spec_float :=
  v <- smc_read p key_fourcc 5 info ;;
  match v with
  | None => ret F32.zero
  | Some out =>
      ret (smc_bytes_to_float (reply_bytes out) (data_size info) (data_type info))
  end.

Definition cpu_keys : list string :=
  ["Tp01"; "Tp02"; "Tp03"; "Tp04"; "Tp05"; "Tp06"; "Tp07"; "Tp08";
   "Tp09"; "Tp0A"; "Tp0B"; "Tp0C"; "Tp0D"; "Tp0E"; "Tp0F"; "Tp0G";
   "Te01"; "Te02"; "Te03"; "Te04"; "Te05"; "Te06"; "Te07"; "Te08";
   "Tc0c"; "Tc1c"; "Tc2c"; "Tc3c"]%string.

Definition gpu_keys : list string :=
  ["Tg0f"; "Tg0j"; "Tg0D"; "Tg0d"; "Tg05"; "Tg0P"; "Tg0p"]%string.

Definition board_keys : list string :=
  ["Tm0P"; "Tm1P"; "Tm2P"; "Ts0P"; "Ts1P"; "Ts2P"; "TM0P"; "TM1P"; "Tw0P"]%string.

(** One probe loop of [smc_init_cache]:
    [for (i = 0; keys[i] && num < MAX_CACHED_KEYS; i++)], started with the
    cache [cache] and returning the cache it leaves. *)
Fixpoint probe_keys (p : Platform) (keys : list string)
  (cache : list CachedSMCKey) : M (list CachedSMCKey) :=
  match keys with
  | [] => ret cache
  | k :: rest =>
      if Z.of_nat (List.length cache) <? MAX_CACHED_KEYS then
        r <- smc_read_key_info p k ;;
        match r with
        | Some info =>
            if 0 <? data_size info
            then probe_keys p rest
                   (cache ++ [{| key_fourcc := str_to_fourcc k; key_info := info |}])
            else probe_keys p rest cache
        | None => probe_keys p rest cache
        end
      else ret cache
  end.

(** [smc_init_cache]. *)
Definition smc_init_cache (p : Platform) : M unit :=
  fun g =>
    if smc_cache_initialized (smc g) then (tt, g)
    else
      let (rc, g1) := smc_open p g in
      if negb (rc =? 0) then (tt, g1)
      else
        let (c, g2) := probe_keys p cpu_keys (cached_cpu_keys (smc g1)) g1 in
        let (u, g3) := probe_keys p gpu_keys (cached_gpu_keys (smc g2)) g2 in
        let (b, g4) := probe_keys p board_keys (cached_board_keys (smc g3)) g3 in
        (tt, with_smc (set_smc_cache_initialized true (set_caches c u b (smc g4))) g4).

(** The test [t > lo && t < hi] of the aggregation loops; the integer
    bounds are converted to float for the comparison. *)
Definition in_window (lo hi : Z) (t : spec_float) : bool :=
  fgt t (F32.of_Z lo) && flt t (F32.of_Z hi).

(** One aggregation loop over a cache:
    [for (i = 0; i < num; i++) { t = smc_read_temp_cached(...);
       if (t > lo && t < hi) { sum += t; count++; } }],
    started with [sum] and [count].  The count stays below
    [MAX_CACHED_KEYS], so it does not wrap. *)
Fixpoint read_domain (p : Platform) (lo hi : Z) (keys : list CachedSMCKey)
  (sum : spec_float) (count : Z) : M (spec_float * Z) :=
  match keys with
  | [] => ret (sum, count)
  | k :: rest =>
      t <- smc_read_temp_cached p (key_fourcc k) (key_info k) ;;
      if in_window lo hi t
      then read_domain p lo hi rest (F32.add sum t) (count + 1)
      else read_domain p lo hi rest sum count
  end.

(** [smc_get_temperatures]: the pair ([*cpu_temp], [*gpu_temp]). *)
Definition smc_get_temperatures (p : Platform) : M (spec_float * spec_float) :=
  fun g =>
    let (_, g1) :=
      if negb (smc_cache_initialized (smc g)) then smc_init_cache p g else (tt, g) in
    if negb (smc_conn (smc g1)) then ((F32.zero, F32.zero), g1)
    else
      let '(cpu_sum, cpu_count, g2) :=
        read_domain p 10 130 (cached_cpu_keys (smc g1)) F32.zero 0 g1 in
      let '(gpu_sum, gpu_count, g3) :=
        read_domain p 10 130 (cached_gpu_keys (smc g2)) F32.zero 0 g2 in
      let cpu_temp :=
        if 0 <? cpu_count then F32.div cpu_sum (F32.of_Z cpu_count) else F32.zero in
      let gpu_temp :=
        if 0 <? gpu_count then F32.div gpu_sum (F32.of_Z gpu_count) else F32.zero in
      ((cpu_temp, gpu_temp), g3).

(** [smc_get_board_temperature]. *)
Definition smc_get_board_temperature (p : Platform) : M spec_float :=
  fun g =>
    let (_, g1) :=
      if negb (smc_cache_initialized (smc g)) then smc_init_cache p g else (tt, g) in
    if negb (smc_conn (smc g1)) || (Z.of_nat (List.length (cached_board_keys (smc g1))) =? 0)
    then (F32.zero, g1)
    else
      let '(board_sum, board_count, g2) :=
        read_domain p 10 100 (cached_board_keys (smc g1)) F32.zero 0 g1 in
      (if 0 <? board_count then F32.div board_sum (F32.of_Z board_count) else F32.zero,
       g2).

(** ** Fans *)

(** [FanInfo] of pcstats.h; each array has [MAX_FANS] entries. *)
Record FanInfo : Type := {
  fan_count : Z;
  fan_rpm : list spec_float;
  fan_min_rpm : list spec_float;
  fan_max_rpm : list spec_float
}.

(** [a[i] = v]. *)
Fixpoint store {A : Type} (i : nat) (v : A) (a : list A) : list A :=
  match a, i with
  | [], _ => []
  | _ :: t, O => v :: t
  | h :: t, S j => h :: store j v t
  end.

(** The key [snprintf(key, sizeof(key), "F%d<suffix>", i)] writes, for a
    fan index of one digit. *)
Definition fan_key (i : Z) (suffix : string) : string :=
  String "F" (String (ascii_of_nat (48 + Z.to_nat i)) suffix).

(** The loop of [get_fan_info] over the remaining fan indices; it stops
    at the first fan whose actual RPM is not positive. *)
Fixpoint fan_loop (p : Platform) (indices : list Z) (fans : FanInfo) : M FanInfo :=
  match indices with
  | [] => ret fans
  | i :: rest =>
      rpm <- smc_read_key p (fan_key i "Ac") ;;
      if fgt rpm (F32.of_Z 0) then
        mn <- smc_read_key p (fan_key i "Mn") ;;
        mx <- smc_read_key p (fan_key i "Mx") ;;
        fan_loop p rest
          {| fan_count := i + 1;
             fan_rpm := store (Z.to_nat i) rpm (fan_rpm fans);
             fan_min_rpm := store (Z.to_nat i) mn (fan_min_rpm fans);
             fan_max_rpm := store (Z.to_nat i) mx (fan_max_rpm fans) |}
      else ret fans
  end.

Definition no_fans : FanInfo :=
  let z := repeat (F32.of_Z 0) (Z.to_nat MAX_FANS) in
  {| fan_count := 0; fan_rpm := z; fan_min_rpm := z; fan_max_rpm := z |}.

(** [get_fan_info]. *)
Definition get_fan_info (p : Platform) : M FanInfo :=
  rc <- smc_open p ;;
  if negb (rc =? 0) then ret no_fans
  else fan_loop p [0; 1; 2; 3] no_fans.

(** ** The HID fallback *)

(** The loop of [hid_get_temperatures] over the services. *)
Fixpoint hid_loop (services : list HIDService)
  (cpu_sum gpu_sum : spec_float) (cpu_count gpu_count : Z)
  : spec_float * spec_float * Z * Z :=
  match services with
  | [] => (cpu_sum, gpu_sum, cpu_count, gpu_count)
  | s :: rest =>
      match hid_product s, hid_temperature s with
      | Some name, Some value =>
          let temp := float_of_double value in
          if flt temp (F32.of_Z 10) || fgt temp (F32.of_Z 130) then
            hid_loop rest cpu_sum gpu_sum cpu_count gpu_count
          else if strstr name "ACC MTR Temp" || strstr name "CPU" then
            hid_loop rest (F32.add cpu_sum temp) gpu_sum (cpu_count + 1) gpu_count
          else if strstr name "GPU MTR Temp" || strstr name "GPU" then
            hid_loop rest cpu_sum (F32.add gpu_sum temp) cpu_count (gpu_count + 1)
          else hid_loop rest cpu_sum gpu_sum cpu_count gpu_count
      | _, _ => hid_loop rest cpu_sum gpu_sum cpu_count gpu_count
      end
  end.

(** [hid_get_temperatures]: the pair ([*cpu_temp], [*gpu_temp]). *)
Definition hid_get_temperatures (p : Platform) : M (spec_float * spec_float) :=
  fun g =>
    let g1 := emit EvHIDQuery g in
    if negb (hid_client p) then ((F32.zero, F32.zero), g1)
    else
      match hid_services p with
      | None => ((F32.zero, F32.zero), g1)
      | Some services =>
          let '(cpu_sum, gpu_sum, cpu_count, gpu_count) :=
            hid_loop services F32.zero F32.zero 0 0 in
          ((if 0 <? cpu_count then F32.div cpu_sum (F32.of_Z cpu_count) else F32.zero,
            if 0 <? gpu_count then F32.div gpu_sum (F32.of_Z gpu_count) else F32.zero),
           g1)
      end.

(** [get_apple_silicon_temps]: the pair ([*cpu_temp], [*gpu_temp]). *)
Definition get_apple_silicon_temps (p : Platform) : M (spec_float * spec_float) :=
  t <- smc_get_temperatures p ;;
  if feq (fst t) (F32.of_Z 0) && feq (snd t) (F32.of_Z 0)
  then hid_get_temperatures p
  else ret t.

(** [update_temperatures_native]: the two results go to
    [cached_cpu_temp] and [cached_gpu_temp]. *)
Definition update_temperatures_native (p : Platform) : M unit :=
  fun g =>
    let (t, g1) := get_apple_silicon_temps p g in
    (tt, with_temps (fst t) (snd t) g1).

Definition get_cpu_temperature : M spec_float := fun g => (cached_cpu_temp g, g).
Definition get_gpu_temperature : M spec_float := fun g => (cached_gpu_temp g, g).

(** ** The IOReport sampler *)

Definition set_ior_lib_loaded (b : bool) (i : IORState) : IORState :=
  {| ior_lib_loaded := b; ior_handle := ior_handle i; ior_syms := ior_syms i;
     ior_subscription := ior_subscription i; ior_channels := ior_channels i;
     ior_prev_sample := ior_prev_sample i; ior_prev_time_ms := ior_prev_time_ms i;
     ior_initialized := ior_initialized i;
     cached_cpu_power := cached_cpu_power i; cached_gpu_power := cached_gpu_power i;
     cached_gpu_freq := cached_gpu_freq i; cached_gpu_load := cached_gpu_load i;
     gpu_freqs := gpu_freqs i |}.

Definition set_ior_handle (h : bool) (s : IORSymbols) (i : IORState) : IORState :=
  {| ior_lib_loaded := ior_lib_loaded i; ior_handle := h; ior_syms := s;
     ior_subscription := ior_subscription i; ior_channels := ior_channels i;
     ior_prev_sample := ior_prev_sample i; ior_prev_time_ms := ior_prev_time_ms i;
     ior_initialized := ior_initialized i;
     cached_cpu_power := cached_cpu_power i; cached_gpu_power := cached_gpu_power i;
     cached_gpu_freq := cached_gpu_freq i; cached_gpu_load := cached_gpu_load i;
     gpu_freqs := gpu_freqs i |}.

Definition set_ior_subscription (sub ch : bool) (i : IORState) : IORState :=
  {| ior_lib_loaded := ior_lib_loaded i; ior_handle := ior_handle i;
     ior_syms := ior_syms i;
     ior_subscription := sub; ior_channels := ch;
     ior_prev_sample := ior_prev_sample i; ior_prev_time_ms := ior_prev_time_ms i;
     ior_initialized := ior_initialized i;
     cached_cpu_power := cached_cpu_power i; cached_gpu_power := cached_gpu_power i;
     cached_gpu_freq := cached_gpu_freq i; cached_gpu_load := cached_gpu_load i;
     gpu_freqs := gpu_freqs i |}.

Definition set_ior_prev (s : option IORSample) (t : Z) (i : IORState) : IORState :=
  {| ior_lib_loaded := ior_lib_loaded i; ior_handle := ior_handle i;
     ior_syms := ior_syms i;
     ior_subscription := ior_subscription i; ior_channels := ior_channels i;
     ior_prev_sample := s; ior_prev_time_ms := t;
     ior_initialized := ior_initialized i;
     cached_cpu_power := cached_cpu_power i; cached_gpu_power := cached_gpu_power i;
     cached_gpu_freq := cached_gpu_freq i; cached_gpu_load := cached_gpu_load i;
     gpu_freqs := gpu_freqs i |}.

Definition set_ior_initialized (b : bool) (i : IORState) : IORState :=
  {| ior_lib_loaded := ior_lib_loaded i; ior_handle := ior_handle i;
     ior_syms := ior_syms i;
     ior_subscription := ior_subscription i; ior_channels := ior_channels i;
     ior_prev_sample := ior_prev_sample i; ior_prev_time_ms := ior_prev_time_ms i;
     ior_initialized := b;
     cached_cpu_power := cached_cpu_power i; cached_gpu_power := cached_gpu_power i;
     cached_gpu_freq := cached_gpu_freq i; cached_gpu_load := cached_gpu_load i;
     gpu_freqs := gpu_freqs i |}.

Definition set_ior_cached (cp gp gf gl : spec_float) (i : IORState) : IORState :=
  {| ior_lib_loaded := ior_lib_loaded i; ior_handle := ior_handle i;
     ior_syms := ior_syms i;
     ior_subscription := ior_subscription i; ior_channels := ior_channels i;
     ior_prev_sample := ior_prev_sample i; ior_prev_time_ms := ior_prev_time_ms i;
     ior_initialized := ior_initialized i;
     cached_cpu_power := cp; cached_gpu_power := gp;
     cached_gpu_freq := gf; cached_gpu_load := gl;
     gpu_freqs := gpu_freqs i |}.

Definition set_gpu_freqs (f : list Z) (i : IORState) : IORState :=
  {| ior_lib_loaded := ior_lib_loaded i; ior_handle := ior_handle i;
     ior_syms := ior_syms i;
     ior_subscription := ior_subscription i; ior_channels := ior_channels i;
     ior_prev_sample := ior_prev_sample i; ior_prev_time_ms := ior_prev_time_ms i;
     ior_initialized := ior_initialized i;
     cached_cpu_power := cached_cpu_power i; cached_gpu_power := cached_gpu_power i;
     cached_gpu_freq := cached_gpu_freq i; cached_gpu_load := cached_gpu_load i;
     gpu_freqs := f |}.

(** A function of the program that may call through a function pointer:
    [None] is the call through a NULL pointer, which ends the process. *)
Definition MC (A : Type) : Type := Globals -> option (A * Globals).

(** [ior_load_framework]: 0 or -1. *)
Definition ior_load_framework (p : Platform) : M Z :=
  fun g =>
    if ior_lib_loaded (ior g) then ((if ior_handle (ior g) then 0 else -1), g)
    else
      let g1 := emit EvDlopen (with_ior (set_ior_lib_loaded true (ior g)) g) in
      match ior_dylib p with
      | None => (-1, with_ior (set_ior_handle false (ior_syms (ior g1)) (ior g1)) g1)
      | Some syms =>
          let g2 := with_ior (set_ior_handle true syms (ior g1)) g1 in
          if negb (pIOReportCopyChannelsInGroup syms)
             || negb (pIOReportCreateSubscription syms)
             || negb (pIOReportCreateSamples syms)
             || negb (pIOReportSimpleGetIntegerValue syms)
          then (-1, g2)
          else (0, g2)
      end.

(** The inner loop of [ior_load_gpu_freqs] over the (frequency, voltage)
    pairs of one "voltage-states9" entry: [remaining] pairs are left,
    starting at pair [i]. *)
Fixpoint parse_voltage_states (bytes : list Z) (remaining : nat) (i : Z)
  (freqs : list Z) : list Z :=
  match remaining with
  | O => freqs
  | S k =>
      if Z.of_nat (List.length freqs) <? MAX_GPU_FREQS then
        let b (j : Z) := byte_at bytes (Z.to_nat (i * 8 + j)) in
        let freq_hz :=
          wrap_unsigned 32
            (Z.lor (Z.lor (Z.lor (b 0) (Z.shiftl (b 1) 8)) (Z.shiftl (b 2) 16))
                   (Z.shiftl (b 3) 24)) in
        let freq_mhz := freq_hz / 1000000 in
        parse_voltage_states bytes k (i + 1)
          (if 0 <? freq_mhz then freqs ++ [freq_mhz] else freqs)
      else freqs
  end.

(** The outer loop of [ior_load_gpu_freqs] over the devices. *)
Fixpoint scan_devices (devices : list (string * option (list Z)))
  (freqs : list Z) : list Z :=
  match devices with
  | [] => freqs
  | (name, data) :: rest =>
      if streq name "pmgr" then
        match data with
        | Some bytes =>
            let count := wrap_signed 32 (Z.of_nat (List.length bytes) / 8) in
            scan_devices rest (parse_voltage_states bytes (Z.to_nat count) 0 freqs)
        | None => scan_devices rest freqs
        end
      else scan_devices rest freqs
  end.

(** [ior_load_gpu_freqs]. *)
Definition ior_load_gpu_freqs (p : Platform) : M unit :=
  fun g =>
    if 0 <? Z.of_nat (List.length (gpu_freqs (ior g))) then (tt, g)
    else
      let g1 := emit EvPmgr g in
      match pmgr p with
      | None => (tt, g1)
      | Some devices =>
          (tt, with_ior (set_gpu_freqs (scan_devices devices (gpu_freqs (ior g1))) (ior g1)) g1)
      end.

(** [ior_init]: 0 or -1. *)
Definition ior_init (p : Platform) : MC Z :=
  fun g =>
    if ior_initialized (ior g) then Some (0, g)
    else
      let (rc, g1) := ior_load_framework p g in
      if negb (rc =? 0) then Some (-1, g1)
      else if negb (pIOReportCopyChannelsInGroup (ior_syms (ior g1))) then None
      else
        let g2 := emit EvIORCopyChannels g1 in
        if negb (ior_energy_channels p) && negb (ior_gpu_channels p) then Some (-1, g2)
        else
          let g3 :=
            with_ior (set_ior_subscription (ior_subscription (ior g2))
                        (ior_channels_copy p) (ior g2)) g2 in
          if negb (ior_channels (ior g3)) then Some (-1, g3)
          else if negb (pIOReportCreateSubscription (ior_syms (ior g3))) then None
          else
            let g4 := emit EvIORSubscribe g3 in
            let g5 :=
              with_ior (set_ior_subscription (ior_subscribe p)
                          (ior_channels (ior g4)) (ior g4)) g4 in
            if negb (ior_subscription (ior g5)) then
              Some (-1, with_ior (set_ior_subscription false false (ior g5)) g5)
            else
              let (_, g6) := ior_load_gpu_freqs p g5 in
              Some (0, with_ior (set_ior_initialized true (ior g6)) g6).

(** [energy_to_watts]. *)
Definition energy_to_watts (energy_val : Z) (unit : string) (duration_ms : Z)
  : spec_float :=
  if duration_ms =? 0 then F32.zero
  else
    let joules_per_sec :=
      F64.div (F64.of_Z energy_val) (F64.div (F64.of_Z duration_ms) (F64.of_Z 1000)) in
    if streq unit "nJ" then float_of_double (F64.div joules_per_sec (F64.of_Z 1000000000))
    else if streq unit "uJ" then float_of_double (F64.div joules_per_sec (F64.of_Z 1000000))
    else if streq unit "mJ" then float_of_double (F64.div joules_per_sec (F64.of_Z 1000))
    else F32.zero.

(** Whether a state name read into [buf] is none of IDLE, OFF, DOWN. *)
Definition is_active_name (buf : string) : bool :=
  negb (streq buf "IDLE") && negb (streq buf "OFF") && negb (streq buf "DOWN").

(** The first loop of [calc_gpu_freq_from_residency], from state [i] on:
    the index of the first state that has a name which is none of IDLE,
    OFF, DOWN; [offset] keeps its initial 0 when there is none.
    [has_name] is whether [pIOReportStateGetNameForIndex] is loaded. *)
Fixpoint find_offset (has_name : bool) (states : list (option string * Z)) (i : Z) : Z :=
  match states with
  | [] => 0
  | (name, _) :: rest =>
      match (if has_name then name else None) with
      | Some buf => if is_active_name buf then i else find_offset has_name rest (i + 1)
      | None => find_offset has_name rest (i + 1)
      end
  end.

(** The second loop, from state [i] on, with the three accumulators. *)
Fixpoint sum_residencies (freqs : list Z) (offset : Z)
  (states : list (option string * Z)) (i : Z)
  (total_residency active_residency : Z) (weighted_freq : spec_float)
  : Z * Z * spec_float :=
  match states with
  | [] => (total_residency, active_residency, weighted_freq)
  | (_, residency) :: rest =>
      let total' := wrap_signed 64 (total_residency + residency) in
      if offset <=? i then
        let active' := wrap_signed 64 (active_residency + residency) in
        let freq_idx := i - offset in
        let weighted' :=
          if freq_idx <? Z.of_nat (List.length freqs)
          then F64.add weighted_freq
                 (F64.mul (F64.of_Z residency) (F64.of_Z (nth (Z.to_nat freq_idx) freqs 0)))
          else weighted_freq in
        sum_residencies freqs offset rest (i + 1) total' active' weighted'
      else sum_residencies freqs offset rest (i + 1) total' active_residency weighted_freq
  end.

(** [calc_gpu_freq_from_residency]: the pair ([*freq_mhz], [*load_pct]),
    computed from the frequency table and the loaded symbols. *)
Definition calc_gpu_freq_from_residency (freqs : list Z) (syms : IORSymbols)
  (channel : IORChannel) : spec_float * spec_float :=
  if Z.of_nat (List.length freqs) =? 0 then (F32.zero, F32.zero)
  else if negb (pIOReportStateGetCount syms) || negb (pIOReportStateGetResidency syms)
  then (F32.zero, F32.zero)
  else
    let state_count := Z.of_nat (List.length (ch_states channel)) in
    if state_count <=? 0 then (F32.zero, F32.zero)
    else
      let offset := find_offset (pIOReportStateGetNameForIndex syms) (ch_states channel) 0 in
      let '(total_residency, active_residency, weighted_freq) :=
        sum_residencies freqs offset (ch_states channel) 0 0 0 F64.zero in
      if (0 <? active_residency) && (0 <? total_residency) then
        (float_of_double (F64.div weighted_freq (F64.of_Z active_residency)),
         F32.mul (F32.div (F32.of_Z active_residency) (F32.of_Z total_residency))
                 (F32.of_Z 100))
      else (F32.zero, F32.zero).

(** The loop of [ior_sample] over the channels of a delta, with the four
    accumulators ([cpu_power], [gpu_power], [gpu_freq], [gpu_load]).
    [None]: [pIOReportSimpleGetIntegerValue] was called while NULL. *)
Fixpoint sample_channels (freqs : list Z) (syms : IORSymbols) (duration_ms : Z)
  (channels : list IORChannel) (acc : spec_float * spec_float * spec_float * spec_float)
  : option (spec_float * spec_float * spec_float * spec_float) :=
  match channels with
  | [] => Some acc
  | ch :: rest =>
      let '(cpu_power, gpu_power, gpu_freq, gpu_load) := acc in
      let group_str :=
        cstr (if pIOReportChannelGetGroup syms then ch_group ch else None) in
      let name_str :=
        cstr (if pIOReportChannelGetChannelName syms then ch_name ch else None) in
      let unit_str :=
        cstr (if pIOReportChannelGetUnitLabel syms then ch_unit ch else None) in
      if streq group_str "Energy Model" then
        if negb (pIOReportSimpleGetIntegerValue syms) then None
        else
          let energy := ch_value ch in
          if strstr name_str "CPU Energy" then
            sample_channels freqs syms duration_ms rest
              (F32.add cpu_power (energy_to_watts energy unit_str duration_ms),
               gpu_power, gpu_freq, gpu_load)
          else if streq name_str "GPU Energy" then
            sample_channels freqs syms duration_ms rest
              (cpu_power,
               F32.add gpu_power (energy_to_watts energy unit_str duration_ms),
               gpu_freq, gpu_load)
          else sample_channels freqs syms duration_ms rest acc
      else if streq group_str "GPU Stats" then
        if streq name_str "GPUPH" then
          let (f, l) := calc_gpu_freq_from_residency freqs syms ch in
          sample_channels freqs syms duration_ms rest (cpu_power, gpu_power, f, l)
        else sample_channels freqs syms duration_ms rest acc
      else sample_channels freqs syms duration_ms rest acc
  end.

(** [ior_sample]. *)
Definition ior_sample (p : Platform) : MC unit :=
  fun g =>
    match (if negb (ior_initialized (ior g)) then ior_init p g else Some (0, g)) with
    | None => None
    | Some (rc, g1) =>
        if negb (rc =? 0) then Some (tt, g1)
        else if negb (ior_subscription (ior g1)) then Some (tt, g1)
        else if negb (pIOReportCreateSamples (ior_syms (ior g1))) then None
        else
          let g2 := emit EvIORCreateSamples g1 in
          match ior_create_samples p with
          | None => Some (tt, g2)
          | Some sample =>
              let now_ms := time_ms p in
              let updated : option Globals :=
                match ior_prev_sample (ior g2) with
                | Some prev =>
                    if 0 <? ior_prev_time_ms (ior g2) then
                      let d := wrap_unsigned 64 (now_ms - ior_prev_time_ms (ior g2)) in
                      let duration_ms := if d <? 10 then 10 else d in
                      if pIOReportCreateSamplesDelta (ior_syms (ior g2)) then
                        let g3 := emit EvIORSamplesDelta g2 in
                        match ior_samples_delta p prev sample with
                        | Some (Some channels) =>
                            match sample_channels (gpu_freqs (ior g3)) (ior_syms (ior g3))
                                    duration_ms channels
                                    (F32.zero, F32.zero, F32.zero, F32.zero) with
                            | None => None
                            | Some (cpu_power, gpu_power, gpu_freq, gpu_load) =>
                                Some (with_ior (set_ior_cached cpu_power gpu_power
                                                  gpu_freq gpu_load (ior g3)) g3)
                            end
                        | _ => Some g3
                        end
                      else Some g2
                    else Some g2
                | None => Some g2
                end in
              match updated with
              | None => None
              | Some g4 => Some (tt, with_ior (set_ior_prev (Some sample) now_ms (ior g4)) g4)
              end
          end
    end.

Definition get_cpu_power : M spec_float := fun g => (cached_cpu_power (ior g), g).
Definition get_gpu_power : M spec_float := fun g => (cached_gpu_power (ior g), g).
Definition get_gpu_freq : M spec_float := fun g => (cached_gpu_freq (ior g), g).
Definition get_gpu_load : M spec_float := fun g => (cached_gpu_load (ior g), g).

(** ** The public API *)

(** [Motherboard], [CPU], [GPU] and [PcStatus] of pcstats.h. *)
Record Motherboard : Type := {
  board_temp : spec_float;
  board_rpm : spec_float;
  board_tick : Z
}.

Record CPU : Type := {
  cpu_temp : spec_float;
  cpu_tempMax : spec_float;
  cpu_load : spec_float;
  cpu_consume : spec_float;
  cpu_tjMax : Z;
  cpu_core1DistanceToTjMax : spec_float;
  cpu_core1Temp : spec_float
}.

Record GPU : Type := {
  gpu_temp : spec_float;
  gpu_tempMax : spec_float;
  gpu_load : spec_float;
  gpu_consume : spec_float;
  gpu_rpm : spec_float;
  gpu_memUsed : spec_float;
  gpu_memTotal : spec_float;
  gpu_freq : spec_float
}.

Record PcStatus : Type := {
  board : Motherboard;
  cpu : CPU;
  gpu : GPU;
  storage : Storage;
  memory : Memory;
  network : Network;
  cmd : Z;
  time_stamp : Z
}.

(** [get_disk_usage]: the [Storage] it fills in. *)
Definition get_disk_usage (p : Platform) : Storage :=
  {| sto_temp := F32.of_Z 0;
     sto_read := F32.of_Z 0;
     sto_write := F32.of_Z 0;
     sto_percent :=
       match statvfs_root p with
       | Some (f_blocks, f_frsize, f_bfree) =>
           let total := wrap_unsigned 64 (f_blocks * f_frsize) in
           let free_space := wrap_unsigned 64 (f_bfree * f_frsize) in
           let used := wrap_unsigned 64 (total - free_space) in
           F32.mul (F32.div (F32.of_Z used) (F32.of_Z total)) (F32.of_Z 100)
       | None => F32.of_Z 0
       end |}.

(** [pcstats_init].  The baseline call of [get_cpu_usage] and the two
    [gettimeofday] calls only touch the state of the simple collectors. *)
Definition pcstats_init (p : Platform) : MC unit :=
  fun g =>
    if pcstats_initialized g then Some (tt, g)
    else
      match ior_sample p g with
      | None => None
      | Some (_, g1) => Some (tt, with_pcstats_initialized true g1)
      end.

(** [pcstats_enable_temps]. *)
Definition pcstats_enable_temps (enable : Z) : M unit :=
  fun g => (tt, with_use_native_temps enable g).

(** [collect_stats]: the structure it fills in.  Every field of
    [*status] is assigned, so the result does not depend on what the
    structure held before. *)
Definition collect_stats (p : Platform) : MC PcStatus :=
  fun g =>
    let now := time_s p in
    let time_stamp := wrap_signed 64 (now + tm_gmtoff p - 3600) in
    let sampled : option Globals :=
      if negb (use_native_temps g =? 0) then
        let (_, g1) := update_temperatures_native p g in
        match ior_sample p g1 with
        | None => None
        | Some (_, g2) => Some g2
        end
      else Some g in
    match sampled with
    | None => None
    | Some g2 =>
        let (fans, g3) := get_fan_info p g2 in
        let (btemp, g4) := smc_get_board_temperature p g3 in
        let ctemp := cached_cpu_temp g4 in
        let tjMax := 100 in
        Some
          ({| board :=
                {| board_temp := btemp;
                   board_rpm := if 0 <? fan_count fans then nth 0 (fan_rpm fans) F32.zero
                                else F32.of_Z 0;
                   board_tick := uptime_seconds p |};
              cpu :=
                {| cpu_temp := ctemp;
                   cpu_tempMax := F32.of_Z 100;
                   cpu_load := cpu_usage p;
                   cpu_consume := cached_cpu_power (ior g4);
                   cpu_tjMax := tjMax;
                   cpu_core1DistanceToTjMax := F32.sub (F32.of_Z tjMax) ctemp;
                   cpu_core1Temp := ctemp |};
              gpu :=
                {| gpu_temp := cached_gpu_temp g4;
                   gpu_tempMax := F32.of_Z 100;
                   gpu_load := cached_gpu_load (ior g4);
                   gpu_consume := cached_gpu_power (ior g4);
                   gpu_rpm := if 1 <? fan_count fans then nth 1 (fan_rpm fans) F32.zero
                              else F32.of_Z 0;
                   gpu_memUsed := F32.of_Z 0;
                   gpu_memTotal := F32.of_Z 0;
                   gpu_freq := cached_gpu_freq (ior g4) |};
              storage := get_disk_usage p;
              memory := memory_usage p;
              network := network_throughput p;
              cmd := 1230;
              time_stamp := time_stamp |},
           g4)
    end.

(** ** The JSON text *)

(** One piece of the output of [snprintf]: literal text of the format
    string, or one converted argument. *)
Inductive Piece : Type :=
| Lit (s : string)
| PctF1 (x : spec_float)
| PctD (n : Z)
| PctLd (n : Z).

(** A double quote, and a name between double quotes. *)
Definition dquote : string := String (ascii_of_nat 34) EmptyString.
Definition quoted (name : string) : string := (dquote ++ name ++ dquote)%string.

Definition with_cmd (c : Z) (s : PcStatus) : PcStatus :=
  {| board := board s; cpu := cpu s; gpu := gpu s; storage := storage s;
     memory := memory s; network := network s; cmd := c;
     time_stamp := time_stamp s |}.

(** The format string of [build_json] with its arguments in place. *)
Definition json_pieces (status : PcStatus) : list Piece :=
  [ Lit "{";
    Lit (quoted "board" ++ ":{" ++ quoted "temp" ++ ":"); PctF1 (board_temp (board status));
    Lit ("," ++ quoted "rpm" ++ ":"); PctF1 (board_rpm (board status));
    Lit ("," ++ quoted "tick" ++ ":"); PctD (board_tick (board status));
    Lit "},";
    Lit (quoted "cpu" ++ ":{" ++ quoted "temp" ++ ":"); PctF1 (cpu_temp (cpu status));
    Lit ("," ++ quoted "tempMax" ++ ":"); PctF1 (cpu_tempMax (cpu status));
    Lit ("," ++ quoted "load" ++ ":"); PctF1 (cpu_load (cpu status));
    Lit ("," ++ quoted "consume" ++ ":"); PctF1 (cpu_consume (cpu status));
    Lit ("," ++ quoted "tjMax" ++ ":"); PctD (cpu_tjMax (cpu status));
    Lit ("," ++ quoted "core1DistanceToTjMax" ++ ":");
    PctF1 (cpu_core1DistanceToTjMax (cpu status));
    Lit ("," ++ quoted "core1Temp" ++ ":"); PctF1 (cpu_core1Temp (cpu status));
    Lit "},";
    Lit (quoted "gpu" ++ ":{" ++ quoted "temp" ++ ":"); PctF1 (gpu_temp (gpu status));
    Lit ("," ++ quoted "tempMax" ++ ":"); PctF1 (gpu_tempMax (gpu status));
    Lit ("," ++ quoted "load" ++ ":"); PctF1 (gpu_load (gpu status));
    Lit ("," ++ quoted "consume" ++ ":"); PctF1 (gpu_consume (gpu status));
    Lit ("," ++ quoted "rpm" ++ ":"); PctF1 (gpu_rpm (gpu status));
    Lit ("," ++ quoted "memUsed" ++ ":"); PctF1 (gpu_memUsed (gpu status));
    Lit ("," ++ quoted "memTotal" ++ ":"); PctF1 (gpu_memTotal (gpu status));
    Lit ("," ++ quoted "freq" ++ ":"); PctF1 (gpu_freq (gpu status));
    Lit "},";
    Lit (quoted "storage" ++ ":{" ++ quoted "temp" ++ ":"); PctF1 (sto_temp (storage status));
    Lit ("," ++ quoted "read" ++ ":"); PctF1 (sto_read (storage status));
    Lit ("," ++ quoted "write" ++ ":"); PctF1 (sto_write (storage status));
    Lit ("," ++ quoted "percent" ++ ":"); PctF1 (sto_percent (storage status));
    Lit "},";
    Lit (quoted "memory" ++ ":{" ++ quoted "used" ++ ":"); PctF1 (mem_used (memory status));
    Lit ("," ++ quoted "avail" ++ ":"); PctF1 (mem_avail (memory status));
    Lit ("," ++ quoted "percent" ++ ":"); PctF1 (mem_percent (memory status));
    Lit "},";
    Lit (quoted "network" ++ ":{" ++ quoted "up" ++ ":"); PctF1 (net_up (network status));
    Lit ("," ++ quoted "down" ++ ":"); PctF1 (net_down (network status));
    Lit "},";
    Lit (quoted "cmd" ++ ":1230,");
    Lit (quoted "time" ++ ":"); PctLd (time_stamp status);
    Lit "}" ]%string.

(** The pieces written one after the other. *)
Definition join (l : list string) : string := fold_right String.append EmptyString l.

(** The C library's conversions are parameters: [fmt_f1 x] is the text
    of ["%.1f"] for the float [x] (passed as a double), [fmt_d n] and
    [fmt_ld n] the texts of ["%d"] and ["%ld"]. *)
Section Printf.
Variable fmt_f1 : spec_float -> string.
Variable fmt_d : Z -> string.
Variable fmt_ld : Z -> string.

Definition render (pc : Piece) : string :=
  match pc with
  | Lit s => s
  | PctF1 x => fmt_f1 x
  | PctD n => fmt_d n
  | PctLd n => fmt_ld n
  end.

(** Everything [snprintf] would write given room. *)
Definition json_text (status : PcStatus) : string :=
  join (map render (json_pieces status)).

(** [build_json]: the return value of [snprintf] and the text left in
    [buffer] (up to its terminating NUL).  For [bufsize] 0 nothing is
    written; otherwise at most [bufsize - 1] characters are. *)
Definition build_json (status : PcStatus) (buffer : string) (bufsize : Z)
  : Z * string :=
  let text := json_text status in
  (Z.of_nat (String.length text),
   if bufsize =? 0 then buffer
   else String.substring 0 (Z.to_nat (bufsize - 1)) text).
End Printf.

(** [s] holds [lit] somewhere. *)
Definition occurs_in (lit s : string) : Prop :=
  exists pre post : string, s = (pre ++ lit ++ post)%string.

(** A model of the C library's conversions, used to run examples:
    decimal integers, and ["%.1f"] as the exact value rounded to one
    decimal, ties to even. *)
Definition printf_d (n : Z) : string := NilZero.string_of_int (Z.to_int n).

Definition printf_f1 (x : spec_float) : string :=
  let sign (s : bool) : string := if s then "-"%string else EmptyString in
  match x with
  | S754_nan => "nan"%string
  | S754_infinity s => (sign s ++ "inf")%string
  | S754_zero s => (sign s ++ "0.0")%string
  | S754_finite s m e =>
      let tenths :=
        if 0 <=? e then Zpos m * 10 * 2 ^ e
        else
          let d := 2 ^ (- e) in
          let q := (Zpos m * 10) / d in
          let r := (Zpos m * 10) mod d in
          match 2 * r ?= d with
          | Lt => q
          | Gt => q + 1
          | Eq => if Z.even q then q else q + 1
          end in
      (sign s ++ printf_d (tenths / 10) ++ "." ++ printf_d (tenths mod 10))%string
  end.

(** ** The aggregation policy, in the words of the design *)

(** The float sum of readings, added from left to right starting at 0. *)
Definition fsum (readings : list spec_float) : spec_float :=
  fold_left F32.add readings F32.zero.

(** The arithmetic mean of the readings strictly inside the window
    ([lo] < t < [hi]), and 0.0 when none is. *)
Definition mean_in_window (lo hi : Z) (readings : list spec_float) : spec_float :=
  let kept := filter (in_window lo hi) readings in
  match kept with
  | [] => F32.zero
  | _ => F32.div (fsum kept) (F32.of_Z (Z.of_nat (List.length kept)))
  end.

(** The decoded reading of a cached key: the value of the key decoded
    with the cached key info, and 0.0 when the read fails. *)
Definition decoded_reading (p : Platform) (k : CachedSMCKey) : spec_float :=
  let out := smc_call p (key_fourcc k) 5 (key_info k) in
  if reply_kr_success out && (reply_result out =? 0)
  then smc_bytes_to_float (reply_bytes out) (data_size (key_info k)) (data_type (key_info k))
  else F32.zero.

(** The static variables once the cache initialisation that opens
    [smc_get_temperatures] and [smc_get_board_temperature] has run. *)
Definition after_cache_init (p : Platform) (g : Globals) : Globals :=
  snd (if negb (smc_cache_initialized (smc g)) then smc_init_cache p g else (tt, g)).

(** The platform calls of one aggregation loop, most recent first. *)
Definition value_reads (keys : list CachedSMCKey) : list Event :=
  rev (map (fun k => EvSMCCall (key_fourcc k) 5) keys).

Definition with_log (l : list Event) (g : Globals) : Globals :=
  {| smc := smc g; ior := ior g; cached_cpu_temp := cached_cpu_temp g;
     cached_gpu_temp := cached_gpu_temp g; use_native_temps := use_native_temps g;
     pcstats_initialized := pcstats_initialized g; log := l |}.

(** ** The frequency residency calculator, in the words of the design *)


Definition Zsum (l : list Z) : Z := fold_right Z.add 0 l.












Definition all_symbols : IORSymbols :=
  {| pIOReportCopyChannelsInGroup := true; pIOReportMergeChannels := true;
     pIOReportCreateSubscription := true; pIOReportCreateSamples := true;
     pIOReportCreateSamplesDelta := true; pIOReportChannelGetGroup := true;
     pIOReportChannelGetSubGroup := true;
     pIOReportChannelGetChannelName := true;
     pIOReportChannelGetUnitLabel := true;
     pIOReportSimpleGetIntegerValue := true; pIOReportStateGetCount := true;
     pIOReportStateGetNameForIndex := true;
     pIOReportStateGetResidency := true |}.




(** ** What a function touches *)

Definition is_smc_event (e : Event) : bool :=
  match e with
  | EvSMCOpen | EvSMCCall _ _ => true
  | _ => false
  end.

(** Everything but the SMC state and the log. *)
Definition frame (g : Globals)
  : IORState * spec_float * spec_float * Z * bool :=
  (ior g, cached_cpu_temp g, cached_gpu_temp g, use_native_temps g,
   pcstats_initialized g).

(** From [g] to [g'] only the SMC state changed and only SMC calls were
    made. *)
Definition smc_only (g g' : Globals) : Prop :=
  frame g' = frame g /\
  exists evs : list Event, log g' = evs ++ log g /\ forallb is_smc_event evs = true.

Definition touches_smc_only {A : Type} (m : M A) : Prop :=
  forall g : Globals, smc_only g (snd (m g)).

(** ** The feature gate, in the words of the design *)

(** [x == 0]. *)
Definition fzero (x : spec_float) : bool := feq x (F32.of_Z 0).

(** Every temperature, power and frequency field of the snapshot is
    zero. *)
Definition thermal_fields_zero (st : PcStatus) : bool :=
  fzero (board_temp (board st)) && fzero (cpu_temp (cpu st))
  && fzero (cpu_tempMax (cpu st)) && (cpu_tjMax (cpu st) =? 0)
  && fzero (cpu_core1DistanceToTjMax (cpu st)) && fzero (cpu_consume (cpu st))
  && fzero (gpu_temp (gpu st)) && fzero (gpu_tempMax (gpu st))
  && fzero (gpu_consume (gpu st)) && fzero (gpu_freq (gpu st)).

(** The cached temperatures, powers, frequency and load are all 0.0, as
    at process start. *)
Definition nothing_sampled (g : Globals) : Prop :=
  cached_cpu_temp g = F32.zero /\ cached_gpu_temp g = F32.zero /\
  cached_cpu_power (ior g) = F32.zero /\ cached_gpu_power (ior g) = F32.zero /\
  cached_gpu_freq (ior g) = F32.zero /\ cached_gpu_load (ior g) = F32.zero.

(** ** The key cache, in the words of the design *)

(** The metadata query for a candidate key succeeds and reports a
    length above 0. *)
Definition accepted (p : Platform) (key : string) : bool :=
  let out := smc_call p (str_to_fourcc key) 9 no_key_info in
  reply_kr_success out && (reply_result out =? 0)
  && (0 <? data_size (reply_key_info out)).

(** The cache entry of a candidate key. *)
Definition entry (p : Platform) (key : string) : CachedSMCKey :=
  {| key_fourcc := str_to_fourcc key;
     key_info := reply_key_info (smc_call p (str_to_fourcc key) 9 no_key_info) |}.

(** What probing the candidates [keys] makes of the cache [cache]: the
    accepted candidates are appended in order until the cache holds
    [MAX_CACHED_KEYS] entries. *)
Definition probed (p : Platform) (keys : list string) (cache : list CachedSMCKey)
  : list CachedSMCKey :=
  cache ++ firstn (Z.to_nat (MAX_CACHED_KEYS - Z.of_nat (List.length cache)))
                  (map (entry p) (filter (accepted p) keys)).

(** The three caches. *)
Definition caches (g : Globals)
  : list CachedSMCKey * list CachedSMCKey * list CachedSMCKey :=
  (cached_cpu_keys (smc g), cached_gpu_keys (smc g), cached_board_keys (smc g)).





(** The metadata probes (command 9) in a log. *)
Definition is_probe (e : Event) : bool :=
  match e with EvSMCCall _ 9 => true | _ => false end.


(** A function that leaves the SMC state alone. *)
Definition keeps_smc_state {A : Type} (m : M A) : Prop :=
  forall g : Globals, smc (snd (m g)) = smc g.

(** ** Example platforms *)

Definition flt_info : SMCKeyDataKeyInfo :=
  {| data_size := 4; data_type := FOURCC_FLT; data_attributes := 0 |}.

Definition key_not_found : SMCReply :=
  {| reply_kr_success := true; reply_result := 132; reply_key_info := no_key_info;
     reply_bytes := repeat 0 32 |}.

Definition info_reply (info : SMCKeyDataKeyInfo) : SMCReply :=
  {| reply_kr_success := true; reply_result := 0; reply_key_info := info;
     reply_bytes := repeat 0 32 |}.

Definition value_reply (info : SMCKeyDataKeyInfo) (bytes : list Z) : SMCReply :=
  {| reply_kr_success := true; reply_result := 0; reply_key_info := info;
     reply_bytes := bytes ++ repeat 0 (32 - List.length bytes) |}.

(** An SMC that knows the keys of [table], each with its key info and
    the bytes of its value, and answers "not found" for every other. *)
Fixpoint smc_of_table (table : list (string * SMCKeyDataKeyInfo * list Z))
  (key cmd : Z) (info : SMCKeyDataKeyInfo) : SMCReply :=
  match table with
  | [] => key_not_found
  | (name, i, bytes) :: rest =>
      if key =? str_to_fourcc name then
        if cmd =? 9 then info_reply i else value_reply i bytes
      else smc_of_table rest key cmd info
  end.

Definition no_memory : Memory :=
  {| mem_used := F32.zero; mem_avail := F32.zero; mem_percent := F32.zero |}.
Definition no_storage : Storage :=
  {| sto_temp := F32.zero; sto_read := F32.zero; sto_write := F32.zero;
     sto_percent := F32.zero |}.
Definition no_network : Network := {| net_up := F32.zero; net_down := F32.zero |}.

(** A machine with the SMC of [table] when [smc_up], no HID services and
    no libIOReport. *)
Definition machine (smc_up : bool)
  (table : list (string * SMCKeyDataKeyInfo * list Z)) : Platform :=
  {| smc_endpoint := smc_up;
     smc_call := smc_of_table table;
     hid_client := false; hid_services := None;
     ior_dylib := None; ior_energy_channels := false; ior_gpu_channels := false;
     ior_channels_copy := false; ior_subscribe := false;
     ior_create_samples := None; ior_samples_delta := fun _ _ => None;
     pmgr := None;
     time_ms := 1700000000000; time_s := 1700000000; tm_gmtoff := 7200;
     statvfs_root := Some (1000000, 4096, 250000);
     cpu_usage := F32.zero; memory_usage := no_memory;
     network_throughput := no_network; uptime_seconds := 60 |}.

(** The four bytes of a float in memory. *)
Definition float_bytes (f : spec_float) : list Z := to_le_bytes 4 (F32.to_bits f).

(** Three CPU die sensors reading 5, 45 and 140 degrees. *)
Definition three_cpu_sensors : Platform :=
  machine true
    [ ("Tp01"%string, flt_info, float_bytes (F32.of_Z 5));
      ("Tp02"%string, flt_info, float_bytes (F32.of_Z 45));
      ("Tp03"%string, flt_info, float_bytes (F32.of_Z 140)) ].

(** A board sensor at 45 degrees, a working SMC, nothing else. *)
Definition board_sensor_machine : Platform :=
  machine true [ ("Tm0P"%string, flt_info, float_bytes (F32.of_Z 45)) ].

(** The process after [pcstats_enable_temps(0)] on a fresh start. *)
Definition temps_disabled : Globals := snd (pcstats_enable_temps 0 initial_globals).


(** A CPU die sensor whose metadata reports 33 bytes of type "flt ",
    its value bytes holding 45.0. *)
Definition oversized_info : SMCKeyDataKeyInfo :=
  {| data_size := 33; data_type := FOURCC_FLT; data_attributes := 0 |}.

Definition oversized_key_machine : Platform :=
  machine true [ ("Tp01"%string, oversized_info, float_bytes (F32.of_Z 45)) ].

(** The process with the SMC connection open and nothing else done. *)
Definition connected : Globals :=
  with_smc (set_smc_conn true initial_smc) initial_globals.

(** The number of HID queries in a log. *)
Definition is_hid_query (e : Event) : bool :=
  match e with EvHIDQuery => true | _ => false end.

Definition hid_queries (l : list Event) : nat := List.length (filter is_hid_query l).

(** Whether a log holds a value fetch (command 5) of the key. *)
Definition fetches_value (key : Z) (l : list Event) : bool :=
  existsb (fun e => match e with
                    | EvSMCCall k c => (k =? key) && (c =? 5)
                    | _ => false
                    end) l.

(** One CPU die sensor at 45 degrees behind an SMC that cannot be opened
    ([cpu_sensor_machine false]) or can ([cpu_sensor_machine true]). *)
Definition cpu_sensor_machine (smc_up : bool) : Platform :=
  machine smc_up [ ("Tp01"%string, flt_info, float_bytes (F32.of_Z 45)) ].

(** The process after [pcstats_enable_temps(1)] on a fresh start. *)
Definition temps_enabled : Globals := snd (pcstats_enable_temps 1 initial_globals).

(** The number of open attempts in a log. *)
Definition open_attempts (l : list Event) : nat :=
  List.length (filter (fun e => match e with EvSMCOpen => true | _ => false end) l).

(** The number of [dlopen] calls in a log. *)
Definition dlopen_calls (l : list Event) : nat :=
  List.length (filter (fun e => match e with EvDlopen => true | _ => false end) l).

(** The four cached outputs of the sampler. *)
Definition sampler_outputs (g : Globals)
  : spec_float * spec_float * spec_float * spec_float :=
  (cached_cpu_power (ior g), cached_gpu_power (ior g),
   cached_gpu_freq (ior g), cached_gpu_load (ior g)).

(** The four symbols [ior_load_framework] insists on. *)
Definition essential_symbols (s : IORSymbols) : bool :=
  pIOReportCopyChannelsInGroup s && pIOReportCreateSubscription s
  && pIOReportCreateSamples s && pIOReportSimpleGetIntegerValue s.

(** The sampler can run without calling through a NULL pointer: the
    essential symbols are loaded, or nothing has been loaded or set up
    yet. *)
Definition ior_callable (g : Globals) : Prop :=
  essential_symbols (ior_syms (ior g)) = true \/
  (ior_lib_loaded (ior g) = false /\ ior_initialized (ior g) = false /\
   ior_subscription (ior g) = false).

(** A snapshot for examples. *)
Definition sample_status : PcStatus :=
  {| board := {| board_temp := F32.of_Z 45; board_rpm := F32.of_Z 1200; board_tick := 60 |};
     cpu := {| cpu_temp := F32.of_Z 55; cpu_tempMax := F32.of_Z 100;
               cpu_load := F32.of_Z 12; cpu_consume := F32.of_Z 7; cpu_tjMax := 100;
               cpu_core1DistanceToTjMax := F32.of_Z 45; cpu_core1Temp := F32.of_Z 55 |};
     gpu := {| gpu_temp := F32.of_Z 60; gpu_tempMax := F32.of_Z 100;
               gpu_load := F32.of_Z 75; gpu_consume := F32.of_Z 3; gpu_rpm := F32.of_Z 0;
               gpu_memUsed := F32.of_Z 0; gpu_memTotal := F32.of_Z 0;
               gpu_freq := F32.of_Z 444 |};
     storage := no_storage; memory := no_memory; network := no_network;
     cmd := 7; time_stamp := 1700003600 |}.

(** ** Further definitions: key codes and request counts *)

(** The four characters a key code packs, most significant first. *)
Definition fourcc_chars (code : Z) : string :=
  let ch (shift : Z) := ascii_of_nat (Z.to_nat ((code / 2 ^ shift) mod 256)) in
  String (ch 24) (String (ch 16) (String (ch 8) (String (ch 0) EmptyString))).

(** The requests (of any command) in a log. *)
Definition is_request (e : Event) : bool :=
  match e with EvSMCCall _ _ => true | _ => false end.

Definition requests (l : list Event) : list Event := filter is_request l.

(** A cache as [smc_init_cache] may leave it for the candidates [keys]:
    within capacity, every entry with a positive length, every key one of
    the candidates. *)
Definition cache_wf (keys : list string) (cache : list CachedSMCKey) : Prop :=
  Z.of_nat (List.length cache) <= MAX_CACHED_KEYS /\
  Forall (fun k => 0 < data_size (key_info k) /\
                   In (key_fourcc k) (map str_to_fourcc keys)) cache.

(** The state after the caches were probed on a machine with three CPU
    sensors. *)
Definition probed_state : Globals := snd (smc_init_cache three_cpu_sensors initial_globals).

Definition caches_wf (g : Globals) : Prop :=
  cache_wf cpu_keys (cached_cpu_keys (smc g)) /\
  cache_wf gpu_keys (cached_gpu_keys (smc g)) /\
  cache_wf board_keys (cached_board_keys (smc g)).

(** From [g] to [g'] the connection was not closed and, if the caches
    were initialised, they and the flag are as before. *)
Definition smc_settled (g g' : Globals) : Prop :=
  (smc_conn (smc g) = true -> smc_conn (smc g') = true) /\
  (smc_cache_initialized (smc g) = true ->
     smc_cache_initialized (smc g') = true /\ caches g' = caches g).

Definition settles {A : Type} (m : M A) : Prop :=
  forall g : Globals, smc_settled g (snd (m g)).

(** ** Further definitions: the fan table *)

(** What a caller of [get_fan_info] may rely on: the count is at most
    [MAX_FANS], every fan below the count has a positive actual RPM, and
    every entry from the count on is the 0 the function starts from. *)
Definition fans_wf (f : FanInfo) : Prop :=
  0 <= fan_count f <= MAX_FANS /\
  List.length (fan_rpm f) = Z.to_nat MAX_FANS /\
  List.length (fan_min_rpm f) = Z.to_nat MAX_FANS /\
  List.length (fan_max_rpm f) = Z.to_nat MAX_FANS /\
  (forall i : nat, Z.of_nat i < fan_count f ->
     fgt (nth i (fan_rpm f) F32.zero) (F32.of_Z 0) = true) /\
  (forall i : nat, fan_count f <= Z.of_nat i < MAX_FANS ->
     nth i (fan_rpm f) F32.zero = F32.of_Z 0 /\
     nth i (fan_min_rpm f) F32.zero = F32.of_Z 0 /\
     nth i (fan_max_rpm f) F32.zero = F32.of_Z 0).

(** ** Further definitions: the HID aggregation, in the words of its comments *)







Definition hid_machine (services : list HIDService) : Platform :=
  {| smc_endpoint := false; smc_call := fun _ _ _ => key_not_found;
     hid_client := true; hid_services := Some services;
     ior_dylib := None; ior_energy_channels := false; ior_gpu_channels := false;
     ior_channels_copy := false; ior_subscribe := false;
     ior_create_samples := None; ior_samples_delta := fun _ _ => None;
     pmgr := None; time_ms := 0; time_s := 0; tm_gmtoff := 0;
     statvfs_root := None; cpu_usage := F32.zero; memory_usage := no_memory;
     network_throughput := no_network; uptime_seconds := 0 |}.

(** ** Further definitions: calling through the loaded symbols *)

(** The state in which the sampler cannot call through a NULL pointer:
    the four essential symbols are loaded, or there is no library handle
    and the sampler is not initialised. *)
Definition ior_safe (g : Globals) : Prop :=
  essential_symbols (ior_syms (ior g)) = true \/
  (ior_handle (ior g) = false /\ ior_initialized (ior g) = false).

(** libIOReport, when [dlopen] finds it, exports the four essential
    symbols. *)
Definition library_sound (p : Platform) : bool :=
  match ior_dylib p with
  | Some syms => essential_symbols syms
  | None => true
  end.

(** A machine without SMC or HID sensors whose libIOReport exports
    [syms], delivers sample [n] at time [now_ms] and reports [channels]
    as the delta of any two samples; "pmgr" holds [states]. *)
Definition ior_machine (syms : IORSymbols) (n : IORSample) (now_ms : Z)
  (channels : list IORChannel) (states : list Z) : Platform :=
  {| smc_endpoint := false; smc_call := fun _ _ _ => key_not_found;
     hid_client := false; hid_services := None;
     ior_dylib := Some syms; ior_energy_channels := true; ior_gpu_channels := true;
     ior_channels_copy := true; ior_subscribe := true;
     ior_create_samples := Some n;
     ior_samples_delta := fun _ _ => Some (Some channels);
     pmgr := Some [("pmgr"%string, Some states)];
     time_ms := now_ms; time_s := now_ms / 1000; tm_gmtoff := 0;
     statvfs_root := None; cpu_usage := F32.zero; memory_usage := no_memory;
     network_throughput := no_network; uptime_seconds := 0 |}.

(** A library that lacks [IOReportCopyChannelsInGroup]. *)
Definition symbols_without_copy_channels : IORSymbols :=
  {| pIOReportCopyChannelsInGroup := false; pIOReportMergeChannels := true;
     pIOReportCreateSubscription := true; pIOReportCreateSamples := true;
     pIOReportCreateSamplesDelta := true; pIOReportChannelGetGroup := true;
     pIOReportChannelGetSubGroup := true;
     pIOReportChannelGetChannelName := true;
     pIOReportChannelGetUnitLabel := true;
     pIOReportSimpleGetIntegerValue := true; pIOReportStateGetCount := true;
     pIOReportStateGetNameForIndex := true;
     pIOReportStateGetResidency := true |}.

(** ** Further definitions: the channel loop, in the words of its comments *)

Section Channels.
Variable syms : IORSymbols.









End Channels.

(** ** Further definitions: one sampling step *)

(** The duration [ior_sample] divides by: the unsigned 64-bit difference
    of the two time stamps, and 10 when that is below 10. *)
Definition sample_duration (prev_ms now_ms : Z) : Z :=
  let d := wrap_unsigned 64 (now_ms - prev_ms) in
  if d <? 10 then 10 else d.





(** ** Further definitions: the serial frame *)

(** The bytes of a C string. *)
Fixpoint bytes_of (s : string) : list Z :=
  match s with
  | EmptyString => []
  | String c rest => code_of c :: bytes_of rest
  end.

Section Send.
Variable fmt_f1 : spec_float -> string.
Variable fmt_d : Z -> string.
Variable fmt_ld : Z -> string.
(** [write k bytes]: what the [k]-th call of [write(fd, ...)] in
    [send_pc_status] returns when given [bytes]. *)
Variable write : nat -> list Z -> Z.

(** [send_pc_status]: its return value and the byte sequences it hands to
    [write], in order.  The messages to [stderr] are left out. *)
Definition send_pc_status (status : PcStatus) : Z * list (list Z) :=
  let (json_len, json_buffer) := build_json fmt_f1 fmt_d fmt_ld status EmptyString 2048 in
  if (json_len <? 0) || (2048 <=? json_len) then (-1, [])
  else
    let header :=
      [code_of "p"; code_of "c"; code_of "s";
       Z.land (Z.shiftr json_len 8) 255; Z.land json_len 255] in
    if negb (write 0%nat header =? 5) then (-1, [header])
    else
      let body := firstn (Z.to_nat json_len) (bytes_of json_buffer) in
      if negb (write 1%nat body =? json_len) then (-1, [header; body])
      else (0, [header; body]).

End Send.

(** A [write] that always writes everything. *)
Definition write_all (k : nat) (bytes : list Z) : Z := Z.of_nat (List.length bytes).

(** A snapshot whose text does not fit: the conversion of a float is a
    text of 100 characters. *)
Definition wide_f1 (x : spec_float) : string :=
  string_of_list_ascii (repeat "9"%char 100).

(** ** Further definitions: the GPU frequency table *)

(** The table holds at most [MAX_GPU_FREQS] entries, each a positive
    number of MHz that a 32-bit count of Hz can give. *)
Definition gpu_table_wf (freqs : list Z) : Prop :=
  Z.of_nat (List.length freqs) <= MAX_GPU_FREQS /\
  Forall (fun f => 0 < f <= 4294) freqs.

(** The bytes of a (frequency, voltage) pair of "voltage-states9". *)
Definition voltage_state (freq_hz voltage : Z) : list Z :=
  to_le_bytes 4 freq_hz ++ to_le_bytes 4 voltage.

(** An M1-like machine: no SMC sensors, one CPU and one GPU sensor on
    the HID event system. *)
Definition m1_machine : Platform :=
  hid_machine
    [ {| hid_product := Some "pACC MTR Temp Sensor0"%string;
         hid_temperature := Some (F64.of_Z 55) |};
      {| hid_product := Some "GPU MTR Temp Sensor1"%string;
         hid_temperature := Some (F64.of_Z 60) |} ].

(** A machine with one fan at 1200 RPM. *)
Definition one_fan_machine : Platform :=
  machine true
    [ ("F0Ac"%string, flt_info, float_bytes (F32.of_Z 1200));
      ("F0Mn"%string, flt_info, float_bytes (F32.of_Z 1000));
      ("F0Mx"%string, flt_info, float_bytes (F32.of_Z 6000)) ].

(** ** Further definitions: the CPU and network collectors *)

(** [prev_total_ticks] and [prev_idle_ticks]. *)
Record CpuTicks : Type := {
  prev_total_ticks : Z;
  prev_idle_ticks : Z
}.

(** The four tick counters of [host_cpu_load_info] are indexed by
    [CPU_STATE_USER] = 0, [CPU_STATE_SYSTEM] = 1, [CPU_STATE_IDLE] = 2 and
    [CPU_STATE_NICE] = 3; [CPU_STATE_MAX] is 4. *)
Definition CPU_STATE_MAX : nat := 4.
Definition CPU_STATE_IDLE : nat := 2.

(** The sum of the loop [for (i = 0; i < CPU_STATE_MAX; i++)
    total_ticks += cpu_ticks[i]], in 64 bits. *)
Definition sum_ticks (cpu_ticks : list Z) : Z :=
  fold_left (fun total i => wrap_unsigned 64 (total + nth i cpu_ticks 0))
    (seq 0 CPU_STATE_MAX) 0.

(** [get_cpu_usage]: [host] is [None] when [host_statistics] fails, else
    the tick counters it fills in. *)
Definition get_cpu_usage (host : option (list Z)) (s : CpuTicks) : spec_float * CpuTicks :=
  match host with
  | None => (F32.zero, s)
  | Some cpu_ticks =>
      let total_ticks := sum_ticks cpu_ticks in
      let idle_ticks := wrap_unsigned 64 (nth CPU_STATE_IDLE cpu_ticks 0) in
      let total_diff := wrap_unsigned 64 (total_ticks - prev_total_ticks s) in
      let idle_diff := wrap_unsigned 64 (idle_ticks - prev_idle_ticks s) in
      let s' := {| prev_total_ticks := total_ticks; prev_idle_ticks := idle_ticks |} in
      if total_diff =? 0 then (F32.zero, s')
      else
        (F32.mul (F32.sub (F32.of_Z 1) (F32.div (F32.of_Z idle_diff) (F32.of_Z total_diff)))
                 (F32.of_Z 100),
         s')
  end.

(** One entry of the list [getifaddrs] returns: whether [ifa_addr] is
    set, whether its family is [AF_LINK], the flags [IFF_UP] and
    [IFF_LOOPBACK], and the counters [ifi_ibytes] and [ifi_obytes] of
    [ifa_data] when that is set. *)
Record Interface : Type := {
  ifa_has_addr : bool;
  ifa_is_link : bool;
  ifa_up : bool;
  ifa_loopback : bool;
  ifa_counters : option (Z * Z)
}.

(** [prev_bytes_in], [prev_bytes_out] and [prev_net_time] (seconds and
    microseconds). *)
Record NetBaseline : Type := {
  prev_bytes_in : Z;
  prev_bytes_out : Z;
  prev_net_time : Z * Z
}.

(** The loop of [get_network_throughput] over the interfaces. *)
Fixpoint count_bytes (ifs : list Interface) (bytes_in bytes_out : Z) : Z * Z :=
  match ifs with
  | [] => (bytes_in, bytes_out)
  | ifa :: rest =>
      if negb (ifa_has_addr ifa) then count_bytes rest bytes_in bytes_out
      else if negb (ifa_is_link ifa) then count_bytes rest bytes_in bytes_out
      else if negb (ifa_up ifa) then count_bytes rest bytes_in bytes_out
      else if ifa_loopback ifa then count_bytes rest bytes_in bytes_out
      else
        match ifa_counters ifa with
        | Some (ibytes, obytes) =>
            count_bytes rest (wrap_unsigned 64 (bytes_in + ibytes))
              (wrap_unsigned 64 (bytes_out + obytes))
        | None => count_bytes rest bytes_in bytes_out
        end
  end.

(** [get_network_throughput]: [now] is the time of [gettimeofday],
    [ifaddrs] is [None] when [getifaddrs] fails. *)
Definition get_network_throughput (now : Z * Z) (ifaddrs : option (list Interface))
  (s : NetBaseline) : Network * NetBaseline :=
  let (bytes_in, bytes_out) :=
    match ifaddrs with
    | Some ifs => count_bytes ifs 0 0
    | None => (0, 0)
    end in
  let time_diff :=
    F64.add (F64.of_Z (fst now - fst (prev_net_time s)))
            (F64.div (F64.of_Z (snd now - snd (prev_net_time s))) (F64.of_Z 1000000)) in
  let rate (cur prev : Z) : spec_float :=
    float_of_double
      (F64.div (F64.mul (F64.div (F32.of_Z (wrap_unsigned 64 (cur - prev))) time_diff)
                        (F64.of_Z 8))
               (F64.of_Z 1000000)) in
  let s' := {| prev_bytes_in := bytes_in; prev_bytes_out := bytes_out;
               prev_net_time := now |} in
  if fgt time_diff (F64.of_Z 0) && (0 <? prev_bytes_in s) then
    ({| net_up := rate bytes_out (prev_bytes_out s);
        net_down := rate bytes_in (prev_bytes_in s) |}, s')
  else ({| net_up := F32.of_Z 0; net_down := F32.of_Z 0 |}, s').

(** Whether the loop counts an interface, and the sum of a counter over
    the counted interfaces. *)
Definition counted (ifa : Interface) : bool :=
  ifa_has_addr ifa && ifa_is_link ifa && ifa_up ifa && negb (ifa_loopback ifa).

Definition counter_sum (pick : Z * Z -> Z) (ifs : list Interface) : Z :=
  Zsum (map (fun ifa => match ifa_counters ifa with Some c => pick c | None => 0 end)
            (filter counted ifs)).

(** The counters are unsigned. *)
Definition counters_nonneg (ifs : list Interface) : Prop :=
  Forall (fun ifa => match ifa_counters ifa with
                     | Some (i, o) => 0 <= i /\ 0 <= o
                     | None => True
                     end) ifs.

(** ** Facts about the encodings *)

Lemma digits2_pos_bounds (m : positive) :
  2 ^ (Zpos (digits2_pos m) - 1) <= Zpos m < 2 ^ Zpos (digits2_pos m).
Proof.
  induction m as [m IH | m IH | ]; cbn [digits2_pos].
  - rewrite Pos2Z.inj_succ.
    replace (Z.succ (Zpos (digits2_pos m)) - 1) with (Z.succ (Zpos (digits2_pos m) - 1)) by lia.
    rewrite !Z.pow_succ_r by lia. lia.
  - rewrite Pos2Z.inj_succ.
    replace (Z.succ (Zpos (digits2_pos m)) - 1) with (Z.succ (Zpos (digits2_pos m) - 1)) by lia.
    rewrite !Z.pow_succ_r by lia. lia.
  - cbn. lia.
Qed.

(** A valid binary32 number is either normal, with a 24-bit mantissa, or
    subnormal at the least exponent. *)
Lemma F32_valid_finite (s : bool) (m : positive) (e : Z) :
  F32.valid (S754_finite s m e) = true ->
  (2 ^ 23 <= Zpos m < 2 ^ 24 /\ -149 <= e <= 104) \/
  (Zpos m < 2 ^ 23 /\ e = -149).
Proof.
  unfold F32.valid, valid_binary, bounded, canonical_mantissa, fexp, emin,
    F32.prec, F32.emax.
  intros H. apply andb_true_iff in H as [Hc He].
  apply Z.eqb_eq in Hc. apply Z.leb_le in He.
  pose proof (digits2_pos_bounds m) as [Hlo Hhi].
  set (d := Zpos (digits2_pos m)) in *.
  destruct (Z.lt_ge_cases d 24) as [Hd | Hd].
  - right. split; [| lia].
    apply Z.lt_le_trans with (1 := Hhi).
    apply Z.pow_le_mono_r; lia.
  - assert (d = 24) as Hd24 by lia.
    rewrite Hd24 in Hlo, Hhi. left. change (24 - 1) with 23 in Hlo. lia.
Qed.

Lemma F32_of_bits_to_bits_valid (f : spec_float) :
  F32.valid f = true -> is_nan f = false ->
  F32.of_bits (F32.to_bits f) = f.
Proof.
  intros Hv Hn. destruct f as [s | s | | s m e]; try discriminate.
  - destruct s; reflexivity.
  - destruct s; reflexivity.
  - apply F32_valid_finite in Hv.
    unfold F32.of_bits, F32.to_bits, float_of_bits, bits_of_float, emin, fprec, femax.
    change (2 ^ (23 + 8)) with 2147483648.
    change (2 ^ (8 - 1)) with 128. change (2 ^ 23) with 8388608 in *.
    change (2 ^ 24) with 16777216 in *. change (2 ^ 8) with 256.
    change (3 - 128 - (23 + 1)) with (-149).
    destruct Hv as [[Hm He] | [Hm He]].
    + destruct (Z.leb_spec 8388608 (Zpos m)) as [_ | Hc]; [| lia].
      set (x := (if s then 2147483648 else 0) + (e - -149 + 1) * 8388608 + (Zpos m - 8388608)).
      assert (x mod 8388608 = Zpos m - 8388608) as Hmant.
      { subst x. destruct s; Z.div_mod_to_equations; lia. }
      assert ((x / 8388608) mod 256 = e + 150) as Hexpo.
      { subst x. destruct s; Z.div_mod_to_equations; lia. }
      assert (Z.odd (x / 2147483648) = s) as Hsign.
      { subst x. destruct s.
        - replace ((2147483648 + (e - -149 + 1) * 8388608 + (Zpos m - 8388608)) / 2147483648)
            with 1 by (Z.div_mod_to_equations; lia). reflexivity.
        - replace ((0 + (e - -149 + 1) * 8388608 + (Zpos m - 8388608)) / 2147483648)
            with 0 by (Z.div_mod_to_equations; lia). reflexivity. }
      rewrite Hmant, Hexpo, Hsign.
      destruct (Z.eqb_spec (e + 150) 0) as [Hz | _]; [lia |].
      destruct (Z.eqb_spec (e + 150) (256 - 1)) as [Hz | _]; [lia |].
      replace (Zpos m - 8388608 + 8388608) with (Zpos m) by lia.
      f_equal. lia.
    + destruct (Z.leb_spec 8388608 (Zpos m)) as [Hc | _]; [lia |].
      set (x := (if s then 2147483648 else 0) + Zpos m).
      assert (x mod 8388608 = Zpos m) as Hmant.
      { subst x. destruct s; Z.div_mod_to_equations; lia. }
      assert ((x / 8388608) mod 256 = 0) as Hexpo.
      { subst x. destruct s; Z.div_mod_to_equations; lia. }
      assert (Z.odd (x / 2147483648) = s) as Hsign.
      { subst x. destruct s.
        - replace ((2147483648 + Zpos m) / 2147483648)
            with 1 by (Z.div_mod_to_equations; lia). reflexivity.
        - replace ((0 + Zpos m) / 2147483648)
            with 0 by (Z.div_mod_to_equations; lia). reflexivity. }
      rewrite Hmant, Hexpo, Hsign. cbn [Z.eqb]. now subst e.
Qed.

Lemma F32_to_bits_range (f : spec_float) :
  F32.valid f = true -> 0 <= F32.to_bits f < 2 ^ 32.
Proof.
  intros Hv. destruct f as [s | s | | s m e].
  - destruct s; cbv; split; congruence.
  - destruct s; cbv; split; congruence.
  - cbv; split; congruence.
  - apply F32_valid_finite in Hv.
    unfold F32.to_bits, bits_of_float, emin, fprec, femax.
    change (2 ^ (23 + 8)) with 2147483648.
    change (2 ^ (8 - 1)) with 128. change (2 ^ 23) with 8388608 in *.
    change (2 ^ 24) with 16777216 in *. change (2 ^ 32) with 4294967296.
    change (3 - 128 - (23 + 1)) with (-149).
    destruct (Z.leb_spec 8388608 (Zpos m)); destruct s; lia.
Qed.

(** Every bit pattern that is not a NaN is recovered from the number it
    denotes: the reinterpretation loses nothing. *)
Lemma F32_to_bits_of_bits (x : Z) :
  0 <= x < 2 ^ 32 -> is_nan (F32.of_bits x) = false ->
  F32.to_bits (F32.of_bits x) = x.
Proof.
  intros Hx. unfold F32.of_bits, F32.to_bits, float_of_bits, emin, fprec, femax.
  change (2 ^ (23 + 8)) with 2147483648.
  change (2 ^ (8 - 1)) with 128. change (2 ^ 23) with 8388608 in *.
  change (2 ^ 8) with 256. change (2 ^ 32) with 4294967296 in Hx.
  change (3 - 128 - (23 + 1)) with (-149).
  assert (x / 2147483648 = 0 \/ x / 2147483648 = 1) as Hs
    by (Z.div_mod_to_equations; lia).
  assert (x = (if Z.odd (x / 2147483648) then 2147483648 else 0)
              + ((x / 8388608) mod 256) * 8388608 + x mod 8388608) as Hdec.
  { destruct Hs as [Hs | Hs]; rewrite Hs; cbn [Z.odd];
      Z.div_mod_to_equations; lia. }
  assert (0 <= x mod 8388608 < 8388608) as Hm by (apply Z.mod_pos_bound; lia).
  assert (0 <= (x / 8388608) mod 256 < 256) as He by (apply Z.mod_pos_bound; lia).
  set (sg := Z.odd (x / 2147483648)) in *.
  set (ex := (x / 8388608) mod 256) in *.
  set (ma := x mod 8388608) in *.
  destruct (Z.eqb_spec ex 0) as [He0 | He0].
  - destruct ma as [| m | m] eqn:Hma; intros _; unfold bits_of_float, emin, fprec, femax.
    + change (2 ^ (23 + 8)) with 2147483648. lia.
    + change (2 ^ (23 + 8)) with 2147483648. change (2 ^ 23) with 8388608.
      destruct (Z.leb_spec 8388608 (Zpos m)); lia.
    + lia.
  - destruct (Z.eqb_spec ex (256 - 1)) as [He1 | He1].
    + destruct (Z.eqb_spec ma 0) as [Hm0 | Hm0]; [| discriminate].
      intros _. unfold bits_of_float.
      change (2 ^ (23 + 8)) with 2147483648. change (2 ^ 23) with 8388608.
      change (2 ^ 8) with 256. lia.
    + destruct (ma + 8388608) as [| m | m] eqn:Hma; try discriminate.
      intros _. unfold bits_of_float, emin, fprec, femax.
      change (2 ^ (23 + 8)) with 2147483648. change (2 ^ 23) with 8388608.
      change (2 ^ (8 - 1)) with 128.
      destruct (Z.leb_spec 8388608 (Zpos m)); lia.
Qed.

Lemma le_bytes_to_le_bytes (n : nat) : forall (x : Z) (rest : list Z),
  0 <= x < 256 ^ Z.of_nat n ->
  le_bytes n (to_le_bytes n x ++ rest) = x.
Proof.
  induction n as [| n IH]; intros x rest Hx.
  - cbn in *. lia.
  - rewrite Nat2Z.inj_succ, Z.pow_succ_r in Hx by lia.
    cbn [to_le_bytes le_bytes app tl byte_at nth].
    rewrite IH by (Z.div_mod_to_equations; lia).
    Z.div_mod_to_equations; lia.
Qed.


Lemma Zrange_In (n : nat) : forall lo x,
  lo <= x < lo + Z.of_nat n -> In x (Zrange lo n).
Proof.
  induction n as [| n IH]; intros lo x Hx.
  - lia.
  - cbn [Zrange]. destruct (Z.eq_dec lo x) as [-> | Hne]; [now left |].
    right. apply IH. lia.
Qed.

Lemma Zrange_In_Z (lo n x : Z) :
  lo <= x < lo + n -> In x (Zrange lo (Z.to_nat n)).
Proof. intros H. apply Zrange_In. rewrite Z2Nat.id; lia. Qed.

Lemma be16_lor (data : list Z) :
  is_byte (byte_at data 0) -> is_byte (byte_at data 1) ->
  Z.lor (Z.shiftl (byte_at data 0) 8) (byte_at data 1) = be16 data.
Proof.
  unfold is_byte, be16. intros H0 H1.
  rewrite Z.shiftl_mul_pow2 by lia. change (2 ^ 8) with 256.
  rewrite <- Z.lxor_lor.
  - rewrite <- Z.add_nocarry_lxor; [lia |].
    apply Z.bits_inj_0. intros n. rewrite Z.land_spec.
    destruct (Z.lt_ge_cases n 8) as [Hn | Hn].
    + destruct (Z.lt_ge_cases n 0) as [Hneg | Hpos].
      * now rewrite (Z.testbit_neg_r _ n).
      * replace (byte_at data 0 * 256) with (byte_at data 0 * 2 ^ 8) by reflexivity.
        now rewrite Z.mul_pow2_bits_low.
    + rewrite (Z.bits_above_log2 (byte_at data 1) n); [apply andb_false_r | lia |].
      destruct (Z.eq_dec (byte_at data 1) 0) as [-> | Hne]; [cbn; lia |].
      apply Z.lt_le_trans with 8; [| exact Hn].
      apply Z.log2_lt_pow2; lia.
  - apply Z.bits_inj_0. intros n. rewrite Z.land_spec.
    destruct (Z.lt_ge_cases n 8) as [Hn | Hn].
    + destruct (Z.lt_ge_cases n 0) as [Hneg | Hpos].
      * now rewrite (Z.testbit_neg_r _ n).
      * replace (byte_at data 0 * 256) with (byte_at data 0 * 2 ^ 8) by reflexivity.
        now rewrite Z.mul_pow2_bits_low.
    + rewrite (Z.bits_above_log2 (byte_at data 1) n); [apply andb_false_r | lia |].
      destruct (Z.eq_dec (byte_at data 1) 0) as [-> | Hne]; [cbn; lia |].
      apply Z.lt_le_trans with 8; [| exact Hn].
      apply Z.log2_lt_pow2; lia.
Qed.

Lemma be16_range (data : list Z) :
  is_byte (byte_at data 0) -> is_byte (byte_at data 1) -> 0 <= be16 data < 65536.
Proof. unfold is_byte, be16. lia. Qed.

Lemma wrap_signed_be16 (data : list Z) :
  0 <= be16 data < 65536 -> wrap_signed 16 (be16 data) = be16_signed data.
Proof.
  intros H. unfold wrap_signed, be16_signed.
  change (2 ^ (16 - 1)) with 32768. change (2 ^ 16) with 65536.
  destruct (Z.ltb_spec (be16 data) 32768); Z.div_mod_to_equations; lia.
Qed.

(** Dividing a 16-bit integer by 256.0f is exact in binary32. *)
Lemma sp78_exact (raw : Z) :
  -32768 <= raw < 32768 ->
  scaled_value 8 (F32.div (F32.of_Z raw) (F32.of_Z 256)) = Some raw.
Proof.
  intros H.
  assert (forallb (fun r => match scaled_value 8 (F32.div (F32.of_Z r) (F32.of_Z 256)) with
                            | Some v => v =? r | None => false end)
                  (Zrange (-32768) (Z.to_nat 65536)) = true) as Hall by (vm_compute; reflexivity).
  rewrite forallb_forall in Hall.
  specialize (Hall raw (Zrange_In_Z (-32768) 65536 raw ltac:(lia))).
  destruct (scaled_value 8 _) as [v |]; [| discriminate].
  apply Z.eqb_eq in Hall. now subst.
Qed.

(** Converting a 16-bit unsigned integer to float is exact. *)
Lemma u16_exact (n : Z) :
  0 <= n < 65536 -> scaled_value 0 (F32.of_Z n) = Some n.
Proof.
  intros H.
  assert (forallb (fun r => match scaled_value 0 (F32.of_Z r) with
                            | Some v => v =? r | None => false end)
                  (Zrange 0 (Z.to_nat 65536)) = true) as Hall by (vm_compute; reflexivity).
  rewrite forallb_forall in Hall.
  specialize (Hall n (Zrange_In_Z 0 65536 n ltac:(lia))).
  destruct (scaled_value 0 _) as [v |]; [| discriminate].
  apply Z.eqb_eq in Hall. now subst.
Qed.

(** ** The decoder *)

Lemma smc_bytes_to_float_flt (data : list Z) (size : Z) :
  4 <= size ->
  smc_bytes_to_float data size FOURCC_FLT = F32.of_bits (le_bytes 4 data).
Proof.
  intros Hs. unfold smc_bytes_to_float.
  destruct (Z.eqb_spec size 0); [lia |].
  rewrite Z.eqb_refl. destruct (Z.leb_spec 4 size); [reflexivity | lia].
Qed.

(** C1: [smc_bytes_to_float] is a total function of the buffer, the length
    and the type tag that applies the decoding rules in priority order.
    Tag "flt " with length >= 4: the first four bytes reinterpreted as a
    binary32 number, bit for bit (the bit pattern of the result is the one
    stored, and every valid finite float stored as its four bytes reads back
    as itself).  Tag "sp78" with length >= 2: the big-endian signed 16-bit
    number divided by 256.0, which is exact; bytes 01 00 give 1.0 and bytes
    FF 00 give -1.0.  Tag "ioft" with length >= 8: the binary64 number in the
    first eight bytes narrowed to float.  Otherwise length 1: the unsigned
    byte; otherwise length 2: the big-endian unsigned 16-bit number.  Every
    other input, length 0 included, gives +0.0.  The three tag constants
    are the packed codes of "flt ", "sp78" and "ioft". *)
Theorem smc_bytes_to_float_rules (data : list Z) (size type : Z) :
  is_byte (byte_at data 0) -> is_byte (byte_at data 1) ->
  (* the three tags *)
  (FOURCC_FLT = str_to_fourcc "flt " /\ FOURCC_SP78 = str_to_fourcc "sp78" /\
   FOURCC_IOFT = str_to_fourcc "ioft") /\
  (* rule 1 *)
  (type = FOURCC_FLT -> 4 <= size ->
     smc_bytes_to_float data size type = F32.of_bits (le_bytes 4 data)) /\
  (forall (x : Z) (rest : list Z),
     0 <= x < 2 ^ 32 -> is_nan (F32.of_bits x) = false -> 4 <= size ->
     F32.to_bits (smc_bytes_to_float (to_le_bytes 4 x ++ rest) size FOURCC_FLT) = x) /\
  (forall (f : spec_float) (rest : list Z),
     F32.valid f = true -> is_finite f = true -> 4 <= size ->
     smc_bytes_to_float (to_le_bytes 4 (F32.to_bits f) ++ rest) size FOURCC_FLT = f) /\
  (* rule 2 *)
  (type = FOURCC_SP78 -> 2 <= size ->
     smc_bytes_to_float data size type
       = F32.div (F32.of_Z (be16_signed data)) (F32.of_Z 256) /\
     scaled_value 8 (smc_bytes_to_float data size type) = Some (be16_signed data)) /\
  smc_bytes_to_float [0x01; 0x00] 2 FOURCC_SP78 = F32.of_Z 1 /\
  smc_bytes_to_float [0xFF; 0x00] 2 FOURCC_SP78 = F32.of_Z (-1) /\
  (* rule 3 *)
  (type = FOURCC_IOFT -> 8 <= size ->
     smc_bytes_to_float data size type
       = float_of_double (F64.of_bits (le_bytes 8 data))) /\
  (* rule 4 *)
  (size = 1 ->
     smc_bytes_to_float data size type = F32.of_Z (byte_at data 0) /\
     scaled_value 0 (smc_bytes_to_float data size type) = Some (byte_at data 0)) /\
  (* rule 5 *)
  (size = 2 -> type <> FOURCC_SP78 ->
     smc_bytes_to_float data size type = F32.of_Z (be16 data) /\
     scaled_value 0 (smc_bytes_to_float data size type) = Some (be16 data)) /\
  (* rule 6 *)
  (~ (type = FOURCC_FLT /\ 4 <= size) ->
   ~ (type = FOURCC_SP78 /\ 2 <= size) ->
   ~ (type = FOURCC_IOFT /\ 8 <= size) ->
   size <> 1 -> size <> 2 ->
     smc_bytes_to_float data size type = F32.zero) /\
  smc_bytes_to_float data 0 type = F32.zero.
Proof.
  intros Hb0 Hb1.
  pose proof (be16_range data Hb0 Hb1) as Hr.
  assert (-32768 <= be16_signed data < 32768) as Hrs.
  { unfold be16_signed. destruct (Z.ltb_spec (be16 data) 32768); lia. }
  repeat apply conj.
  - reflexivity.
  - reflexivity.
  - reflexivity.
  - intros -> Hs. now apply smc_bytes_to_float_flt.
  - intros x rest Hx Hn Hs. rewrite smc_bytes_to_float_flt by exact Hs.
    rewrite le_bytes_to_le_bytes by exact Hx.
    now apply F32_to_bits_of_bits.
  - intros f rest Hv Hf Hs. rewrite smc_bytes_to_float_flt by exact Hs.
    rewrite le_bytes_to_le_bytes by (apply F32_to_bits_range; exact Hv).
    apply F32_of_bits_to_bits_valid; [exact Hv |].
    destruct f; [reflexivity | discriminate | discriminate | reflexivity].
  - intros -> Hs. unfold smc_bytes_to_float.
    destruct (Z.eqb_spec size 0); [lia |].
    cbn [andb Z.eqb FOURCC_SP78 FOURCC_FLT].
    destruct (Z.leb_spec 2 size); [| lia]. cbn [andb].
    rewrite be16_lor, wrap_signed_be16 by assumption.
    split; [reflexivity | now apply sp78_exact].
  - vm_compute. reflexivity.
  - vm_compute. reflexivity.
  - intros -> Hs. unfold smc_bytes_to_float.
    destruct (Z.eqb_spec size 0); [lia |].
    cbn [andb Z.eqb FOURCC_IOFT FOURCC_SP78 FOURCC_FLT].
    destruct (Z.leb_spec 8 size); [reflexivity | lia].
  - intros ->. unfold smc_bytes_to_float.
    cbn [Z.eqb Z.leb Z.compare andb]. rewrite !andb_false_r.
    split; [reflexivity |].
    apply u16_exact. unfold is_byte in Hb0. lia.
  - intros -> Hne. unfold smc_bytes_to_float.
    cbn [Z.eqb Z.leb Z.compare Pos.compare Pos.compare_cont andb].
    rewrite !andb_false_r, andb_true_r.
    destruct (Z.eqb_spec type FOURCC_SP78); [contradiction |].
    rewrite be16_lor by assumption.
    split; [reflexivity | now apply u16_exact].
  - intros H1 H2 H3 H4 H5. unfold smc_bytes_to_float.
    destruct (Z.eqb_spec size 0); [reflexivity |].
    destruct (Z.eqb_spec type FOURCC_FLT), (Z.leb_spec 4 size);
      cbn [andb]; try (exfalso; apply H1; split; assumption).
    all: destruct (Z.eqb_spec type FOURCC_SP78), (Z.leb_spec 2 size);
      cbn [andb]; try (exfalso; apply H2; split; assumption).
    all: destruct (Z.eqb_spec type FOURCC_IOFT), (Z.leb_spec 8 size);
      cbn [andb]; try (exfalso; apply H3; split; assumption).
    all: destruct (Z.eqb_spec size 1); [contradiction |].
    all: destruct (Z.eqb_spec size 2); [contradiction | reflexivity].
  - reflexivity.
Qed.

Lemma smc_bytes_to_float_rules_witness :
  smc_bytes_to_float [0x2D; 0x80] 2 FOURCC_SP78
    = F32.div (F32.of_Z (be16_signed [0x2D; 0x80])) (F32.of_Z 256) /\
  scaled_value 8 (smc_bytes_to_float [0x2D; 0x80] 2 FOURCC_SP78) = Some 11648.
Proof.
  destruct (smc_bytes_to_float_rules [0x2D; 0x80] 2 FOURCC_SP78) as (_ & _ & _ & _ & H & _).
  - unfold is_byte. cbn. lia.
  - unfold is_byte. cbn. lia.
  - apply H; [reflexivity | lia].
Defined.

(** ** Reads through the cache *)

Lemma smc_read_connected (p : Platform) (key cmd : Z) (info : SMCKeyDataKeyInfo)
  (g : Globals) :
  smc_conn (smc g) = true ->
  smc_read p key cmd info g =
    (let out := smc_call p key cmd info in
     if reply_kr_success out && (reply_result out =? 0) then Some out else None,
     emit (EvSMCCall key cmd) g).
Proof.
  intros Hc. unfold smc_read. rewrite Hc. cbn [negb].
  destruct (reply_kr_success (smc_call p key cmd info)); cbn [negb andb]; [| reflexivity].
  destruct (Z.eqb_spec (reply_result (smc_call p key cmd info)) 132) as [E | _].
  - rewrite E. reflexivity.
  - destruct (reply_result (smc_call p key cmd info) =? 0); reflexivity.
Qed.

Lemma smc_read_disconnected (p : Platform) (key cmd : Z) (info : SMCKeyDataKeyInfo)
  (g : Globals) :
  smc_conn (smc g) = false -> smc_read p key cmd info g = (None, g).
Proof. intros Hc. unfold smc_read. now rewrite Hc. Qed.

Lemma smc_read_temp_cached_connected (p : Platform) (k : CachedSMCKey) (g : Globals) :
  smc_conn (smc g) = true ->
  smc_read_temp_cached p (key_fourcc k) (key_info k) g =
    (decoded_reading p k, emit (EvSMCCall (key_fourcc k) 5) g).
Proof.
  intros Hc. unfold smc_read_temp_cached, bind, decoded_reading.
  rewrite smc_read_connected by exact Hc. cbv zeta.
  destruct (reply_kr_success _ && (reply_result _ =? 0)); reflexivity.
Qed.

Lemma with_log_same (g : Globals) : with_log (log g) g = g.
Proof. now destruct g. Qed.

(** The aggregation loop reads every key once, in order, and folds the
    readings inside the window into the sum and the count. *)
Lemma read_domain_connected (p : Platform) (lo hi : Z) (keys : list CachedSMCKey) :
  forall (sum : spec_float) (count : Z) (g : Globals),
    smc_conn (smc g) = true ->
    read_domain p lo hi keys sum count g =
      let kept := filter (in_window lo hi) (map (decoded_reading p) keys) in
      ((fold_left F32.add kept sum, count + Z.of_nat (List.length kept)),
       with_log (value_reads keys ++ log g) g).
Proof.
  induction keys as [| k keys IH]; intros sum count g Hc.
  - cbn. rewrite Z.add_0_r. now destruct g.
  - cbn [read_domain]. unfold bind.
    rewrite smc_read_temp_cached_connected by exact Hc.
    cbn [map filter].
    destruct (in_window lo hi (decoded_reading p k)).
    + rewrite IH by exact Hc. cbv zeta. cbn [fold_left List.length].
      f_equal; [f_equal; lia |].
      unfold value_reads. cbn [map rev]. rewrite <- app_assoc. reflexivity.
    + rewrite IH by exact Hc. cbv zeta.
      f_equal. unfold value_reads. cbn [map rev]. rewrite <- app_assoc. reflexivity.
Qed.

Lemma mean_of_loop (lo hi : Z) (readings : list spec_float) :
  let kept := filter (in_window lo hi) readings in
  (if 0 <? 0 + Z.of_nat (List.length kept)
   then F32.div (fold_left F32.add kept F32.zero) (F32.of_Z (0 + Z.of_nat (List.length kept)))
   else F32.zero) = mean_in_window lo hi readings.
Proof.
  unfold mean_in_window. cbv zeta.
  destruct (filter (in_window lo hi) readings) as [| x kept]; [reflexivity |].
  rewrite Z.add_0_l.
  destruct (Z.ltb_spec 0 (Z.of_nat (List.length (x :: kept)))) as [_ | H].
  - reflexivity.
  - cbn [List.length] in H. lia.
Qed.

Lemma smc_get_temperatures_value (p : Platform) (g : Globals) :
  fst (smc_get_temperatures p g) =
    let g1 := after_cache_init p g in
    if smc_conn (smc g1)
    then (mean_in_window 10 130 (map (decoded_reading p) (cached_cpu_keys (smc g1))),
          mean_in_window 10 130 (map (decoded_reading p) (cached_gpu_keys (smc g1))))
    else (F32.zero, F32.zero).
Proof.
  unfold smc_get_temperatures, after_cache_init.
  destruct (if negb (smc_cache_initialized (smc g)) then smc_init_cache p g else (tt, g))
    as [u g1]. cbn [snd]. cbv zeta.
  destruct (smc_conn (smc g1)) eqn:Hc; cbn [negb]; [| reflexivity].
  rewrite read_domain_connected by exact Hc. cbv beta iota zeta.
  rewrite read_domain_connected by exact Hc. cbv beta iota zeta.
  cbn [fst]. now rewrite !mean_of_loop.
Qed.

Lemma smc_get_board_temperature_value (p : Platform) (g : Globals) :
  fst (smc_get_board_temperature p g) =
    let g1 := after_cache_init p g in
    if smc_conn (smc g1)
    then mean_in_window 10 100 (map (decoded_reading p) (cached_board_keys (smc g1)))
    else F32.zero.
Proof.
  unfold smc_get_board_temperature, after_cache_init.
  destruct (if negb (smc_cache_initialized (smc g)) then smc_init_cache p g else (tt, g))
    as [u g1]. cbn [snd]. cbv zeta.
  destruct (smc_conn (smc g1)) eqn:Hc; cbn [negb orb]; [| reflexivity].
  destruct (cached_board_keys (smc g1)) as [| k ks] eqn:Hk.
  - reflexivity.
  - replace (Z.of_nat (List.length (k :: ks)) =? 0) with false
      by (symmetry; apply Z.eqb_neq; cbn [List.length]; lia).
    cbv iota.
    rewrite read_domain_connected by exact Hc. cbv beta iota zeta.
    cbn [fst]. now rewrite mean_of_loop.
Qed.

(** C2: the temperature a domain aggregation reports is the arithmetic
    mean of exactly the decoded readings strictly inside the plausibility
    window, (10, 130) for the CPU and GPU domains and (10, 100) for the
    board domain, and 0.0 when no reading is inside; readings 5, 45, 140
    under (10, 130) aggregate to 45.0. *)
Theorem domain_temperature_is_windowed_mean (p : Platform) (g : Globals) :
  (* the three domains of the SMC source *)
  fst (smc_get_temperatures p g) =
    (let g1 := after_cache_init p g in
     if smc_conn (smc g1)
     then (mean_in_window 10 130 (map (decoded_reading p) (cached_cpu_keys (smc g1))),
           mean_in_window 10 130 (map (decoded_reading p) (cached_gpu_keys (smc g1))))
     else (F32.zero, F32.zero)) /\
  fst (smc_get_board_temperature p g) =
    (let g1 := after_cache_init p g in
     if smc_conn (smc g1)
     then mean_in_window 10 100 (map (decoded_reading p) (cached_board_keys (smc g1)))
     else F32.zero) /\
  (* the mean is over the readings inside the window, and only those *)
  (forall (lo hi : Z) (readings : list spec_float),
     let kept := filter (in_window lo hi) readings in
     (forall t, In t kept <-> In t readings /\ flt (F32.of_Z lo) t = true /\ flt t (F32.of_Z hi) = true) /\
     (kept = [] -> mean_in_window lo hi readings = F32.zero) /\
     (kept <> [] ->
        mean_in_window lo hi readings
          = F32.div (fsum kept) (F32.of_Z (Z.of_nat (List.length kept))))) /\
  (* the bounds themselves are outside *)
  in_window 10 130 (F32.of_Z 10) = false /\
  in_window 10 130 (F32.of_Z 130) = false /\
  in_window 10 100 (F32.of_Z 10) = false /\
  in_window 10 100 (F32.of_Z 100) = false /\
  (* the example *)
  mean_in_window 10 130 [F32.of_Z 5; F32.of_Z 45; F32.of_Z 140] = F32.of_Z 45 /\
  fst (fst (smc_get_temperatures three_cpu_sensors initial_globals)) = F32.of_Z 45.
Proof.
  repeat apply conj.
  - apply smc_get_temperatures_value.
  - apply smc_get_board_temperature_value.
  - intros lo hi readings kept. repeat apply conj.
    + intros t. subst kept. rewrite filter_In. unfold in_window, fgt, flt.
      rewrite andb_true_iff. tauto.
    + intros Hk. unfold mean_in_window. fold kept. now rewrite Hk.
    + intros Hk. unfold mean_in_window. fold kept. now destruct kept.
  - vm_compute. reflexivity.
  - vm_compute. reflexivity.
  - vm_compute. reflexivity.
  - vm_compute. reflexivity.
  - vm_compute. reflexivity.
  - vm_compute. reflexivity.
Qed.

(** ** The frequency residency calculator *)



Lemma wrap_signed_64_small (x : Z) :
  - 2 ^ 63 <= x < 2 ^ 63 -> wrap_signed 64 x = x.
Proof.
  intros H. unfold wrap_signed. change (64 - 1) with 63.
  change (2 ^ 64) with (2 * 2 ^ 63).
  rewrite Z.mod_small; lia.
Qed.









(** ** The SMC functions leave everything else alone *)

Lemma smc_only_refl (g : Globals) : smc_only g g.
Proof. split; [reflexivity |]. now exists []. Qed.

Lemma smc_only_trans (g1 g2 g3 : Globals) :
  smc_only g1 g2 -> smc_only g2 g3 -> smc_only g1 g3.
Proof.
  intros [F1 (e1 & L1 & A1)] [F2 (e2 & L2 & A2)]. split; [congruence |].
  exists (e2 ++ e1). rewrite L2, L1, app_assoc. split; [reflexivity |].
  rewrite forallb_app. now rewrite A1, A2.
Qed.

Lemma smc_only_emit (e : Event) (g : Globals) :
  is_smc_event e = true -> smc_only g (emit e g).
Proof.
  intros He. split; [reflexivity |]. exists [e]. split; [reflexivity |].
  cbn. now rewrite He.
Qed.

Lemma smc_only_with_smc (s : SMCState) (g : Globals) : smc_only g (with_smc s g).
Proof. split; [reflexivity |]. now exists []. Qed.

Lemma touches_ret {A : Type} (a : A) : touches_smc_only (ret a).
Proof. intros g. apply smc_only_refl. Qed.

Lemma touches_bind {A B : Type} (m : M A) (k : A -> M B) :
  touches_smc_only m -> (forall a, touches_smc_only (k a)) ->
  touches_smc_only (bind m k).
Proof.
  intros Hm Hk g. unfold bind. specialize (Hm g).
  destruct (m g) as [a g1]. cbn [snd] in Hm.
  apply smc_only_trans with (1 := Hm). apply Hk.
Qed.

Lemma touches_smc_open (p : Platform) : touches_smc_only (smc_open p).
Proof.
  intros g. unfold smc_open.
  destruct (smc_conn (smc g)); [apply smc_only_refl |].
  destruct (smc_endpoint p); cbn [snd].
  - eapply smc_only_trans; [apply (smc_only_emit EvSMCOpen); reflexivity |].
    apply smc_only_with_smc.
  - now apply smc_only_emit.
Qed.

Lemma touches_smc_read (p : Platform) (key cmd : Z) (info : SMCKeyDataKeyInfo) :
  touches_smc_only (smc_read p key cmd info).
Proof.
  intros g. unfold smc_read.
  destruct (negb (smc_conn (smc g))); [apply smc_only_refl |].
  destruct (negb _); [now apply smc_only_emit |].
  destruct (_ =? 132); [now apply smc_only_emit |].
  destruct (negb _); now apply smc_only_emit.
Qed.

Lemma touches_smc_read_key_info (p : Platform) (key : string) :
  touches_smc_only (smc_read_key_info p key).
Proof.
  unfold smc_read_key_info. apply touches_bind; [apply touches_smc_read |].
  intros [out |]; apply touches_ret.
Qed.

Lemma touches_smc_read_key (p : Platform) (key : string) :
  touches_smc_only (smc_read_key p key).
Proof.
  unfold smc_read_key. apply touches_bind; [apply touches_smc_read_key_info |].
  intros [info |]; [| apply touches_ret].
  destruct (32 <? data_size info); [apply touches_ret |].
  apply touches_bind; [apply touches_smc_read |].
  intros [out |]; apply touches_ret.
Qed.

Lemma touches_smc_read_temp_cached (p : Platform) (key : Z) (info : SMCKeyDataKeyInfo) :
  touches_smc_only (smc_read_temp_cached p key info).
Proof.
  unfold smc_read_temp_cached. apply touches_bind; [apply touches_smc_read |].
  intros [out |]; apply touches_ret.
Qed.

Lemma touches_probe_keys (p : Platform) (keys : list string) :
  forall cache : list CachedSMCKey, touches_smc_only (probe_keys p keys cache).
Proof.
  induction keys as [| k keys IH]; intros cache; cbn [probe_keys].
  - apply touches_ret.
  - destruct (_ <? MAX_CACHED_KEYS); [| apply touches_ret].
    apply touches_bind; [apply touches_smc_read_key_info |].
    intros [info |]; [| apply IH].
    destruct (0 <? data_size info); apply IH.
Qed.

Lemma touches_smc_init_cache (p : Platform) : touches_smc_only (smc_init_cache p).
Proof.
  intros g. unfold smc_init_cache.
  destruct (smc_cache_initialized (smc g)); [apply smc_only_refl |].
  pose proof (touches_smc_open p g) as H0.
  destruct (smc_open p g) as [rc g1]. cbn [snd] in H0.
  destruct (negb (rc =? 0)); [exact H0 |].
  pose proof (touches_probe_keys p cpu_keys (cached_cpu_keys (smc g1)) g1) as H1.
  destruct (probe_keys p cpu_keys _ g1) as [c g2]. cbn [snd] in H1.
  pose proof (touches_probe_keys p gpu_keys (cached_gpu_keys (smc g2)) g2) as H2.
  destruct (probe_keys p gpu_keys _ g2) as [u g3]. cbn [snd] in H2.
  pose proof (touches_probe_keys p board_keys (cached_board_keys (smc g3)) g3) as H3.
  destruct (probe_keys p board_keys _ g3) as [b g4]. cbn [snd] in H3.
  cbn [snd].
  eapply smc_only_trans; [exact H0 |].
  eapply smc_only_trans; [exact H1 |].
  eapply smc_only_trans; [exact H2 |].
  eapply smc_only_trans; [exact H3 |].
  apply smc_only_with_smc.
Qed.

Lemma touches_read_domain (p : Platform) (lo hi : Z) (keys : list CachedSMCKey) :
  forall (sum : spec_float) (count : Z),
    touches_smc_only (read_domain p lo hi keys sum count).
Proof.
  induction keys as [| k keys IH]; intros sum count; cbn [read_domain].
  - apply touches_ret.
  - apply touches_bind; [apply touches_smc_read_temp_cached |].
    intros t. destruct (in_window lo hi t); apply IH.
Qed.

Lemma touches_cache_init_if_needed (p : Platform) (g : Globals) :
  smc_only g (after_cache_init p g).
Proof.
  unfold after_cache_init.
  destruct (negb (smc_cache_initialized (smc g)));
    [apply touches_smc_init_cache | apply smc_only_refl].
Qed.

Lemma touches_smc_get_temperatures (p : Platform) :
  touches_smc_only (smc_get_temperatures p).
Proof.
  intros g. unfold smc_get_temperatures.
  pose proof (touches_cache_init_if_needed p g) as H0. unfold after_cache_init in H0.
  destruct (if negb (smc_cache_initialized (smc g)) then smc_init_cache p g else (tt, g))
    as [u g1]. cbn [snd] in H0.
  destruct (negb (smc_conn (smc g1))); [exact H0 |].
  pose proof (touches_read_domain p 10 130 (cached_cpu_keys (smc g1)) F32.zero 0 g1) as H1.
  destruct (read_domain p 10 130 (cached_cpu_keys (smc g1)) F32.zero 0 g1)
    as [[cs cc] g2]. cbn [snd] in H1.
  pose proof (touches_read_domain p 10 130 (cached_gpu_keys (smc g2)) F32.zero 0 g2) as H2.
  destruct (read_domain p 10 130 (cached_gpu_keys (smc g2)) F32.zero 0 g2)
    as [[gs gc] g3]. cbn [snd] in *.
  eapply smc_only_trans; [exact H0 |].
  eapply smc_only_trans; [exact H1 | exact H2].
Qed.

Lemma touches_smc_get_board_temperature (p : Platform) :
  touches_smc_only (smc_get_board_temperature p).
Proof.
  intros g. unfold smc_get_board_temperature.
  pose proof (touches_cache_init_if_needed p g) as H0. unfold after_cache_init in H0.
  destruct (if negb (smc_cache_initialized (smc g)) then smc_init_cache p g else (tt, g))
    as [u g1]. cbn [snd] in H0.
  destruct (negb (smc_conn (smc g1)) || _); [exact H0 |].
  pose proof (touches_read_domain p 10 100 (cached_board_keys (smc g1)) F32.zero 0 g1) as H1.
  destruct (read_domain p 10 100 (cached_board_keys (smc g1)) F32.zero 0 g1)
    as [[bs bc] g2]. cbn [snd] in *.
  eapply smc_only_trans; [exact H0 | exact H1].
Qed.

Lemma touches_fan_loop (p : Platform) (indices : list Z) :
  forall fans : FanInfo, touches_smc_only (fan_loop p indices fans).
Proof.
  induction indices as [| i indices IH]; intros fans; cbn [fan_loop].
  - apply touches_ret.
  - apply touches_bind; [apply touches_smc_read_key |].
    intros rpm. destruct (fgt rpm (F32.of_Z 0)); [| apply touches_ret].
    apply touches_bind; [apply touches_smc_read_key |]. intros mn.
    apply touches_bind; [apply touches_smc_read_key |]. intros mx.
    apply IH.
Qed.

Lemma touches_get_fan_info (p : Platform) : touches_smc_only (get_fan_info p).
Proof.
  unfold get_fan_info. apply touches_bind; [apply touches_smc_open |].
  intros rc. destruct (negb (rc =? 0)); [apply touches_ret | apply touches_fan_loop].
Qed.

(** ** The snapshot with temperature reporting disabled *)

Lemma frame_fields (g g' : Globals) :
  frame g' = frame g ->
  ior g' = ior g /\ cached_cpu_temp g' = cached_cpu_temp g /\
  cached_gpu_temp g' = cached_gpu_temp g /\
  use_native_temps g' = use_native_temps g /\
  pcstats_initialized g' = pcstats_initialized g.
Proof. unfold frame. intros [= -> -> -> -> ->]. repeat split. Qed.

(** With reporting disabled a cycle only talks to the SMC (fans and board
    temperature) and copies the cached values into the snapshot. *)
Lemma collect_stats_disabled (p : Platform) (g : Globals) :
  use_native_temps g = 0 ->
  exists (fans : FanInfo) (btemp : spec_float) (g' : Globals),
    smc_only g g' /\
    collect_stats p g =
      Some
        ({| board :=
              {| board_temp := btemp;
                 board_rpm := if 0 <? fan_count fans then nth 0 (fan_rpm fans) F32.zero
                              else F32.of_Z 0;
                 board_tick := uptime_seconds p |};
            cpu :=
              {| cpu_temp := cached_cpu_temp g;
                 cpu_tempMax := F32.of_Z 100;
                 cpu_load := cpu_usage p;
                 cpu_consume := cached_cpu_power (ior g);
                 cpu_tjMax := 100;
                 cpu_core1DistanceToTjMax := F32.sub (F32.of_Z 100) (cached_cpu_temp g);
                 cpu_core1Temp := cached_cpu_temp g |};
            gpu :=
              {| gpu_temp := cached_gpu_temp g;
                 gpu_tempMax := F32.of_Z 100;
                 gpu_load := cached_gpu_load (ior g);
                 gpu_consume := cached_gpu_power (ior g);
                 gpu_rpm := if 1 <? fan_count fans then nth 1 (fan_rpm fans) F32.zero
                            else F32.of_Z 0;
                 gpu_memUsed := F32.of_Z 0;
                 gpu_memTotal := F32.of_Z 0;
                 gpu_freq := cached_gpu_freq (ior g) |};
            storage := get_disk_usage p;
            memory := memory_usage p;
            network := network_throughput p;
            cmd := 1230;
            time_stamp := wrap_signed 64 (time_s p + tm_gmtoff p - 3600) |},
         g').
Proof.
  intros Hoff. unfold collect_stats. rewrite Hoff. cbn [Z.eqb negb].
  pose proof (touches_get_fan_info p g) as Hf.
  destruct (get_fan_info p g) as [fans g3]. cbn [snd] in Hf.
  pose proof (touches_smc_get_board_temperature p g3) as Hb.
  destruct (smc_get_board_temperature p g3) as [btemp g4]. cbn [snd] in Hb.
  pose proof (smc_only_trans _ _ _ Hf Hb) as Hall.
  destruct (frame_fields _ _ (proj1 Hall)) as (Hi & Hc & Hg & _).
  exists fans, btemp, g4. split; [exact Hall |].
  now rewrite Hi, Hc, Hg.
Qed.

(** After [pcstats_init] on a fresh process nothing has been sampled:
    the warm-up call of [ior_sample] only stores a baseline. *)
Lemma pcstats_init_fresh (p : Platform) :
  exists g : Globals,
    pcstats_init p initial_globals = Some (tt, g) /\
    nothing_sampled g /\ use_native_temps g = 0.
Proof.
  unfold pcstats_init, ior_sample, ior_init, ior_load_framework, ior_load_gpu_freqs.
  cbn.
  destruct (ior_dylib p) as [syms |]; cbn.
  2:{ eexists. split; [reflexivity |]. split; [repeat split | reflexivity]. }
  destruct (pIOReportCopyChannelsInGroup syms) eqn:E1; cbn.
  2:{ eexists. split; [reflexivity |]. split; [repeat split | reflexivity]. }
  destruct (pIOReportCreateSubscription syms) eqn:E2; cbn.
  2:{ eexists. split; [reflexivity |]. split; [repeat split | reflexivity]. }
  destruct (pIOReportCreateSamples syms) eqn:E3; cbn.
  2:{ eexists. split; [reflexivity |]. split; [repeat split | reflexivity]. }
  destruct (pIOReportSimpleGetIntegerValue syms) eqn:E4; cbn.
  2:{ eexists. split; [reflexivity |]. split; [repeat split | reflexivity]. }
  rewrite ?E1, ?E2, ?E3. cbn.
  destruct (ior_energy_channels p), (ior_gpu_channels p); cbn;
  try (eexists; split; [reflexivity |]; split; [repeat split | reflexivity]).
  all: destruct (ior_channels_copy p); cbn; rewrite ?E1, ?E2, ?E3; cbn;
  try (eexists; split; [reflexivity |]; split; [repeat split | reflexivity]).
  all: destruct (ior_subscribe p); cbn; rewrite ?E1, ?E2, ?E3; cbn;
  try (eexists; split; [reflexivity |]; split; [repeat split | reflexivity]).
  all: destruct (pmgr p); cbn; rewrite ?E1, ?E2, ?E3; cbn.
  all: destruct (ior_create_samples p); cbn;
  try (eexists; split; [reflexivity |]; split; [repeat split | reflexivity]).
Qed.

(** C4, as amended: in a cycle run with temperature reporting disabled
    [collect_stats] makes no HID or IOReport call and leaves the cached
    temperatures, powers, frequency and load untouched; cpu.temp,
    cpu.core1Temp, gpu.temp, cpu.consume, gpu.consume, gpu.freq and
    gpu.load of the snapshot are those cached values, hence 0.0 as long as
    nothing has been sampled (as after [pcstats_init] on a fresh process);
    cpu.tempMax and gpu.tempMax are 100.0, cpu.tjMax is 100 and
    cpu.core1DistanceToTjMax is 100 - cpu.temp, so 100.0 when cpu.temp is
    0.0; storage.temp is always 0.0. *)
Theorem disabled_temps_snapshot (p : Platform) (g : Globals) :
  use_native_temps g = 0 ->
  exists (st : PcStatus) (g' : Globals),
    collect_stats p g = Some (st, g') /\
    smc_only g g' /\
    cpu_temp (cpu st) = cached_cpu_temp g /\
    cpu_core1Temp (cpu st) = cached_cpu_temp g /\
    gpu_temp (gpu st) = cached_gpu_temp g /\
    cpu_consume (cpu st) = cached_cpu_power (ior g) /\
    gpu_consume (gpu st) = cached_gpu_power (ior g) /\
    gpu_freq (gpu st) = cached_gpu_freq (ior g) /\
    gpu_load (gpu st) = cached_gpu_load (ior g) /\
    cpu_tempMax (cpu st) = F32.of_Z 100 /\
    gpu_tempMax (gpu st) = F32.of_Z 100 /\
    cpu_tjMax (cpu st) = 100 /\
    cpu_core1DistanceToTjMax (cpu st) = F32.sub (F32.of_Z 100) (cached_cpu_temp g) /\
    sto_temp (storage st) = F32.zero /\
    (nothing_sampled g ->
       nothing_sampled g' /\
       cpu_temp (cpu st) = F32.zero /\ cpu_core1Temp (cpu st) = F32.zero /\
       gpu_temp (gpu st) = F32.zero /\ cpu_consume (cpu st) = F32.zero /\
       gpu_consume (gpu st) = F32.zero /\ gpu_freq (gpu st) = F32.zero /\
       gpu_load (gpu st) = F32.zero /\
       cpu_core1DistanceToTjMax (cpu st) = F32.of_Z 100) /\
    (forall q : Platform,
       exists g0 : Globals,
         pcstats_init q initial_globals = Some (tt, g0) /\
         nothing_sampled g0 /\ use_native_temps g0 = 0).
Proof.
  intros Hoff.
  destruct (collect_stats_disabled p g Hoff) as (fans & btemp & g' & Hsmc & Hrun).
  eexists. exists g'. split; [exact Hrun |]. split; [exact Hsmc |].
  cbn [cpu gpu storage cpu_temp cpu_core1Temp gpu_temp cpu_consume gpu_consume gpu_freq
       gpu_load cpu_tempMax gpu_tempMax cpu_tjMax cpu_core1DistanceToTjMax
       get_disk_usage sto_temp].
  repeat (split; [reflexivity |]).
  split; [| exact pcstats_init_fresh].
  intros (Hct & Hgt & Hcp & Hgp & Hgf & Hgl).
  destruct (frame_fields _ _ (proj1 Hsmc)) as (Hi & Hc & Hg & _).
  rewrite Hct, Hgt, Hcp, Hgp, Hgf, Hgl.
  repeat split; congruence.
Qed.

Lemma disabled_temps_snapshot_witness :
  exists (st : PcStatus) (g' : Globals),
    collect_stats board_sensor_machine temps_disabled = Some (st, g') /\
    cpu_temp (cpu st) = F32.zero /\ cpu_tempMax (cpu st) = F32.of_Z 100.
Proof.
  destruct (disabled_temps_snapshot board_sensor_machine temps_disabled eq_refl)
    as (st & g' & Hrun & _ & Ht & _ & _ & _ & _ & _ & _ & Hmax & _).
  exists st, g'. split; [exact Hrun |]. split; [exact Ht | exact Hmax].
Defined.

(** C4 as worded fails: on a fresh process with reporting disabled the
    snapshot has cpu.tempMax = gpu.tempMax = 100.0, cpu.tjMax = 100 and
    cpu.core1DistanceToTjMax = 100.0, and board.temp is the board sensor's
    45 degrees. *)
Lemma disabled_temps_fields_not_all_zero :
  exists (st : PcStatus) (g' : Globals),
    use_native_temps temps_disabled = 0 /\
    collect_stats board_sensor_machine temps_disabled = Some (st, g') /\
    cpu_tempMax (cpu st) = F32.of_Z 100 /\
    gpu_tempMax (gpu st) = F32.of_Z 100 /\
    cpu_tjMax (cpu st) = 100 /\
    cpu_core1DistanceToTjMax (cpu st) = F32.of_Z 100 /\
    board_temp (board st) = F32.of_Z 45 /\
    thermal_fields_zero st = false.
Proof.
  eexists. eexists. split; [reflexivity |].
  split; [vm_compute; reflexivity |].
  repeat split; vm_compute; reflexivity.
Qed.

(** ** The 32-byte bound on key info *)

(** The uncached read path rejects a key whose metadata reports more
    than 32 bytes: the value is not fetched and 0.0 is returned. *)
Lemma smc_read_key_rejects_oversized (p : Platform) (key : string) (g : Globals) :
  smc_conn (smc g) = true ->
  32 < data_size (reply_key_info (smc_call p (str_to_fourcc key) 9 no_key_info)) ->
  smc_read_key p key g = (F32.zero, emit (EvSMCCall (str_to_fourcc key) 9) g).
Proof.
  intros Hc Hbig. unfold smc_read_key, smc_read_key_info, bind.
  rewrite smc_read_connected by exact Hc. cbv zeta.
  destruct (reply_kr_success _ && (reply_result _ =? 0)); [| reflexivity].
  unfold ret.
  destruct (Z.ltb_spec 32 (data_size (reply_key_info
              (smc_call p (str_to_fourcc key) 9 no_key_info)))); [reflexivity | lia].
Qed.

(** C5 fails on the cached path: a key whose metadata reports 33 bytes
    is admitted by [smc_init_cache], and [smc_read_temp_cached] then
    fetches and decodes its value, which becomes the CPU temperature; the
    uncached path [smc_read_key] rejects the same key without fetching. *)
Theorem oversized_key_is_cached_and_read :
  let run := smc_get_temperatures oversized_key_machine initial_globals in
  map key_info (cached_cpu_keys (smc (snd run))) = [oversized_info] /\
  data_size oversized_info = 33 /\
  fetches_value (str_to_fourcc "Tp01") (log (snd run)) = true /\
  fst (fst run) = F32.of_Z 45 /\
  (let direct := smc_read_key oversized_key_machine "Tp01" connected in
   fst direct = F32.zero /\
   fetches_value (str_to_fourcc "Tp01") (log (snd direct)) = false).
Proof.
  cbv zeta. repeat apply conj; vm_compute; reflexivity.
Qed.

(** ** The fallback to the HID source *)

Lemma smc_only_hid_queries (g g' : Globals) :
  smc_only g g' -> hid_queries (log g') = hid_queries (log g).
Proof.
  intros [_ (evs & -> & Hall)]. unfold hid_queries.
  rewrite filter_app, length_app.
  replace (filter is_hid_query evs) with (@nil Event); [reflexivity |].
  induction evs as [| e evs IH]; [reflexivity |].
  cbn [forallb] in Hall. apply andb_true_iff in Hall as [He Hall].
  cbn [filter]. destruct e; try discriminate; cbn [is_hid_query]; now apply IH.
Qed.

(** C7: in every temperature-reading cycle the HID source is consulted
    exactly when the SMC source yielded 0.0 for both the CPU and the GPU
    temperature; otherwise both SMC results are returned unchanged and no
    HID query is made. *)
Theorem hid_fallback_iff_smc_yields_nothing (p : Platform) (g : Globals) :
  let smc_run := smc_get_temperatures p g in
  let both_zero := fzero (fst (fst smc_run)) && fzero (snd (fst smc_run)) in
  let run := get_apple_silicon_temps p g in
  run = (if both_zero then hid_get_temperatures p (snd smc_run) else smc_run) /\
  hid_queries (log (snd run))
    = (hid_queries (log g) + (if both_zero then 1 else 0))%nat /\
  (both_zero = false -> fst run = fst smc_run /\ log (snd run) = log (snd smc_run)).
Proof.
  cbv zeta.
  pose proof (touches_smc_get_temperatures p g) as Hsmc.
  apply smc_only_hid_queries in Hsmc.
  unfold get_apple_silicon_temps, bind, fzero in *.
  destruct (smc_get_temperatures p g) as [[c u] g1]. cbn [fst snd] in *.
  destruct (feq c (F32.of_Z 0) && feq u (F32.of_Z 0)).
  - repeat apply conj; [reflexivity | | discriminate].
    unfold hid_get_temperatures.
    assert (hid_queries (log (emit EvHIDQuery g1)) = (hid_queries (log g) + 1)%nat) as Hq.
    { unfold hid_queries in *. cbn [emit log filter is_hid_query List.length].
      rewrite Hsmc. lia. }
    destruct (negb (hid_client p)); [exact Hq |].
    destruct (hid_services p) as [services |]; [| exact Hq].
    destruct (hid_loop services F32.zero F32.zero 0 0) as [[[cs gs] cc] gc].
    exact Hq.
  - repeat apply conj; [reflexivity | | intros _; split; reflexivity].
    unfold ret. cbn [snd]. rewrite Hsmc. lia.
Qed.

(** ** The key cache *)

Lemma keeps_ret {A : Type} (a : A) : keeps_smc_state (ret a).
Proof. intros g. reflexivity. Qed.

Lemma keeps_bind {A B : Type} (m : M A) (k : A -> M B) :
  keeps_smc_state m -> (forall a, keeps_smc_state (k a)) -> keeps_smc_state (bind m k).
Proof.
  intros Hm Hk g. unfold bind. specialize (Hm g).
  destruct (m g) as [a g1]. cbn [snd] in Hm. rewrite Hk. exact Hm.
Qed.

Lemma keeps_smc_read (p : Platform) (key cmd : Z) (info : SMCKeyDataKeyInfo) :
  keeps_smc_state (smc_read p key cmd info).
Proof.
  intros g. unfold smc_read.
  destruct (negb (smc_conn (smc g))); [reflexivity |].
  destruct (negb _); [reflexivity |].
  destruct (_ =? 132); [reflexivity |].
  destruct (negb _); reflexivity.
Qed.

Lemma keeps_smc_read_key_info (p : Platform) (key : string) :
  keeps_smc_state (smc_read_key_info p key).
Proof.
  unfold smc_read_key_info. apply keeps_bind; [apply keeps_smc_read |].
  intros [out |]; apply keeps_ret.
Qed.

Lemma keeps_probe_keys (p : Platform) (keys : list string) :
  forall cache : list CachedSMCKey, keeps_smc_state (probe_keys p keys cache).
Proof.
  induction keys as [| k keys IH]; intros cache; cbn [probe_keys].
  - apply keeps_ret.
  - destruct (_ <? MAX_CACHED_KEYS); [| apply keeps_ret].
    apply keeps_bind; [apply keeps_smc_read_key_info |].
    intros [info |]; [| apply IH].
    destruct (0 <? data_size info); apply IH.
Qed.

Lemma smc_read_key_info_connected (p : Platform) (key : string) (g : Globals) :
  smc_conn (smc g) = true ->
  smc_read_key_info p key g =
    (let out := smc_call p (str_to_fourcc key) 9 no_key_info in
     if reply_kr_success out && (reply_result out =? 0)
     then Some (reply_key_info out) else None,
     emit (EvSMCCall (str_to_fourcc key) 9) g).
Proof.
  intros Hc. unfold smc_read_key_info, bind.
  rewrite smc_read_connected by exact Hc. cbv zeta.
  destruct (reply_kr_success _ && (reply_result _ =? 0)); reflexivity.
Qed.

(** A probe loop over an open connection leaves the cache [probed]. *)
Lemma probe_keys_connected (p : Platform) (keys : list string) :
  forall (cache : list CachedSMCKey) (g : Globals),
    smc_conn (smc g) = true ->
    fst (probe_keys p keys cache g) = probed p keys cache.
Proof.
  induction keys as [| k keys IH]; intros cache g Hc; unfold probed; cbn [probe_keys].
  - cbn [filter map]. now rewrite firstn_nil, app_nil_r.
  - destruct (Z.ltb_spec (Z.of_nat (List.length cache)) MAX_CACHED_KEYS) as [Hroom | Hfull].
    + unfold bind. rewrite smc_read_key_info_connected by exact Hc. cbv zeta.
      cbn [filter].
      destruct (reply_kr_success (smc_call p (str_to_fourcc k) 9 no_key_info)
                && (reply_result (smc_call p (str_to_fourcc k) 9 no_key_info) =? 0))
        eqn:Hok.
      * destruct (0 <? data_size (reply_key_info
                   (smc_call p (str_to_fourcc k) 9 no_key_info))) eqn:Hsize.
        -- replace (accepted p k) with true
             by (unfold accepted; now rewrite Hok, Hsize).
           rewrite IH by exact Hc. unfold probed.
           rewrite length_app, Nat2Z.inj_add. cbn [List.length map].
           replace (Z.to_nat (MAX_CACHED_KEYS - Z.of_nat (List.length cache)))
             with (S (Z.to_nat (MAX_CACHED_KEYS - (Z.of_nat (List.length cache) + Z.of_nat 1))))
             by lia.
           cbn [firstn]. rewrite <- app_assoc. reflexivity.
        -- replace (accepted p k) with false
             by (unfold accepted; now rewrite Hok, Hsize).
           rewrite IH by exact Hc. reflexivity.
      * replace (accepted p k) with false by (unfold accepted; now rewrite Hok).
        rewrite IH by exact Hc. reflexivity.
    + replace (Z.to_nat (MAX_CACHED_KEYS - Z.of_nat (List.length cache))) with O by lia.
      cbn [firstn]. now rewrite app_nil_r.
Qed.

(** [smc_init_cache] when the flag is clear and the connection is or
    can be opened: the three caches are probed and the flag is set. *)
Lemma smc_init_cache_probes (p : Platform) (g : Globals) :
  smc_cache_initialized (smc g) = false ->
  smc_conn (smc g) = true \/ smc_endpoint p = true ->
  let g1 := snd (smc_init_cache p g) in
  smc_conn (smc g1) = true /\
  smc_cache_initialized (smc g1) = true /\
  caches g1 = (probed p cpu_keys (cached_cpu_keys (smc g)),
               probed p gpu_keys (cached_gpu_keys (smc g)),
               probed p board_keys (cached_board_keys (smc g))).
Proof.
  intros Hflag Hopen. cbv zeta. unfold smc_init_cache. rewrite Hflag.
  assert (exists g0, smc_open p g = (0, g0) /\ smc_conn (smc g0) = true /\
                     caches g0 = caches g) as (g0 & -> & Hc0 & Hk0).
  { unfold smc_open. destruct (smc_conn (smc g)) eqn:Hc.
    - exists g. repeat split. exact Hc.
    - destruct Hopen as [Hopen | Hopen]; [discriminate |]. rewrite Hopen.
      eexists. repeat split. }
  cbn [Z.eqb negb].
  pose proof (probe_keys_connected p cpu_keys (cached_cpu_keys (smc g0)) g0 Hc0) as P1.
  pose proof (keeps_probe_keys p cpu_keys (cached_cpu_keys (smc g0)) g0) as K1.
  destruct (probe_keys p cpu_keys _ g0) as [c g2]. cbn [fst snd] in P1, K1.
  assert (smc_conn (smc g2) = true) as Hc2 by now rewrite K1.
  pose proof (probe_keys_connected p gpu_keys (cached_gpu_keys (smc g2)) g2 Hc2) as P2.
  pose proof (keeps_probe_keys p gpu_keys (cached_gpu_keys (smc g2)) g2) as K2.
  destruct (probe_keys p gpu_keys _ g2) as [u g3]. cbn [fst snd] in P2, K2.
  assert (smc_conn (smc g3) = true) as Hc3 by now rewrite K2.
  pose proof (probe_keys_connected p board_keys (cached_board_keys (smc g3)) g3 Hc3) as P3.
  pose proof (keeps_probe_keys p board_keys (cached_board_keys (smc g3)) g3) as K3.
  destruct (probe_keys p board_keys _ g3) as [b g4]. cbn [fst snd] in P3, K3.
  assert (smc_conn (smc g4) = true) as Hc4 by now rewrite K3.
  cbn [snd]. unfold caches in *. cbn.
  injection Hk0 as H1 H2 H3.
  repeat split; [exact Hc4 |].
  rewrite P1, P2, P3, K2, K1, H1, H2, H3. reflexivity.
Qed.

(** [smc_init_cache] when the connection cannot be opened: one open
    attempt, and nothing else changes; the flag stays clear. *)
Lemma smc_init_cache_open_fails (p : Platform) (g : Globals) :
  smc_cache_initialized (smc g) = false ->
  smc_conn (smc g) = false -> smc_endpoint p = false ->
  smc_init_cache p g = (tt, emit EvSMCOpen g).
Proof.
  intros Hflag Hc He. unfold smc_init_cache, smc_open. now rewrite Hflag, Hc, He.
Qed.

Lemma smc_init_cache_done (p : Platform) (g : Globals) :
  smc_cache_initialized (smc g) = true -> smc_init_cache p g = (tt, g).
Proof. intros Hflag. unfold smc_init_cache. now rewrite Hflag. Qed.







(** ** Unavailable sources *)

Lemma smc_init_cache_tries_open (q : Platform) (g : Globals) :
  smc_cache_initialized (smc g) = false -> smc_conn (smc g) = false ->
  exists evs : list Event,
    log (snd (smc_init_cache q g)) = evs ++ EvSMCOpen :: log g.
Proof.
  intros Hflag Hconn. unfold smc_init_cache, smc_open. rewrite Hflag, Hconn.
  destruct (smc_endpoint q); cbn [Z.eqb negb snd].
  - set (g0 := with_smc _ _).
    destruct (touches_probe_keys q cpu_keys (cached_cpu_keys (smc g0)) g0) as [_ (e1 & L1 & _)].
    destruct (probe_keys q cpu_keys _ g0) as [c g2]. cbn [snd] in L1.
    destruct (touches_probe_keys q gpu_keys (cached_gpu_keys (smc g2)) g2) as [_ (e2 & L2 & _)].
    destruct (probe_keys q gpu_keys _ g2) as [u g3]. cbn [snd] in L2.
    destruct (touches_probe_keys q board_keys (cached_board_keys (smc g3)) g3) as [_ (e3 & L3 & _)].
    destruct (probe_keys q board_keys _ g3) as [b g4]. cbn [snd] in L3.
    exists (e3 ++ e2 ++ e1). cbn [snd with_smc log]. rewrite L3, L2, L1.
    subst g0. cbn [with_smc emit log]. now rewrite <- !app_assoc.
  - now exists [].
Qed.

Lemma ior_sample_after_failed_dlopen (q : Platform) (g : Globals) :
  ior_lib_loaded (ior g) = true -> ior_handle (ior g) = false ->
  ior_initialized (ior g) = false ->
  ior_sample q g = Some (tt, g).
Proof.
  intros Hl Hh Hi. unfold ior_sample, ior_init, ior_load_framework.
  now rewrite Hi, Hl, Hh.
Qed.

(** C6, as amended.  When [smc_open] fails during a cache
    initialisation, the caches and the flag stay as they were and the SMC
    temperatures of that call are 0.0, but the unavailability is not
    permanent: the next cache initialisation attempts the open again, and
    when it then succeeds the caches are probed and the flag is set.
    When [dlopen] of libIOReport fails, that is permanent: every later
    [ior_sample] returns at once, on any platform and whatever the other
    functions did in between, without another [dlopen] and with the cached
    power, frequency and load unchanged. *)
Theorem unavailable_source_retry_policy (p q : Platform) (g : Globals) :
  (smc_cache_initialized (smc g) = false -> smc_conn (smc g) = false ->
   smc_endpoint p = false ->
     smc_init_cache p g = (tt, emit EvSMCOpen g) /\
     smc_get_temperatures p g = ((F32.zero, F32.zero), emit EvSMCOpen g) /\
     smc_get_board_temperature p g = (F32.zero, emit EvSMCOpen g) /\
     (let later := snd (smc_init_cache q (emit EvSMCOpen g)) in
      (exists evs : list Event, log later = evs ++ EvSMCOpen :: EvSMCOpen :: log g) /\
      (smc_endpoint q = true ->
         smc_conn (smc later) = true /\
         smc_cache_initialized (smc later) = true /\
         caches later = (probed q cpu_keys (cached_cpu_keys (smc g)),
                         probed q gpu_keys (cached_gpu_keys (smc g)),
                         probed q board_keys (cached_board_keys (smc g)))))) /\
  (ior_lib_loaded (ior g) = false -> ior_initialized (ior g) = false ->
   ior_dylib p = None ->
     exists g1 : Globals,
       ior_sample p g = Some (tt, g1) /\
       log g1 = EvDlopen :: log g /\
       sampler_outputs g1 = sampler_outputs g /\
       (forall (q' : Platform) (g2 : Globals),
          ior g2 = ior g1 -> ior_sample q' g2 = Some (tt, g2))).
Proof.
  split.
  - intros Hflag Hconn Hend.
    pose proof (smc_init_cache_open_fails p g Hflag Hconn Hend) as Hinit.
    split; [exact Hinit |].
    split; [| split].
    + unfold smc_get_temperatures. rewrite Hflag. cbn [negb]. rewrite Hinit.
      cbn [emit smc]. now rewrite Hconn.
    + unfold smc_get_board_temperature. rewrite Hflag. cbn [negb]. rewrite Hinit.
      cbn [emit smc]. now rewrite Hconn.
    + cbv zeta. split.
      * apply (smc_init_cache_tries_open q (emit EvSMCOpen g)); assumption.
      * intros Hup.
        apply (smc_init_cache_probes q (emit EvSMCOpen g) Hflag). now right.
  - intros Hl Hi Hd.
    unfold ior_sample, ior_init, ior_load_framework. rewrite Hi, Hl, Hd.
    cbn [negb Z.eqb]. eexists. split; [reflexivity |].
    split; [reflexivity |]. split; [reflexivity |].
    intros q' g2 Hsame.
    apply ior_sample_after_failed_dlopen; rewrite Hsame; [reflexivity | reflexivity | exact Hi].
Qed.

Lemma unavailable_source_retry_policy_witness :
  smc_get_temperatures (cpu_sensor_machine false) initial_globals
    = ((F32.zero, F32.zero), emit EvSMCOpen initial_globals) /\
  smc_cache_initialized
    (smc (snd (smc_init_cache (cpu_sensor_machine true) (emit EvSMCOpen initial_globals))))
    = true /\
  exists g1 : Globals,
    ior_sample (cpu_sensor_machine false) initial_globals = Some (tt, g1) /\
    forall q' : Platform, ior_sample q' g1 = Some (tt, g1).
Proof.
  destruct (unavailable_source_retry_policy (cpu_sensor_machine false)
              (cpu_sensor_machine true) initial_globals) as [Hsmc Hior].
  destruct (Hsmc eq_refl eq_refl eq_refl) as (_ & Ht & _ & _ & Hlater).
  destruct (Hlater eq_refl) as (_ & Hf & _).
  destruct (Hior eq_refl eq_refl eq_refl) as (g1 & Hrun & _ & _ & Hperm).
  split; [exact Ht |]. split; [exact Hf |].
  exists g1. split; [exact Hrun |]. intros q'. now apply Hperm.
Defined.

(** C6 as worded fails for the SMC: after a first cycle in which the
    open fails (three attempts, empty caches, CPU temperature 0.0), a
    second cycle on a machine whose SMC opens attempts the open again,
    fills the CPU cache and reports 45.0. *)
Lemma smc_open_is_retried :
  exists (st1 st2 : PcStatus) (g1 g2 : Globals),
    collect_stats (cpu_sensor_machine false) temps_enabled = Some (st1, g1) /\
    collect_stats (cpu_sensor_machine true) g1 = Some (st2, g2) /\
    cpu_temp (cpu st1) = F32.zero /\
    caches g1 = ([], [], []) /\
    open_attempts (log g1) = 3%nat /\
    open_attempts (log g2) = 4%nat /\
    caches g2 <> ([], [], []) /\
    cpu_temp (cpu st2) = F32.of_Z 45.
Proof.
  do 4 eexists.
  split; [vm_compute; reflexivity |].
  split; [vm_compute; reflexivity |].
  repeat split; try (vm_compute; reflexivity).
  vm_compute. discriminate.
Qed.

(** ** The sampler never calls through a NULL pointer once set up *)

Lemma sample_channels_total (freqs : list Z) (syms : IORSymbols) (d : Z)
  (channels : list IORChannel) :
  pIOReportSimpleGetIntegerValue syms = true ->
  forall acc, exists r, sample_channels freqs syms d channels acc = Some r.
Proof.
  intros Hs. induction channels as [| ch channels IH]; intros acc; cbn [sample_channels].
  - now exists acc.
  - destruct acc as [[[cp gp] gf] gl]. rewrite Hs. cbn [negb].
    destruct (streq _ "Energy Model").
    + destruct (strstr _ "CPU Energy"); [apply IH |].
      destruct (streq _ "GPU Energy"); apply IH.
    + destruct (streq _ "GPU Stats"); [| apply IH].
      destruct (streq _ "GPUPH"); [| apply IH].
      destruct (calc_gpu_freq_from_residency freqs syms ch). apply IH.
Qed.

Lemma essential_symbols_all (s : IORSymbols) :
  essential_symbols s = true ->
  pIOReportCopyChannelsInGroup s = true /\ pIOReportCreateSubscription s = true /\
  pIOReportCreateSamples s = true /\ pIOReportSimpleGetIntegerValue s = true.
Proof.
  unfold essential_symbols. intros H.
  apply andb_true_iff in H as [H H4]. apply andb_true_iff in H as [H H3].
  apply andb_true_iff in H as [H1 H2]. auto.
Qed.

(** The part of [ior_init] after the framework is loaded. *)
Lemma ior_init_total (p : Platform) (g : Globals) :
  ior_callable g ->
  exists (rc : Z) (g1 : Globals),
    ior_init p g = Some (rc, g1) /\
    (rc = 0 -> essential_symbols (ior_syms (ior g1)) = true).
Proof.
  intros Hok. unfold ior_init.
  destruct (ior_initialized (ior g)) eqn:Hi.
  { exists 0, g. split; [reflexivity |]. intros _.
    destruct Hok as [H | (_ & H & _)]; [exact H | congruence]. }
  assert (exists rc g1, ior_load_framework p g = (rc, g1) /\
            (rc = 0 -> essential_symbols (ior_syms (ior g1)) = true))
    as (rc & g1 & -> & Hess).
  { unfold ior_load_framework.
    destruct (ior_lib_loaded (ior g)) eqn:Hl.
    - destruct (ior_handle (ior g)); eexists; eexists; (split; [reflexivity |]).
      + intros _. destruct Hok as [H | (H & _)]; [exact H | congruence].
      + discriminate.
    - destruct (ior_dylib p) as [syms |].
      + destruct (essential_symbols syms) eqn:He.
        * destruct (essential_symbols_all _ He) as (E1 & E2 & E3 & E4).
          rewrite E1, E2, E3, E4. cbn [negb orb].
          eexists; eexists; (split; [reflexivity |]). intros _. exact He.
        * unfold essential_symbols in He.
          destruct (pIOReportCopyChannelsInGroup syms), (pIOReportCreateSubscription syms),
            (pIOReportCreateSamples syms), (pIOReportSimpleGetIntegerValue syms);
            try discriminate; cbn [negb orb];
            eexists; eexists; (split; [reflexivity | discriminate]).
      + eexists; eexists; (split; [reflexivity | discriminate]). }
  destruct (Z.eqb_spec rc 0) as [-> | Hrc]; cbn [negb].
  2:{ exists (-1), g1. split; [reflexivity | discriminate]. }
  specialize (Hess eq_refl).
  destruct (essential_symbols_all _ Hess) as (E1 & E2 & E3 & E4).
  rewrite E1. cbn [negb].
  destruct (negb (ior_energy_channels p) && negb (ior_gpu_channels p)).
  { eexists; eexists; (split; [reflexivity | discriminate]). }
  cbn [with_ior ior set_ior_subscription ior_channels ior_syms emit].
  destruct (ior_channels_copy p); cbn [negb].
  2:{ eexists; eexists; (split; [reflexivity | discriminate]). }
  rewrite E2. cbn [negb].
  cbn [with_ior ior set_ior_subscription ior_subscription ior_channels ior_syms emit].
  destruct (ior_subscribe p); cbn [negb].
  2:{ eexists; eexists; (split; [reflexivity | discriminate]). }
  unfold ior_load_gpu_freqs.
  cbn [with_ior ior set_ior_subscription gpu_freqs emit].
  destruct (0 <? _).
  - eexists; eexists; (split; [reflexivity |]). intros _. exact Hess.
  - destruct (pmgr p); eexists; eexists; (split; [reflexivity |]); intros _; exact Hess.
Qed.

Lemma ior_sample_total (p : Platform) (g : Globals) :
  ior_callable g -> exists g1 : Globals, ior_sample p g = Some (tt, g1).
Proof.
  intros Hok. unfold ior_sample.
  assert (exists rc g1,
            (if negb (ior_initialized (ior g)) then ior_init p g else Some (0, g))
              = Some (rc, g1) /\
            (rc = 0 -> essential_symbols (ior_syms (ior g1)) = true))
    as (rc & g1 & -> & Hess).
  { destruct (ior_initialized (ior g)) eqn:Hi; cbn [negb].
    - exists 0, g. split; [reflexivity |]. intros _.
      destruct Hok as [H | (_ & H & _)]; [exact H | congruence].
    - now apply ior_init_total. }
  destruct (Z.eqb_spec rc 0) as [-> | Hrc]; cbn [negb]; [| now eexists].
  specialize (Hess eq_refl).
  destruct (essential_symbols_all _ Hess) as (E1 & E2 & E3 & E4).
  destruct (ior_subscription (ior g1)); cbn [negb]; [| now eexists].
  rewrite E3. cbn [negb].
  destruct (ior_create_samples p) as [sample |]; [| now eexists].
  cbn [emit ior].
  destruct (ior_prev_sample (ior g1)) as [prev |]; [| now eexists].
  destruct (0 <? ior_prev_time_ms (ior g1)); [| now eexists].
  destruct (pIOReportCreateSamplesDelta (ior_syms (ior g1))); [| now eexists].
  destruct (ior_samples_delta p prev sample) as [[channels |] |]; try now eexists.
  cbn [emit ior].
  match goal with
  | |- context [sample_channels ?f ?s ?d ?c ?a] =>
      destruct (sample_channels_total f s d c E4 a) as ([[[cp gp] gf] gl] & ->)
  end.
  now eexists.
Qed.

(** ** The time field of the snapshot *)

Lemma update_temperatures_native_keeps_ior (p : Platform) (g : Globals) :
  ior (snd (update_temperatures_native p g)) = ior g /\
  use_native_temps (snd (update_temperatures_native p g)) = use_native_temps g.
Proof.
  unfold update_temperatures_native, get_apple_silicon_temps, bind.
  pose proof (touches_smc_get_temperatures p g) as [Hf _].
  destruct (smc_get_temperatures p g) as [t g1]. cbn [snd] in Hf.
  destruct (frame_fields _ _ Hf) as (Hi & _ & _ & Hu & _).
  destruct (feq (fst t) (F32.of_Z 0) && feq (snd t) (F32.of_Z 0)).
  - unfold hid_get_temperatures.
    destruct (negb (hid_client p)); [cbn; auto |].
    destruct (hid_services p) as [services |]; [| cbn; auto].
    destruct (hid_loop services F32.zero F32.zero 0 0) as [[[cs gs] cc] gc].
    cbn. auto.
  - cbn. auto.
Qed.

(** A cycle completes whenever reporting is disabled or the sampler is
    callable, and the time stamp it writes is [now + tm_gmtoff - 3600]. *)
Lemma collect_stats_total (p : Platform) (g : Globals) :
  use_native_temps g = 0 \/ ior_callable g ->
  exists (st : PcStatus) (g' : Globals), collect_stats p g = Some (st, g').
Proof.
  intros Hok. unfold collect_stats.
  destruct (Z.eqb_spec (use_native_temps g) 0) as [Hoff | Hon]; cbn [negb].
  - destruct (get_fan_info p g) as [fans g3].
    destruct (smc_get_board_temperature p g3) as [btemp g4]. now do 2 eexists.
  - destruct Hok as [Hoff | Hcall]; [contradiction |].
    pose proof (update_temperatures_native_keeps_ior p g) as [Hi _].
    destruct (update_temperatures_native p g) as [u g1]. cbn [snd] in Hi.
    assert (ior_callable g1) as Hcall1 by (unfold ior_callable in *; now rewrite Hi).
    destruct (ior_sample_total p g1 Hcall1) as (g2 & ->).
    destruct (get_fan_info p g2) as [fans g3].
    destruct (smc_get_board_temperature p g3) as [btemp g4]. now do 2 eexists.
Qed.

Lemma collect_stats_time_stamp (p : Platform) (g : Globals) (st : PcStatus)
  (g' : Globals) :
  collect_stats p g = Some (st, g') ->
  time_stamp st = wrap_signed 64 (time_s p + tm_gmtoff p - 3600).
Proof.
  unfold collect_stats.
  destruct (if negb (use_native_temps g =? 0)
            then let (_, g1) := update_temperatures_native p g in
                 match ior_sample p g1 with
                 | Some (_, g2) => Some g2
                 | None => None
                 end
            else Some g) as [g2 |]; [| discriminate].
  destruct (get_fan_info p g2) as [fans g3].
  destruct (smc_get_board_temperature p g3) as [btemp g4].
  intros [= <- _]. reflexivity.
Qed.

(** The time field of every snapshot: a sampling cycle completes
    (whenever reporting is disabled or the sampler is callable), and the
    field is the seconds since the epoch plus the host's UTC offset minus
    3600. *)
Lemma snapshot_time_field (p : Platform) (g : Globals) :
  (use_native_temps g = 0 \/ ior_callable g ->
     exists (st : PcStatus) (g' : Globals), collect_stats p g = Some (st, g')) /\
  (forall (st : PcStatus) (g' : Globals),
     collect_stats p g = Some (st, g') ->
     time_stamp st = wrap_signed 64 (time_s p + tm_gmtoff p - 3600) /\
     (- 2 ^ 63 <= time_s p + tm_gmtoff p - 3600 < 2 ^ 63 ->
        time_stamp st = time_s p + tm_gmtoff p - 3600)).
Proof.
  split; [apply collect_stats_total |].
  intros st g' Hrun. pose proof (collect_stats_time_stamp p g st g' Hrun) as Ht.
  split; [exact Ht |]. intros Hrange. rewrite Ht.
  now apply wrap_signed_64_small.
Qed.

(** C9 fails on the code: the comment above the assignment says the
    local time is sent as if it were UTC, but the assignment subtracts a
    further 3600.  With the clock at 1700000000 and a UTC offset of 7200
    seconds the local wall-clock value is 1700007200 and the time field of
    the snapshot is 1700003600. *)
Theorem snapshot_time_is_not_local_time :
  exists (st : PcStatus) (g' : Globals),
    collect_stats (cpu_sensor_machine true) temps_enabled = Some (st, g') /\
    time_s (cpu_sensor_machine true) + tm_gmtoff (cpu_sensor_machine true) = 1700007200 /\
    time_stamp st = 1700003600 /\
    time_stamp st
      = time_s (cpu_sensor_machine true) + tm_gmtoff (cpu_sensor_machine true) - 3600 /\
    time_stamp st <> time_s (cpu_sensor_machine true) + tm_gmtoff (cpu_sensor_machine true).
Proof.
  do 2 eexists. split; [vm_compute; reflexivity |].
  repeat split; vm_compute; congruence.
Qed.

(** ** The JSON text *)

Lemma string_append_assoc (a b c : string) :
  ((a ++ b) ++ c)%string = (a ++ (b ++ c))%string.
Proof. induction a as [| x a IH]; cbn; [reflexivity | now rewrite IH]. Qed.

Lemma join_app (l1 l2 : list string) :
  join (l1 ++ l2) = (join l1 ++ join l2)%string.
Proof.
  induction l1 as [| x l1 IH]; cbn [join app fold_right]; [reflexivity |].
  fold (join (l1 ++ l2)) (join l1). now rewrite IH, string_append_assoc.
Qed.

Lemma substring_whole (s : string) :
  forall n : nat, (String.length s <= n)%nat -> String.substring 0 n s = s.
Proof.
  induction s as [| c s IH]; intros n Hn.
  - now destruct n.
  - destruct n as [| n]; cbn [String.length] in Hn; [lia |].
    cbn [String.substring]. rewrite IH by lia. reflexivity.
Qed.

(** The text does not look at the [cmd] field. *)
Lemma json_pieces_ignore_cmd (c : Z) (status : PcStatus) :
  json_pieces (with_cmd c status) = json_pieces status.
Proof. reflexivity. Qed.

(** The text holds the pair "cmd":1230 whatever the conversions write. *)
Lemma json_text_holds_cmd (fmt_f1 : spec_float -> string) (fmt_d fmt_ld : Z -> string)
  (status : PcStatus) :
  occurs_in (quoted "cmd" ++ ":1230") (json_text fmt_f1 fmt_d fmt_ld status).
Proof.
  unfold occurs_in, json_text.
  rewrite <- (firstn_skipn 61 (json_pieces status)), map_app, join_app.
  exists (join (map (render fmt_f1 fmt_d fmt_ld) (firstn 61 (json_pieces status)))).
  exists ("," ++ quoted "time" ++ ":" ++ fmt_ld (time_stamp status) ++ "}")%string.
  f_equal.
Qed.

(** C10: for every snapshot and every buffer large enough for the text,
    [build_json] leaves in the buffer a text that holds the literal pair
    "cmd":1230, and neither the text nor the return value depends on the
    snapshot's [cmd] field: two snapshots that differ only in [cmd] give
    the same output, for every buffer size. *)
Theorem build_json_cmd_is_fixed (fmt_f1 : spec_float -> string) (fmt_d fmt_ld : Z -> string)
  (status : PcStatus) (buffer : string) (bufsize : Z) :
  Z.of_nat (String.length (json_text fmt_f1 fmt_d fmt_ld status)) < bufsize ->
  snd (build_json fmt_f1 fmt_d fmt_ld status buffer bufsize)
    = json_text fmt_f1 fmt_d fmt_ld status /\
  occurs_in (quoted "cmd" ++ ":1230")
            (snd (build_json fmt_f1 fmt_d fmt_ld status buffer bufsize)) /\
  (forall (other : PcStatus) (size : Z),
     with_cmd 0 other = with_cmd 0 status ->
     build_json fmt_f1 fmt_d fmt_ld other buffer size
       = build_json fmt_f1 fmt_d fmt_ld status buffer size) /\
  (forall (c size : Z),
     build_json fmt_f1 fmt_d fmt_ld (with_cmd c status) buffer size
       = build_json fmt_f1 fmt_d fmt_ld status buffer size).
Proof.
  intros Hroom.
  assert (snd (build_json fmt_f1 fmt_d fmt_ld status buffer bufsize)
            = json_text fmt_f1 fmt_d fmt_ld status) as Hfull.
  { unfold build_json. cbn [snd].
    destruct (Z.eqb_spec bufsize 0) as [Hz | _]; [lia |].
    apply substring_whole. lia. }
  split; [exact Hfull |].
  split; [rewrite Hfull; apply json_text_holds_cmd |].
  split.
  - intros other size Hsame. unfold build_json, json_text.
    rewrite <- (json_pieces_ignore_cmd 0 other), Hsame, json_pieces_ignore_cmd.
    reflexivity.
  - intros c size. reflexivity.
Qed.

Lemma build_json_cmd_is_fixed_witness :
  occurs_in (quoted "cmd" ++ ":1230")
            (snd (build_json printf_f1 printf_d printf_d sample_status EmptyString 2048)) /\
  build_json printf_f1 printf_d printf_d (with_cmd 1230 sample_status) EmptyString 2048
    = build_json printf_f1 printf_d printf_d sample_status EmptyString 2048.
Proof.
  destruct (build_json_cmd_is_fixed printf_f1 printf_d printf_d sample_status
              EmptyString 2048) as (_ & Hcmd & _ & Hany).
  - vm_compute. reflexivity.
  - split; [exact Hcmd | apply Hany].
Defined.

(** * Further properties of the code *)

(** ** Key codes *)

Lemma lor_disjoint (k b n : Z) :
  0 <= n -> 0 <= b < 2 ^ n -> Z.lor (k * 2 ^ n) b = k * 2 ^ n + b.
Proof.
  intros Hn Hb.
  assert (Z.land (k * 2 ^ n) b = 0) as Hland.
  { apply Z.bits_inj_0. intros i. rewrite Z.land_spec.
    destruct (Z.lt_ge_cases i 0) as [Hneg | Hpos].
    - now rewrite (Z.testbit_neg_r _ i).
    - destruct (Z.lt_ge_cases i n) as [Hlow | Hhigh].
      + now rewrite Z.mul_pow2_bits_low.
      + destruct (Z.eq_dec b 0) as [-> | Hb0].
        * rewrite Z.bits_0. apply andb_false_r.
        * rewrite (Z.bits_above_log2 b i); [apply andb_false_r | lia |].
          apply Z.lt_le_trans with n; [| exact Hhigh].
          apply Z.log2_lt_pow2; lia. }
  rewrite <- Z.lxor_lor by exact Hland.
  symmetry. now apply Z.add_nocarry_lxor.
Qed.

Lemma code_of_range (c : ascii) : 0 <= code_of c < 256.
Proof.
  unfold code_of. pose proof (nat_ascii_bounded c). lia.
Qed.

(** The packed code as a base-256 number. *)
Lemma str_to_fourcc_digits (s : string) :
  str_to_fourcc s =
    code_of (char_at s 0) * 2 ^ 24 + code_of (char_at s 1) * 2 ^ 16
    + code_of (char_at s 2) * 2 ^ 8 + code_of (char_at s 3).
Proof.
  unfold str_to_fourcc.
  pose proof (code_of_range (char_at s 0)) as H0.
  pose proof (code_of_range (char_at s 1)) as H1.
  pose proof (code_of_range (char_at s 2)) as H2.
  pose proof (code_of_range (char_at s 3)) as H3.
  rewrite !Z.shiftl_mul_pow2 by lia.
  rewrite (lor_disjoint (code_of (char_at s 0)) (code_of (char_at s 1) * 2 ^ 16) 24)
    by lia.
  replace (code_of (char_at s 0) * 2 ^ 24 + code_of (char_at s 1) * 2 ^ 16)
    with ((code_of (char_at s 0) * 2 ^ 8 + code_of (char_at s 1)) * 2 ^ 16) by lia.
  rewrite (lor_disjoint _ (code_of (char_at s 2) * 2 ^ 8) 16) by lia.
  replace ((code_of (char_at s 0) * 2 ^ 8 + code_of (char_at s 1)) * 2 ^ 16
           + code_of (char_at s 2) * 2 ^ 8)
    with (((code_of (char_at s 0) * 2 ^ 8 + code_of (char_at s 1)) * 2 ^ 8
           + code_of (char_at s 2)) * 2 ^ 8) by lia.
  rewrite (lor_disjoint _ (code_of (char_at s 3)) 8) by lia.
  lia.
Qed.

Lemma fourcc_chars_str_to_fourcc (s : string) :
  String.length s = 4%nat -> fourcc_chars (str_to_fourcc s) = s.
Proof.
  intros Hlen.
  destruct s as [| a0 [| a1 [| a2 [| a3 [| a4 s]]]]]; try discriminate.
  rewrite str_to_fourcc_digits. cbn [char_at String.get].
  pose proof (code_of_range a0) as H0. pose proof (code_of_range a1) as H1.
  pose proof (code_of_range a2) as H2. pose proof (code_of_range a3) as H3.
  unfold fourcc_chars.
  change (2 ^ 24) with 16777216. change (2 ^ 16) with 65536.
  change (2 ^ 8) with 256. change (2 ^ 0) with 1.
  set (x := code_of a0 * 16777216 + code_of a1 * 65536 + code_of a2 * 256 + code_of a3).
  assert ((x / 16777216) mod 256 = code_of a0) as -> by (subst x; Z.div_mod_to_equations; lia).
  assert ((x / 65536) mod 256 = code_of a1) as -> by (subst x; Z.div_mod_to_equations; lia).
  assert ((x / 256) mod 256 = code_of a2) as -> by (subst x; Z.div_mod_to_equations; lia).
  assert ((x / 1) mod 256 = code_of a3) as -> by (subst x; Z.div_mod_to_equations; lia).
  unfold code_of. rewrite !Nat2Z.id, !ascii_nat_embedding. reflexivity.
Qed.

(** X1: [str_to_fourcc] packs a four-character key into a 32-bit code
    without loss: the code is below 2^32, the characters are recovered
    from it, and two different four-character keys never share a code. *)
Theorem str_to_fourcc_injective (s t : string) :
  String.length s = 4%nat -> String.length t = 4%nat ->
  0 <= str_to_fourcc s < 2 ^ 32 /\
  fourcc_chars (str_to_fourcc s) = s /\
  (str_to_fourcc s = str_to_fourcc t -> s = t).
Proof.
  intros Hs Ht. split; [| split].
  - rewrite str_to_fourcc_digits.
    pose proof (code_of_range (char_at s 0)). pose proof (code_of_range (char_at s 1)).
    pose proof (code_of_range (char_at s 2)). pose proof (code_of_range (char_at s 3)).
    lia.
  - now apply fourcc_chars_str_to_fourcc.
  - intros Heq. rewrite <- (fourcc_chars_str_to_fourcc s Hs), Heq.
    now apply fourcc_chars_str_to_fourcc.
Qed.

Lemma str_to_fourcc_injective_witness :
  0 <= str_to_fourcc "Tp01" < 2 ^ 32 /\
  fourcc_chars (str_to_fourcc "Tp01") = "Tp01"%string.
Proof.
  destruct (str_to_fourcc_injective "Tp01" "Tg0f" eq_refl eq_refl) as (Hr & Hc & _).
  split; [exact Hr | exact Hc].
Defined.

(** ** The decoder and the buffer *)

Lemma byte_at_firstn (m i : nat) (data : list Z) :
  (i < m)%nat -> byte_at (firstn m data) i = byte_at data i.
Proof.
  unfold byte_at. revert i data.
  induction m as [| m IH]; intros i data Hi; [lia |].
  destruct data as [| b data]; [reflexivity |].
  destruct i as [| i]; [reflexivity |].
  cbn [firstn nth]. apply IH. lia.
Qed.

Lemma le_bytes_firstn (n : nat) :
  forall (m : nat) (data : list Z),
    (n <= m)%nat -> le_bytes n (firstn m data) = le_bytes n data.
Proof.
  induction n as [| n IH]; intros m data Hn; [reflexivity |].
  destruct m as [| m]; [lia |].
  cbn [le_bytes]. rewrite byte_at_firstn by lia.
  destruct data as [| b data].
  - cbn [firstn tl]. now rewrite <- (IH m []), firstn_nil by lia.
  - cbn [firstn tl]. rewrite IH by lia. reflexivity.
Qed.

(** X2: whatever length the key info claims, [smc_bytes_to_float] looks
    at no byte beyond the first eight: two buffers that agree on their
    first eight bytes decode alike for every size and type, so a size
    above 32 cannot make the decoder run off the 32-byte value buffer. *)
Theorem smc_bytes_to_float_reads_eight_bytes (d1 d2 : list Z) (size type : Z) :
  firstn 8 d1 = firstn 8 d2 ->
  smc_bytes_to_float d1 size type = smc_bytes_to_float d2 size type.
Proof.
  intros Hsame.
  assert (forall n : nat, (n <= 8)%nat -> le_bytes n d1 = le_bytes n d2) as Hle.
  { intros n Hn. rewrite <- (le_bytes_firstn n 8 d1), <- (le_bytes_firstn n 8 d2) by exact Hn.
    now rewrite Hsame. }
  assert (forall i : nat, (i < 8)%nat -> byte_at d1 i = byte_at d2 i) as Hb.
  { intros i Hi. rewrite <- (byte_at_firstn 8 i d1), <- (byte_at_firstn 8 i d2) by exact Hi.
    now rewrite Hsame. }
  unfold smc_bytes_to_float.
  rewrite (Hle 4%nat), (Hle 8%nat), (Hb 0%nat), (Hb 1%nat) by lia.
  reflexivity.
Qed.

Lemma smc_bytes_to_float_reads_eight_bytes_witness :
  smc_bytes_to_float (float_bytes (F32.of_Z 45) ++ repeat 0 28) 33 FOURCC_FLT
    = smc_bytes_to_float (float_bytes (F32.of_Z 45) ++ repeat 0 4 ++ repeat 255 24) 33 FOURCC_FLT.
Proof.
  apply smc_bytes_to_float_reads_eight_bytes. reflexivity.
Defined.

(** ** The two read paths *)

(** X3: the uncached read is a metadata query followed by the cached
    read.  On a closed connection [smc_read_key] returns 0.0 without any
    request; on an open one it always issues the metadata query (command
    9); if that misses, or reports more than 32 bytes, it returns 0.0 and
    issues nothing else; otherwise it behaves exactly as
    [smc_read_temp_cached] with the key info just fetched. *)
Theorem smc_read_key_is_info_then_cached_read (p : Platform) (key : string)
  (g : Globals) :
  let out := smc_call p (str_to_fourcc key) 9 no_key_info in
  let hit := reply_kr_success out && (reply_result out =? 0) in
  let g1 := emit (EvSMCCall (str_to_fourcc key) 9) g in
  (smc_conn (smc g) = false -> smc_read_key p key g = (F32.zero, g)) /\
  (smc_conn (smc g) = true ->
     (hit = false -> smc_read_key p key g = (F32.zero, g1)) /\
     (hit = true -> 32 < data_size (reply_key_info out) ->
        smc_read_key p key g = (F32.zero, g1)) /\
     (hit = true -> data_size (reply_key_info out) <= 32 ->
        smc_read_key p key g
          = smc_read_temp_cached p (str_to_fourcc key) (reply_key_info out) g1)).
Proof.
  cbv zeta. split.
  - intros Hc. unfold smc_read_key, smc_read_key_info, bind.
    now rewrite smc_read_disconnected.
  - intros Hc. unfold smc_read_key, smc_read_key_info, bind.
    rewrite smc_read_connected by exact Hc. cbv zeta.
    destruct (reply_kr_success _ && (reply_result _ =? 0)).
    + repeat apply conj; [discriminate | |]; intros _ Hsize; unfold ret.
      * destruct (Z.ltb_spec 32 (data_size (reply_key_info
                   (smc_call p (str_to_fourcc key) 9 no_key_info)))); [reflexivity | lia].
      * destruct (Z.ltb_spec 32 (data_size (reply_key_info
                   (smc_call p (str_to_fourcc key) 9 no_key_info)))); [lia | reflexivity].
    + repeat apply conj; [reflexivity | discriminate | discriminate].
Qed.

Lemma smc_read_key_is_info_then_cached_read_witness :
  smc_read_key three_cpu_sensors "Tp02" connected
    = smc_read_temp_cached three_cpu_sensors (str_to_fourcc "Tp02") flt_info
        (emit (EvSMCCall (str_to_fourcc "Tp02") 9) connected).
Proof.
  destruct (smc_read_key_is_info_then_cached_read three_cpu_sensors "Tp02" connected)
    as [_ H].
  destruct (H eq_refl) as (_ & _ & Hhit).
  apply Hhit; [reflexivity | vm_compute; discriminate].
Defined.

(** ** The cost of a reading cycle *)

Lemma value_reads_length (keys : list CachedSMCKey) :
  List.length (value_reads keys) = List.length keys.
Proof. unfold value_reads. now rewrite length_rev, length_map. Qed.

Lemma value_reads_no_probe (keys : list CachedSMCKey) :
  filter is_probe (value_reads keys) = [].
Proof.
  unfold value_reads. induction keys as [| k keys IH]; [reflexivity |].
  cbn [map rev]. rewrite filter_app, IH. reflexivity.
Qed.

(** X4: probe once, reuse many.  Once the caches are initialised and
    the connection is open, a call of [smc_get_temperatures] reads every
    cached CPU key and then every cached GPU key exactly once (command 5),
    [smc_get_board_temperature] every cached board key exactly once, and
    neither issues a metadata query nor changes the SMC state. *)
Theorem cached_cycle_reads_each_key_once (p : Platform) (g : Globals) :
  smc_cache_initialized (smc g) = true -> smc_conn (smc g) = true ->
  let cpu := cached_cpu_keys (smc g) in
  let gpu := cached_gpu_keys (smc g) in
  let brd := cached_board_keys (smc g) in
  snd (smc_get_temperatures p g)
    = with_log (value_reads gpu ++ value_reads cpu ++ log g) g /\
  snd (smc_get_board_temperature p g) = with_log (value_reads brd ++ log g) g /\
  List.length (value_reads gpu ++ value_reads cpu)
    = (List.length cpu + List.length gpu)%nat /\
  List.length (value_reads brd) = List.length brd /\
  filter is_probe (value_reads gpu ++ value_reads cpu) = [] /\
  filter is_probe (value_reads brd) = [].
Proof.
  intros Hflag Hconn. cbv zeta. repeat apply conj.
  - unfold smc_get_temperatures. rewrite Hflag. cbn [negb]. rewrite Hconn. cbn [negb].
    rewrite read_domain_connected by exact Hconn. cbv beta iota zeta.
    rewrite read_domain_connected by exact Hconn. cbv beta iota zeta.
    cbn [snd]. unfold with_log. cbn. reflexivity.
  - unfold smc_get_board_temperature. rewrite Hflag. cbn [negb]. rewrite Hconn.
    cbn [negb orb].
    destruct (cached_board_keys (smc g)) as [| k ks] eqn:Hk.
    + cbn. now destruct g.
    + replace (Z.of_nat (List.length (k :: ks)) =? 0) with false
        by (symmetry; apply Z.eqb_neq; cbn [List.length]; lia).
      cbv iota. rewrite read_domain_connected by exact Hconn. cbv beta iota zeta.
      reflexivity.
  - rewrite length_app, !value_reads_length. lia.
  - apply value_reads_length.
  - now rewrite filter_app, !value_reads_no_probe.
  - apply value_reads_no_probe.
Qed.

Lemma cached_cycle_reads_each_key_once_witness :
  snd (smc_get_temperatures three_cpu_sensors probed_state)
    = with_log (value_reads (cached_gpu_keys (smc probed_state))
                ++ value_reads (cached_cpu_keys (smc probed_state)) ++ log probed_state)
        probed_state.
Proof.
  exact (proj1 (cached_cycle_reads_each_key_once three_cpu_sensors probed_state
                  eq_refl eq_refl)).
Defined.

(** ** What the caches hold *)

Lemma firstn_In {A : Type} (n : nat) (l : list A) (x : A) :
  In x (firstn n l) -> In x l.
Proof.
  intros H. rewrite <- (firstn_skipn n l). apply in_or_app. now left.
Qed.

Lemma probed_wf (p : Platform) (keys : list string) (cache : list CachedSMCKey) :
  cache_wf keys cache -> cache_wf keys (probed p keys cache).
Proof.
  intros [Hlen Hall]. unfold probed, cache_wf. split.
  - rewrite length_app, length_firstn. unfold MAX_CACHED_KEYS in *. lia.
  - apply Forall_app. split; [exact Hall |].
    apply Forall_forall. intros k Hk. apply firstn_In in Hk.
    apply in_map_iff in Hk as (name & <- & Hin).
    apply filter_In in Hin as [Hin Hacc].
    unfold accepted in Hacc. apply andb_true_iff in Hacc as [_ Hsize].
    apply Z.ltb_lt in Hsize. cbn [entry key_info key_fourcc]. split; [exact Hsize |].
    now apply in_map.
Qed.

(** X5: [smc_init_cache] keeps every cache within its capacity of 32
    entries and admits only candidates of the domain whose metadata query
    succeeded with a length above 0; a fresh process satisfies this, and
    every call preserves it, on every platform. *)
Theorem smc_init_cache_keeps_caches_well_formed (p : Platform) (g : Globals) :
  caches_wf initial_globals /\
  (caches_wf g -> caches_wf (snd (smc_init_cache p g))).
Proof.
  split.
  - unfold caches_wf, cache_wf. cbn.
    repeat apply conj; solve [discriminate | constructor].
  - intros (Hc & Hu & Hb).
    destruct (smc_cache_initialized (smc g)) eqn:Hflag.
    + rewrite (smc_init_cache_done p g Hflag). cbn [snd]. exact (conj Hc (conj Hu Hb)).
    + destruct (smc_conn (smc g)) eqn:Hconn; [| destruct (smc_endpoint p) eqn:Hend].
      * destruct (smc_init_cache_probes p g Hflag (or_introl Hconn)) as (_ & _ & Hk).
        unfold caches in Hk. injection Hk as Hk1 Hk2 Hk3.
        unfold caches_wf. rewrite Hk1, Hk2, Hk3.
        repeat split; now apply probed_wf.
      * destruct (smc_init_cache_probes p g Hflag (or_intror Hend)) as (_ & _ & Hk).
        unfold caches in Hk. injection Hk as Hk1 Hk2 Hk3.
        unfold caches_wf. rewrite Hk1, Hk2, Hk3.
        repeat split; now apply probed_wf.
      * rewrite (smc_init_cache_open_fails p g Hflag Hconn Hend). cbn [snd].
        exact (conj Hc (conj Hu Hb)).
Qed.

Lemma smc_init_cache_keeps_caches_well_formed_witness :
  caches_wf (snd (smc_init_cache three_cpu_sensors initial_globals)).
Proof.
  destruct (smc_init_cache_keeps_caches_well_formed three_cpu_sensors initial_globals)
    as [Hinit Hstep].
  exact (Hstep Hinit).
Defined.

(** ** The SMC state never goes back *)

Lemma smc_settled_refl (g : Globals) : smc_settled g g.
Proof. split; auto. Qed.

Lemma smc_settled_trans (g1 g2 g3 : Globals) :
  smc_settled g1 g2 -> smc_settled g2 g3 -> smc_settled g1 g3.
Proof.
  intros [C1 F1] [C2 F2]. split; [auto |].
  intros Hf. destruct (F1 Hf) as [Hf2 Hk2]. destruct (F2 Hf2) as [Hf3 Hk3].
  split; [exact Hf3 | congruence].
Qed.

Lemma smc_settled_same_smc (g g' : Globals) : smc g' = smc g -> smc_settled g g'.
Proof. intros H. unfold smc_settled, caches. rewrite H. auto. Qed.

Lemma settles_ret {A : Type} (a : A) : settles (ret a).
Proof. intros g. apply smc_settled_refl. Qed.

Lemma settles_bind {A B : Type} (m : M A) (k : A -> M B) :
  settles m -> (forall a, settles (k a)) -> settles (bind m k).
Proof.
  intros Hm Hk g. unfold bind. specialize (Hm g).
  destruct (m g) as [a g1]. cbn [snd] in Hm.
  apply smc_settled_trans with (1 := Hm). apply Hk.
Qed.

Lemma settles_keeps {A : Type} (m : M A) : keeps_smc_state m -> settles m.
Proof. intros H g. apply smc_settled_same_smc. apply H. Qed.

Lemma settles_smc_open (p : Platform) : settles (smc_open p).
Proof.
  intros g. unfold smc_open.
  destruct (smc_conn (smc g)) eqn:Hc; [apply smc_settled_refl |].
  destruct (smc_endpoint p); cbn [snd].
  - split; [reflexivity |]. intros Hf. split; [exact Hf | reflexivity].
  - now apply smc_settled_same_smc.
Qed.

Lemma settles_smc_read_key (p : Platform) (key : string) :
  settles (smc_read_key p key).
Proof.
  unfold smc_read_key.
  apply settles_bind; [apply settles_keeps, keeps_smc_read_key_info |].
  intros [info |]; [| apply settles_ret].
  destruct (32 <? data_size info); [apply settles_ret |].
  apply settles_bind; [apply settles_keeps, keeps_smc_read |].
  intros [out |]; apply settles_ret.
Qed.

Lemma settles_smc_read_temp_cached (p : Platform) (key : Z) (info : SMCKeyDataKeyInfo) :
  settles (smc_read_temp_cached p key info).
Proof.
  unfold smc_read_temp_cached.
  apply settles_bind; [apply settles_keeps, keeps_smc_read |].
  intros [out |]; apply settles_ret.
Qed.

Lemma settles_read_domain (p : Platform) (lo hi : Z) (keys : list CachedSMCKey) :
  forall (sum : spec_float) (count : Z), settles (read_domain p lo hi keys sum count).
Proof.
  induction keys as [| k keys IH]; intros sum count; cbn [read_domain].
  - apply settles_ret.
  - apply settles_bind; [apply settles_smc_read_temp_cached |].
    intros t. destruct (in_window lo hi t); apply IH.
Qed.

Lemma settles_smc_init_cache (p : Platform) : settles (smc_init_cache p).
Proof.
  intros g.
  destruct (smc_cache_initialized (smc g)) eqn:Hflag.
  - rewrite (smc_init_cache_done p g Hflag). apply smc_settled_refl.
  - split; [| congruence].
    intros Hconn.
    now destruct (smc_init_cache_probes p g Hflag (or_introl Hconn)) as (Hc & _).
Qed.

Lemma settles_cache_init_if_needed (p : Platform) (g : Globals) :
  smc_settled g (after_cache_init p g).
Proof.
  unfold after_cache_init.
  destruct (negb (smc_cache_initialized (smc g)));
    [apply settles_smc_init_cache | apply smc_settled_refl].
Qed.

Lemma settles_smc_get_temperatures (p : Platform) : settles (smc_get_temperatures p).
Proof.
  intros g. unfold smc_get_temperatures.
  pose proof (settles_cache_init_if_needed p g) as H0. unfold after_cache_init in H0.
  destruct (if negb (smc_cache_initialized (smc g)) then smc_init_cache p g else (tt, g))
    as [u g1]. cbn [snd] in H0.
  destruct (negb (smc_conn (smc g1))); [exact H0 |].
  pose proof (settles_read_domain p 10 130 (cached_cpu_keys (smc g1)) F32.zero 0 g1) as H1.
  destruct (read_domain p 10 130 (cached_cpu_keys (smc g1)) F32.zero 0 g1)
    as [[cs cc] g2]. cbn [snd] in H1.
  pose proof (settles_read_domain p 10 130 (cached_gpu_keys (smc g2)) F32.zero 0 g2) as H2.
  destruct (read_domain p 10 130 (cached_gpu_keys (smc g2)) F32.zero 0 g2)
    as [[gs gc] g3]. cbn [snd] in *.
  eapply smc_settled_trans; [exact H0 |].
  eapply smc_settled_trans; [exact H1 | exact H2].
Qed.

Lemma settles_smc_get_board_temperature (p : Platform) :
  settles (smc_get_board_temperature p).
Proof.
  intros g. unfold smc_get_board_temperature.
  pose proof (settles_cache_init_if_needed p g) as H0. unfold after_cache_init in H0.
  destruct (if negb (smc_cache_initialized (smc g)) then smc_init_cache p g else (tt, g))
    as [u g1]. cbn [snd] in H0.
  destruct (negb (smc_conn (smc g1)) || _); [exact H0 |].
  pose proof (settles_read_domain p 10 100 (cached_board_keys (smc g1)) F32.zero 0 g1) as H1.
  destruct (read_domain p 10 100 (cached_board_keys (smc g1)) F32.zero 0 g1)
    as [[bs bc] g2]. cbn [snd] in *.
  eapply smc_settled_trans; [exact H0 | exact H1].
Qed.

Lemma settles_fan_loop (p : Platform) (indices : list Z) :
  forall fans : FanInfo, settles (fan_loop p indices fans).
Proof.
  induction indices as [| i indices IH]; intros fans; cbn [fan_loop].
  - apply settles_ret.
  - apply settles_bind; [apply settles_smc_read_key |].
    intros rpm. destruct (fgt rpm (F32.of_Z 0)); [| apply settles_ret].
    apply settles_bind; [apply settles_smc_read_key |]. intros mn.
    apply settles_bind; [apply settles_smc_read_key |]. intros mx.
    apply IH.
Qed.

Lemma settles_get_fan_info (p : Platform) : settles (get_fan_info p).
Proof.
  unfold get_fan_info. apply settles_bind; [apply settles_smc_open |].
  intros rc. destruct (negb (rc =? 0)); [apply settles_ret | apply settles_fan_loop].
Qed.

Lemma settles_hid_get_temperatures (p : Platform) : settles (hid_get_temperatures p).
Proof.
  intros g. apply smc_settled_same_smc. unfold hid_get_temperatures.
  destruct (negb (hid_client p)); [reflexivity |].
  destruct (hid_services p) as [services |]; [| reflexivity].
  now destruct (hid_loop services F32.zero F32.zero 0 0) as [[[cs gs] cc] gc].
Qed.

Lemma settles_update_temperatures_native (p : Platform) :
  settles (update_temperatures_native p).
Proof.
  intros g. unfold update_temperatures_native, get_apple_silicon_temps, bind.
  pose proof (settles_smc_get_temperatures p g) as H0.
  destruct (smc_get_temperatures p g) as [t g1]. cbn [snd] in H0.
  destruct (feq (fst t) (F32.of_Z 0) && feq (snd t) (F32.of_Z 0)).
  - pose proof (settles_hid_get_temperatures p g1) as H1.
    destruct (hid_get_temperatures p g1) as [t2 g2]. cbn [snd] in *.
    eapply smc_settled_trans; [exact H0 |].
    eapply smc_settled_trans; [exact H1 |]. now apply smc_settled_same_smc.
  - cbn [ret snd]. eapply smc_settled_trans; [exact H0 |].
    now apply smc_settled_same_smc.
Qed.
(** ** The IOReport sampler leaves the SMC state alone *)

Section IorFrame.
Context {A : Type} (f : Globals -> A).
Hypothesis f_with_ior : forall (i : IORState) (g : Globals), f (with_ior i g) = f g.
Hypothesis f_emit : forall (e : Event) (g : Globals), f (emit e g) = f g.

Lemma ior_load_framework_keeps (p : Platform) (g : Globals) :
  f (snd (ior_load_framework p g)) = f g.
Proof.
  unfold ior_load_framework.
  destruct (ior_lib_loaded (ior g)); [reflexivity |].
  destruct (ior_dylib p) as [syms |]; cbn [snd].
  - destruct (negb _ || _ || _ || _); cbn [snd]; now rewrite !f_with_ior, f_emit, f_with_ior.
  - now rewrite !f_with_ior, f_emit, f_with_ior.
Qed.

Lemma ior_load_gpu_freqs_keeps (p : Platform) (g : Globals) :
  f (snd (ior_load_gpu_freqs p g)) = f g.
Proof.
  unfold ior_load_gpu_freqs.
  destruct (0 <? _); [reflexivity |].
  destruct (pmgr p); cbn [snd]; now rewrite ?f_with_ior, f_emit.
Qed.

Lemma ior_init_keeps (p : Platform) (g g' : Globals) (rc : Z) :
  ior_init p g = Some (rc, g') -> f g' = f g.
Proof.
  unfold ior_init. intros H.
  destruct (ior_initialized (ior g)); [now inversion H |].
  pose proof (ior_load_framework_keeps p g) as H0.
  destruct (ior_load_framework p g) as [r g1]. cbn [snd] in H0.
  destruct (negb (r =? 0)); [inversion H; now subst |].
  destruct (negb (pIOReportCopyChannelsInGroup _)); [discriminate |].
  destruct (negb (ior_energy_channels p) && _);
    [inversion H; subst; now rewrite f_emit |].
  cbv zeta in H.
  destruct (negb (ior_channels _));
    [inversion H; subst; now rewrite f_with_ior, f_emit |].
  destruct (negb (pIOReportCreateSubscription _)); [discriminate |].
  destruct (negb (ior_subscription _));
    [inversion H; subst; now rewrite !f_with_ior, f_emit, f_with_ior, f_emit |].
  match type of H with context [ior_load_gpu_freqs p ?x] =>
    pose proof (ior_load_gpu_freqs_keeps p x) as H1;
    destruct (ior_load_gpu_freqs p x) as [u g6] end.
  cbn [snd] in H1. inversion H; subst.
  now rewrite f_with_ior, H1, f_with_ior, f_emit, f_with_ior, f_emit.
Qed.

Lemma ior_sample_keeps (p : Platform) (g g' : Globals) (u : unit) :
  ior_sample p g = Some (u, g') -> f g' = f g.
Proof.
  unfold ior_sample. intros H.
  assert (forall rc g1, (if negb (ior_initialized (ior g)) then ior_init p g else Some (0, g))
                        = Some (rc, g1) -> f g1 = f g) as Hinit.
  { intros rc g1 E. destruct (negb _); [now apply ior_init_keeps in E |].
    now inversion E. }
  destruct (if negb (ior_initialized (ior g)) then ior_init p g else Some (0, g))
    as [[rc g1] |]; [| discriminate].
  specialize (Hinit rc g1 eq_refl).
  destruct (negb (rc =? 0)); [inversion H; now subst |].
  destruct (negb (ior_subscription _)); [inversion H; now subst |].
  destruct (negb (pIOReportCreateSamples _)); [discriminate |].
  destruct (ior_create_samples p) as [sample |];
    [| inversion H; subst; now rewrite f_emit].
  cbv zeta in H.
  repeat match type of H with
         | context [match ?x with _ => _ end] =>
             match x with
             | context [match _ with _ => _ end] => fail 1
             | _ => destruct x
             end
         end; try discriminate; inversion H; subst;
    rewrite ?f_with_ior, ?f_emit, ?f_with_ior, ?f_emit; exact Hinit.
Qed.

End IorFrame.

Lemma ior_sample_keeps_smc (p : Platform) (g g' : Globals) (u : unit) :
  ior_sample p g = Some (u, g') -> smc g' = smc g.
Proof. now apply (ior_sample_keeps smc). Qed.

Lemma ior_sample_keeps_temps (p : Platform) (g g' : Globals) (u : unit) :
  ior_sample p g = Some (u, g') ->
  cached_cpu_temp g' = cached_cpu_temp g /\ cached_gpu_temp g' = cached_gpu_temp g.
Proof.
  intros H. split.
  - now apply (ior_sample_keeps cached_cpu_temp) in H.
  - now apply (ior_sample_keeps cached_gpu_temp) in H.
Qed.

Lemma collect_stats_settles (p : Platform) (g g' : Globals) (st : PcStatus) :
  collect_stats p g = Some (st, g') -> smc_settled g g'.
Proof.
  unfold collect_stats. intros H. cbv zeta in H.
  assert (exists g2, smc_settled g g2 /\
            (let (fans, g3) := get_fan_info p g2 in
             let (btemp, g4) := smc_get_board_temperature p g3 in g4) = g')
    as (g2 & H2 & Hrest).
  { destruct (negb (use_native_temps g =? 0)).
    - pose proof (settles_update_temperatures_native p g) as H0.
      destruct (update_temperatures_native p g) as [u g1]. cbn [snd] in H0.
      destruct (ior_sample p g1) as [[u1 g2] |] eqn:Hs; [| discriminate].
      exists g2. split.
      + eapply smc_settled_trans; [exact H0 |].
        apply smc_settled_same_smc. now apply ior_sample_keeps_smc in Hs.
      + destruct (get_fan_info p g2) as [fans g3].
        destruct (smc_get_board_temperature p g3) as [bt g4]. now inversion H.
    - exists g. split; [apply smc_settled_refl |].
      destruct (get_fan_info p g) as [fans g3].
      destruct (smc_get_board_temperature p g3) as [bt g4]. now inversion H. }
  pose proof (settles_get_fan_info p g2) as H3.
  destruct (get_fan_info p g2) as [fans g3]. cbn [snd] in H3.
  pose proof (settles_smc_get_board_temperature p g3) as H4.
  destruct (smc_get_board_temperature p g3) as [bt g4]. cbn [snd] in H4. subst g4.
  eapply smc_settled_trans; [exact H2 |].
  eapply smc_settled_trans; [exact H3 | exact H4].
Qed.

(** X6: no function of the sensor engine closes the SMC connection, and
    once the key caches are initialised none changes them or clears the
    flag: this holds for the temperature, board and fan readers, for
    [pcstats_init] and for every sampling cycle of [collect_stats] that
    returns, on every platform. *)
Theorem smc_connection_and_caches_never_go_back (p : Platform) (g : Globals) :
  smc_settled g (snd (smc_get_temperatures p g)) /\
  smc_settled g (snd (smc_get_board_temperature p g)) /\
  smc_settled g (snd (get_fan_info p g)) /\
  (forall key, smc_settled g (snd (smc_read_key p key g))) /\
  (forall u g', pcstats_init p g = Some (u, g') -> smc g' = smc g) /\
  (forall st g', collect_stats p g = Some (st, g') -> smc_settled g g').
Proof.
  split; [apply settles_smc_get_temperatures |].
  split; [apply settles_smc_get_board_temperature |].
  split; [apply settles_get_fan_info |].
  split; [intros key; apply settles_smc_read_key |].
  split; [| intros st g'; apply collect_stats_settles].
  intros u g'. unfold pcstats_init.
  destruct (pcstats_initialized g); [intros H; now inversion H |].
  destruct (ior_sample p g) as [[u1 g1] |] eqn:Hs; [| discriminate].
  intros H. inversion H; subst. cbn. now apply ior_sample_keeps_smc in Hs.
Qed.

(** ** The fan table *)

Lemma length_store {A : Type} (i : nat) (v : A) (a : list A) :
  List.length (store i v a) = List.length a.
Proof.
  revert i. induction a as [| h t IH]; intros [| j]; cbn; try reflexivity.
  now rewrite IH.
Qed.

Lemma nth_store_same {A : Type} (i : nat) (v d : A) (a : list A) :
  (i < List.length a)%nat -> nth i (store i v a) d = v.
Proof.
  revert i. induction a as [| h t IH]; intros [| j] H; cbn in *; try lia; try reflexivity.
  apply IH. lia.
Qed.

Lemma nth_store_other {A : Type} (i j : nat) (v d : A) (a : list A) :
  i <> j -> nth j (store i v a) d = nth j a d.
Proof.
  revert i j. induction a as [| h t IH]; intros [| i] [| j] H; cbn; try reflexivity;
    try congruence.
  apply IH. congruence.
Qed.

Lemma fan_loop_wf (p : Platform) (len : nat) :
  forall (n : nat) (fans : FanInfo) (g : Globals),
    (n + len <= 4)%nat -> fan_count fans = Z.of_nat n -> fans_wf fans ->
    fans_wf (fst (fan_loop p (map Z.of_nat (seq n len)) fans g)).
Proof.
  induction len as [| len IH]; intros n fans g Hn Hc Hwf; cbn [seq map fan_loop].
  - exact Hwf.
  - unfold bind at 1. destruct (smc_read_key p (fan_key (Z.of_nat n) "Ac") g) as [rpm g1].
    destruct (fgt rpm (F32.of_Z 0)) eqn:Hpos; [| exact Hwf].
    unfold bind at 1. destruct (smc_read_key p (fan_key (Z.of_nat n) "Mn") g1) as [mn g2].
    unfold bind at 1. destruct (smc_read_key p (fan_key (Z.of_nat n) "Mx") g2) as [mx g3].
    apply IH; [lia | cbn [fan_count]; lia |].
    destruct Hwf as (Hcount & L1 & L2 & L3 & Hbelow & Habove).
    unfold fans_wf, MAX_FANS in *. cbn [fan_count fan_rpm fan_min_rpm fan_max_rpm].
    rewrite !length_store, Nat2Z.id.
    split; [lia |]. split; [exact L1 |]. split; [exact L2 |]. split; [exact L3 |].
    split.
    + intros i Hi. destruct (Nat.eq_dec n i) as [<- | Hne].
      * rewrite nth_store_same; [exact Hpos | rewrite L1; change (Z.to_nat 4) with 4%nat; lia].
      * rewrite nth_store_other by exact Hne. apply Hbelow. lia.
    + intros i Hi. rewrite !nth_store_other by lia. apply Habove. lia.
Qed.

Lemma get_fan_info_wf (p : Platform) (g : Globals) : fans_wf (fst (get_fan_info p g)).
Proof.
  assert (fans_wf no_fans) as H0.
  { unfold fans_wf, no_fans, MAX_FANS. cbn [fan_count fan_rpm fan_min_rpm fan_max_rpm].
    rewrite repeat_length.
    split; [lia |]. do 3 (split; [reflexivity |]).
    split; [intros i Hi; lia |].
    intros i _. change (Z.to_nat 4) with 4%nat.
    now destruct i as [| [| [| [| [| i]]]]]. }
  unfold get_fan_info, bind. destruct (smc_open p g) as [rc g1].
  destruct (negb (rc =? 0)); [exact H0 |].
  apply (fan_loop_wf p 4 0); [lia | reflexivity | exact H0].
Qed.

(** X7: the table [get_fan_info] fills in has a count between 0 and 4,
    arrays of 4 entries, a positive actual RPM for every fan below the
    count and 0 in every entry from the count on; the count is 0, and no
    SMC request is made, when the SMC cannot be opened. *)
Theorem get_fan_info_table_is_well_formed (p : Platform) (g : Globals) :
  fans_wf (fst (get_fan_info p g)) /\
  (smc_conn (smc g) = false -> smc_endpoint p = false ->
   fan_count (fst (get_fan_info p g)) = 0 /\
   requests (log (snd (get_fan_info p g))) = requests (log g)).
Proof.
  split; [apply get_fan_info_wf |].
  intros Hc He. unfold get_fan_info, bind, smc_open. rewrite Hc, He. cbn.
  split; reflexivity.
Qed.

(** ** The HID fallback *)












(** ** Calls through the loaded symbols *)

Lemma ior_init_safe (p : Platform) (g : Globals) :
  ior_safe g -> library_sound p = true ->
  exists (rc : Z) (g1 : Globals),
    ior_init p g = Some (rc, g1) /\ ior_safe g1 /\
    (rc = 0 -> essential_symbols (ior_syms (ior g1)) = true).
Proof.
  intros Hok Hp. unfold ior_init.
  destruct (ior_initialized (ior g)) eqn:Hi.
  { exists 0, g. split; [reflexivity |]. split; [exact Hok |]. intros _.
    destruct Hok as [H | (_ & H)]; [exact H | congruence]. }
  assert (exists rc g1, ior_load_framework p g = (rc, g1) /\ ior_safe g1 /\
            ior_initialized (ior g1) = false /\
            (rc = 0 -> essential_symbols (ior_syms (ior g1)) = true))
    as (rc & g1 & -> & Hsafe & Hi1 & Hess).
  { unfold ior_load_framework.
    destruct (ior_lib_loaded (ior g)) eqn:Hl.
    - destruct (ior_handle (ior g)) eqn:Hh; eexists; eexists;
        (split; [reflexivity |]); (split; [exact Hok |]); (split; [exact Hi |]).
      + intros _. destruct Hok as [H | (H & _)]; [exact H | congruence].
      + discriminate.
    - unfold library_sound in Hp. destruct (ior_dylib p) as [syms |].
      + destruct (essential_symbols_all _ Hp) as (E1 & E2 & E3 & E4).
        rewrite E1, E2, E3, E4. cbn [negb orb].
        eexists; eexists; (split; [reflexivity |]).
        split; [left; exact Hp |]. split; [exact Hi | intros _; exact Hp].
      + eexists; eexists; (split; [reflexivity |]).
        split; [| split; [exact Hi | discriminate]].
        destruct Hok as [H | (_ & H)]; [left; exact H | right; split; [reflexivity | exact H]]. }
  destruct (Z.eqb_spec rc 0) as [-> | Hrc]; cbn [negb].
  2:{ exists (-1), g1. split; [reflexivity |]. split; [exact Hsafe | discriminate]. }
  specialize (Hess eq_refl).
  destruct (essential_symbols_all _ Hess) as (E1 & E2 & E3 & E4).
  rewrite E1. cbn [negb].
  destruct (negb (ior_energy_channels p) && negb (ior_gpu_channels p)).
  { eexists; eexists; (split; [reflexivity |]). split; [left; exact Hess | discriminate]. }
  cbn [with_ior ior set_ior_subscription ior_channels ior_syms emit].
  destruct (ior_channels_copy p); cbn [negb].
  2:{ eexists; eexists; (split; [reflexivity |]). split; [left; exact Hess | discriminate]. }
  rewrite E2. cbn [negb].
  cbn [with_ior ior set_ior_subscription ior_subscription ior_channels ior_syms emit].
  destruct (ior_subscribe p); cbn [negb].
  2:{ eexists; eexists; (split; [reflexivity |]). split; [left; exact Hess | discriminate]. }
  unfold ior_load_gpu_freqs.
  cbn [with_ior ior set_ior_subscription gpu_freqs emit].
  destruct (0 <? _).
  - eexists; eexists; (split; [reflexivity |]). split; [left; exact Hess | intros _; exact Hess].
  - destruct (pmgr p); eexists; eexists; (split; [reflexivity |]);
      (split; [left; exact Hess | intros _; exact Hess]).
Qed.

Lemma ior_sample_safe (p : Platform) (g : Globals) :
  ior_safe g -> library_sound p = true ->
  exists g1 : Globals, ior_sample p g = Some (tt, g1) /\ ior_safe g1.
Proof.
  intros Hok Hp. unfold ior_sample.
  assert (exists rc g1,
            (if negb (ior_initialized (ior g)) then ior_init p g else Some (0, g))
              = Some (rc, g1) /\ ior_safe g1 /\
            (rc = 0 -> essential_symbols (ior_syms (ior g1)) = true))
    as (rc & g1 & -> & Hsafe & Hess).
  { destruct (ior_initialized (ior g)) eqn:Hi; cbn [negb].
    - exists 0, g. split; [reflexivity |]. split; [exact Hok |]. intros _.
      destruct Hok as [H | (_ & H)]; [exact H | congruence].
    - now apply ior_init_safe. }
  destruct (Z.eqb_spec rc 0) as [-> | Hrc]; cbn [negb]; [| now eexists].
  specialize (Hess eq_refl).
  destruct (essential_symbols_all _ Hess) as (E1 & E2 & E3 & E4).
  destruct (ior_subscription (ior g1)); cbn [negb]; [| now eexists].
  rewrite E3. cbn [negb].
  destruct (ior_create_samples p) as [sample |];
    [| eexists; split; [reflexivity | left; exact Hess]].
  cbn [emit ior].
  destruct (ior_prev_sample (ior g1)) as [prev |];
    [| eexists; split; [reflexivity | left; exact Hess]].
  destruct (0 <? ior_prev_time_ms (ior g1));
    [| eexists; split; [reflexivity | left; exact Hess]].
  destruct (pIOReportCreateSamplesDelta (ior_syms (ior g1)));
    [| eexists; split; [reflexivity | left; exact Hess]].
  destruct (ior_samples_delta p prev sample) as [[channels |] |];
    try (eexists; split; [reflexivity | left; exact Hess]).
  cbn [emit ior].
  match goal with
  | |- context [sample_channels ?f ?s ?d ?c ?a] =>
      destruct (sample_channels_total f s d c E4 a) as ([[[cp gp] gf] gl] & ->)
  end.
  eexists; split; [reflexivity | left; exact Hess].
Qed.

Lemma smc_functions_keep_ior_safe {A : Type} (m : M A) (g : Globals) :
  touches_smc_only m -> ior_safe g -> ior_safe (snd (m g)).
Proof.
  intros Hm Hok. destruct (Hm g) as [Hf _].
  destruct (frame_fields _ _ Hf) as (Hi & _). unfold ior_safe in *. now rewrite Hi.
Qed.

(** X10: as long as libIOReport, when it loads, exports the four symbols
    [ior_load_framework] checks, the sampler never calls through a NULL
    pointer: from a safe state (as at process start) [ior_sample],
    [pcstats_init] and every cycle of [collect_stats] return, and leave a
    safe state behind, whatever else the platform answers. *)
Theorem sound_library_keeps_sampler_safe (p : Platform) (g : Globals) :
  ior_safe initial_globals /\
  (ior_safe g -> library_sound p = true ->
   (exists g1, ior_sample p g = Some (tt, g1) /\ ior_safe g1) /\
   (exists g1, pcstats_init p g = Some (tt, g1) /\ ior_safe g1) /\
   (exists st g1, collect_stats p g = Some (st, g1) /\ ior_safe g1)).
Proof.
  split; [right; split; reflexivity |].
  intros Hok Hp. split; [now apply ior_sample_safe |]. split.
  - unfold pcstats_init. destruct (pcstats_initialized g); [now exists g |].
    destruct (ior_sample_safe p g Hok Hp) as (g1 & -> & H1). eexists. split; [reflexivity |].
    exact H1.
  - unfold collect_stats.
    assert (exists g2,
              (if negb (use_native_temps g =? 0)
               then let (_, g1) := update_temperatures_native p g in
                    match ior_sample p g1 with
                    | Some (_, g2) => Some g2
                    | None => None
                    end
               else Some g) = Some g2 /\ ior_safe g2) as (g2 & -> & H2).
    { destruct (negb (use_native_temps g =? 0)); [| now exists g].
      pose proof (update_temperatures_native_keeps_ior p g) as [Hi _].
      destruct (update_temperatures_native p g) as [u g1]. cbn [snd] in Hi.
      assert (ior_safe g1) as H1 by (unfold ior_safe in *; now rewrite Hi).
      destruct (ior_sample_safe p g1 H1 Hp) as (g2 & -> & H2). now exists g2. }
    pose proof (smc_functions_keep_ior_safe _ g2 (touches_get_fan_info p) H2) as H3.
    destruct (get_fan_info p g2) as [fans g3]. cbn [snd] in H3.
    pose proof (smc_functions_keep_ior_safe _ g3 (touches_smc_get_board_temperature p) H3)
      as H4.
    destruct (smc_get_board_temperature p g3) as [bt g4]. cbn [snd] in H4.
    eexists. eexists. split; [reflexivity | exact H4].
Qed.

Lemma sound_library_keeps_sampler_safe_witness :
  exists st g1,
    collect_stats (ior_machine all_symbols 1 1000 [] []) temps_enabled = Some (st, g1) /\
    ior_safe g1.
Proof.
  destruct (sound_library_keeps_sampler_safe
              (ior_machine all_symbols 1 1000 [] []) temps_enabled) as [_ H].
  apply H; [right; split; reflexivity | reflexivity].
Defined.

(** X11: [ior_load_framework] keeps the library handle when an essential
    symbol is missing, and answers later calls from the handle alone.  So
    when libIOReport loads without [IOReportCopyChannelsInGroup], the
    first [ior_sample] returns without sampling, and the next one, on any
    platform, calls [pIOReportCopyChannelsInGroup] while it is NULL. *)
Theorem missing_symbol_is_hit_on_second_sample (p : Platform) (g : Globals)
  (syms : IORSymbols) :
  ior_lib_loaded (ior g) = false -> ior_initialized (ior g) = false ->
  ior_dylib p = Some syms -> pIOReportCopyChannelsInGroup syms = false ->
  exists g1 : Globals,
    ior_sample p g = Some (tt, g1) /\
    sampler_outputs g1 = sampler_outputs g /\
    forall q : Platform, ior_sample q g1 = None.
Proof.
  intros Hl Hi Hd Hs.
  unfold ior_sample at 1, ior_init, ior_load_framework. rewrite Hi, Hl, Hd, Hs.
  cbn [negb orb Z.eqb]. eexists. split; [reflexivity |]. split; [reflexivity |].
  intros q. unfold ior_sample, ior_init, ior_load_framework.
  cbn [ior with_ior emit set_ior_handle set_ior_lib_loaded ior_initialized ior_lib_loaded
       ior_handle ior_syms].
  rewrite Hi, Hs. reflexivity.
Qed.

Lemma missing_symbol_is_hit_on_second_sample_witness :
  exists g1 : Globals,
    ior_sample (ior_machine symbols_without_copy_channels 1 1000 [] []) initial_globals
      = Some (tt, g1) /\
    sampler_outputs g1 = sampler_outputs initial_globals /\
    forall q : Platform, ior_sample q g1 = None.
Proof.
  apply (missing_symbol_is_hit_on_second_sample _ _ symbols_without_copy_channels);
    reflexivity.
Defined.

(** ** The channel loop of the sampler *)






(** ** One sampling step *)



(** ** The serial frame *)

Lemma length_bytes_of (s : string) : List.length (bytes_of s) = String.length s.
Proof. induction s as [| c s IH]; cbn; [reflexivity | now rewrite IH]. Qed.

Lemma header_length_bytes (n : Z) :
  0 <= n < 2048 ->
  0 <= Z.land (Z.shiftr n 8) 255 < 8 /\ 0 <= Z.land n 255 < 256 /\
  256 * Z.land (Z.shiftr n 8) 255 + Z.land n 255 = n.
Proof.
  intros Hn. change 255 with (Z.ones 8). rewrite !Z.land_ones by lia.
  rewrite Z.shiftr_div_pow2 by lia. change (2 ^ 8) with 256.
  assert (0 <= n / 256 < 8) as Hq
    by (split; [apply Z.div_pos; lia | apply Z.div_lt_upper_bound; lia]).
  rewrite (Z.mod_small (n / 256)) by lia.
  pose proof (Z.mod_pos_bound n 256 ltac:(lia)).
  pose proof (Z.div_mod n 256 ltac:(lia)). lia.
Qed.

(** X14: [send_pc_status] writes nothing and returns -1 when the JSON
    text has 2048 characters or more.  Otherwise its first write is the
    header p, c, s followed by the text length as two bytes, high byte
    first, which give back the length exactly; the body it hands to the
    second write is the whole text, untruncated; the body is not written
    when the header write falls short; and it returns 0 exactly when both
    writes report their full length. *)
Theorem send_pc_status_frame (fmt_f1 : spec_float -> string) (fmt_d fmt_ld : Z -> string)
  (write : nat -> list Z -> Z) (status : PcStatus) :
  let text := json_text fmt_f1 fmt_d fmt_ld status in
  let len := Z.of_nat (String.length text) in
  let r := send_pc_status fmt_f1 fmt_d fmt_ld write status in
  (2048 <= len -> r = (-1, [])) /\
  (len < 2048 ->
   exists hi lo : Z,
     let header := [code_of "p"; code_of "c"; code_of "s"; hi; lo] in
     0 <= hi < 256 /\ 0 <= lo < 256 /\ 256 * hi + lo = len /\
     snd r = (if write 0%nat header =? 5 then [header; bytes_of text] else [header]) /\
     (fst r = 0 <->
      write 0%nat header = 5 /\ write 1%nat (bytes_of text) = len) /\
     (fst r = 0 \/ fst r = -1)).
Proof.
  cbv zeta. unfold send_pc_status, build_json.
  change (2048 =? 0) with false. cbv iota.
  set (text := json_text fmt_f1 fmt_d fmt_ld status).
  set (len := Z.of_nat (String.length text)).
  assert (0 <= len) as Hpos by (unfold len; lia).
  replace (len <? 0) with false by (symmetry; apply Z.ltb_ge; exact Hpos). cbn [orb].
  split; intros Hlen.
  - replace (2048 <=? len) with true by (symmetry; apply Z.leb_le; exact Hlen). reflexivity.
  - replace (2048 <=? len) with false by (symmetry; apply Z.leb_gt; exact Hlen).
    destruct (header_length_bytes len (conj Hpos Hlen)) as (Hhi & Hlo & Hsum).
    exists (Z.land (Z.shiftr len 8) 255), (Z.land len 255).
    split; [lia |]. split; [exact Hlo |]. split; [exact Hsum |].
    rewrite substring_whole by (unfold len in Hlen; change (Z.to_nat (2048 - 1)) with 2047%nat; lia).
    assert (firstn (Z.to_nat len) (bytes_of text) = bytes_of text) as ->.
    { apply firstn_all2. rewrite length_bytes_of. unfold len. lia. }
    destruct (Z.eqb_spec (write 0%nat [code_of "p"; code_of "c"; code_of "s";
                                        Z.land (Z.shiftr len 8) 255; Z.land len 255]) 5)
      as [Hw | Hw]; cbn [negb].
    + destruct (Z.eqb_spec (write 1%nat (bytes_of text)) len) as [Hb | Hb]; cbn [negb fst snd].
      * split; [reflexivity |]. split; [tauto | now left].
      * split; [reflexivity |]. split; [| now right].
        split; [discriminate | intros [_ H]; contradiction].
    + cbn [fst snd]. split; [reflexivity |]. split; [| now right].
      split; [discriminate | intros [H _]; contradiction].
Qed.

Lemma send_pc_status_frame_witness :
  send_pc_status wide_f1 printf_d printf_d write_all sample_status = (-1, []) /\
  fst (send_pc_status printf_f1 printf_d printf_d write_all sample_status) = 0.
Proof.
  split.
  - apply (send_pc_status_frame wide_f1 printf_d printf_d write_all sample_status).
    vm_compute. discriminate.
  - destruct (send_pc_status_frame printf_f1 printf_d printf_d write_all sample_status)
      as [_ H].
    destruct H as (hi & lo & _ & _ & _ & _ & _ & [H | H]).
    + vm_compute. reflexivity.
    + exact H.
    + vm_compute in H. discriminate H.
Defined.

(** ** The sampling interval *)

(** X15: the duration [ior_sample] divides by is never below 10 ms:
    an elapsed time under 10 ms counts as 10 ms, a longer one is taken as
    it is, and when the clock has stepped back the unsigned difference
    wraps around to 2^64 minus the step.  So [energy_to_watts] is never
    reached with a zero duration from [ior_sample], where a power for a
    known unit is the energy over the duration, narrowed to float. *)
Theorem sample_duration_is_floored_and_wraps (prev_ms now_ms : Z) :
  10 <= sample_duration prev_ms now_ms < 2 ^ 64 /\
  (prev_ms <= now_ms < prev_ms + 10 -> sample_duration prev_ms now_ms = 10) /\
  (prev_ms + 10 <= now_ms < prev_ms + 2 ^ 64 ->
   sample_duration prev_ms now_ms = now_ms - prev_ms) /\
  (now_ms < prev_ms <= now_ms + 2 ^ 64 - 10 ->
   sample_duration prev_ms now_ms = 2 ^ 64 - (prev_ms - now_ms)) /\
  (forall (energy : Z) (unit : string),
     energy_to_watts energy unit (sample_duration prev_ms now_ms) =
       let per_second :=
         F64.div (F64.of_Z energy)
           (F64.div (F64.of_Z (sample_duration prev_ms now_ms)) (F64.of_Z 1000)) in
       if streq unit "nJ" then float_of_double (F64.div per_second (F64.of_Z 1000000000))
       else if streq unit "uJ" then float_of_double (F64.div per_second (F64.of_Z 1000000))
       else if streq unit "mJ" then float_of_double (F64.div per_second (F64.of_Z 1000))
       else F32.zero).
Proof.
  unfold sample_duration, wrap_unsigned. cbv zeta.
  pose proof (Z.mod_pos_bound (now_ms - prev_ms) (2 ^ 64) ltac:(lia)) as Hb.
  assert (10 <= (if (now_ms - prev_ms) mod 2 ^ 64 <? 10 then 10
                 else (now_ms - prev_ms) mod 2 ^ 64) < 2 ^ 64) as Hrange.
  { destruct (Z.ltb_spec ((now_ms - prev_ms) mod 2 ^ 64) 10); lia. }
  split; [exact Hrange |]. split; [| split; [| split]].
  - intros H. rewrite Z.mod_small by lia.
    destruct (Z.ltb_spec (now_ms - prev_ms) 10); lia.
  - intros H. rewrite Z.mod_small by lia.
    destruct (Z.ltb_spec (now_ms - prev_ms) 10); lia.
  - intros H.
    replace ((now_ms - prev_ms) mod 2 ^ 64) with (2 ^ 64 - (prev_ms - now_ms)).
    + destruct (Z.ltb_spec (2 ^ 64 - (prev_ms - now_ms)) 10); lia.
    + apply Z.mod_unique with (q := -1); lia.
  - intros energy unit. unfold energy_to_watts.
    destruct (Z.eqb_spec (if (now_ms - prev_ms) mod 2 ^ 64 <? 10 then 10
                          else (now_ms - prev_ms) mod 2 ^ 64) 0) as [H0 | _]; [lia |].
    reflexivity.
Qed.

(** ** The GPU frequency table *)

Lemma parse_voltage_states_extends (bytes : list Z) (remaining : nat) :
  forall (i : Z) (freqs : list Z),
    gpu_table_wf freqs ->
    gpu_table_wf (parse_voltage_states bytes remaining i freqs) /\
    exists more, parse_voltage_states bytes remaining i freqs = freqs ++ more.
Proof.
  induction remaining as [| k IH]; intros i freqs Hwf; cbn [parse_voltage_states].
  - split; [exact Hwf | exists []; now rewrite app_nil_r].
  - destruct (Z.ltb_spec (Z.of_nat (List.length freqs)) MAX_GPU_FREQS) as [Hroom | Hfull].
    2:{ split; [exact Hwf | exists []; now rewrite app_nil_r]. }
    cbv zeta.
    set (hz := wrap_unsigned 32 _).
    assert (0 <= hz < 2 ^ 32) as Hhz by (apply Z.mod_pos_bound; lia).
    assert (0 <= hz / 1000000 <= 4294) as Hmhz.
    { split; [apply Z.div_pos; lia |].
      apply Z.lt_succ_r. apply Z.div_lt_upper_bound; lia. }
    destruct (Z.ltb_spec 0 (hz / 1000000)) as [Hp | Hz].
    + destruct (IH (i + 1) (freqs ++ [hz / 1000000])) as [Hwf' (more & Hm)].
      * destruct Hwf as [Hlen Hall]. split.
        -- rewrite length_app. cbn [List.length]. unfold MAX_GPU_FREQS in *. lia.
        -- apply Forall_app. split; [exact Hall |]. constructor; [lia | constructor].
      * split; [exact Hwf' |]. exists ((hz / 1000000) :: more).
        rewrite Hm, <- app_assoc. reflexivity.
    + apply IH. exact Hwf.
Qed.

Lemma scan_devices_extends (devices : list (string * option (list Z))) :
  forall freqs : list Z,
    gpu_table_wf freqs ->
    gpu_table_wf (scan_devices devices freqs) /\
    exists more, scan_devices devices freqs = freqs ++ more.
Proof.
  induction devices as [| [name data] rest IH]; intros freqs Hwf; cbn [scan_devices].
  - split; [exact Hwf | exists []; now rewrite app_nil_r].
  - destruct (streq name "pmgr"); [| now apply IH].
    destruct data as [bytes |]; [| now apply IH].
    destruct (parse_voltage_states_extends bytes
                (Z.to_nat (wrap_signed 32 (Z.of_nat (List.length bytes) / 8))) 0 freqs Hwf)
      as [Hwf1 (m1 & Hm1)].
    destruct (IH _ Hwf1) as [Hwf2 (m2 & Hm2)].
    split; [exact Hwf2 |]. exists (m1 ++ m2). rewrite Hm2, Hm1, <- app_assoc. reflexivity.
Qed.

Lemma ior_load_gpu_freqs_table (p : Platform) (g : Globals) :
  gpu_table_wf (gpu_freqs (ior g)) ->
  gpu_table_wf (gpu_freqs (ior (snd (ior_load_gpu_freqs p g)))) /\
  (gpu_freqs (ior g) <> [] -> ior_load_gpu_freqs p g = (tt, g)).
Proof.
  intros Hwf. unfold ior_load_gpu_freqs.
  destruct (Z.ltb_spec 0 (Z.of_nat (List.length (gpu_freqs (ior g))))) as [Hne | He].
  - split; [exact Hwf | reflexivity].
  - assert (gpu_freqs (ior g) = []) as Hnil
      by (destruct (gpu_freqs (ior g)); [reflexivity | cbn [List.length] in He; lia]).
    split; [| congruence].
    destruct (pmgr p) as [devices |]; cbn; [| exact Hwf].
    apply scan_devices_extends. exact Hwf.
Qed.

Lemma ior_init_table (p : Platform) (g g' : Globals) (rc : Z) :
  ior_init p g = Some (rc, g') -> gpu_table_wf (gpu_freqs (ior g)) ->
  gpu_table_wf (gpu_freqs (ior g')) /\
  (gpu_freqs (ior g) <> [] -> gpu_freqs (ior g') = gpu_freqs (ior g)).
Proof.
  unfold ior_init. intros H Hwf.
  destruct (ior_initialized (ior g)); [inversion H; subst; now split |].
  assert (gpu_freqs (ior (snd (ior_load_framework p g))) = gpu_freqs (ior g)) as H0.
  { unfold ior_load_framework. destruct (ior_lib_loaded (ior g)); [reflexivity |].
    destruct (ior_dylib p) as [syms |]; [| reflexivity].
    now destruct (negb _ || _ || _ || _). }
  destruct (ior_load_framework p g) as [r g1]. cbn [snd] in H0. rewrite <- H0 in *.
  destruct (negb (r =? 0)); [inversion H; subst; now split |].
  destruct (negb (pIOReportCopyChannelsInGroup _)); [discriminate |].
  destruct (negb (ior_energy_channels p) && _); [inversion H; subst; now split |].
  cbv zeta in H.
  destruct (negb (ior_channels _)); [inversion H; subst; now split |].
  destruct (negb (pIOReportCreateSubscription _)); [discriminate |].
  destruct (negb (ior_subscription _)); [inversion H; subst; now split |].
  match type of H with context [ior_load_gpu_freqs p ?x] =>
    pose proof (ior_load_gpu_freqs_table p x) as H1;
    destruct (ior_load_gpu_freqs p x) as [u g6] eqn:E end.
  cbn [snd] in H1. cbn in H1. specialize (H1 Hwf). destruct H1 as [H1 H2].
  inversion H; subst. cbn. split; [exact H1 |].
  intros Hne. specialize (H2 Hne). inversion H2; subst. reflexivity.
Qed.

(** X16: the GPU frequency table never holds more than 32 entries and
    only positive frequencies of at most 4294 MHz, whatever bytes the
    pmgr entry holds; it is read from the registry while empty and never
    changed once it holds an entry.  The table is well-formed at process
    start and stays so through every [ior_sample] that returns. *)
Theorem gpu_table_stays_well_formed (p : Platform) (g g' : Globals) (u : unit) :
  gpu_table_wf (gpu_freqs (ior g)) -> ior_sample p g = Some (u, g') ->
  gpu_table_wf (gpu_freqs (ior g')) /\
  (gpu_freqs (ior g) <> [] -> gpu_freqs (ior g') = gpu_freqs (ior g)) /\
  (gpu_freqs (ior g) <> [] -> ior_load_gpu_freqs p g = (tt, g)).
Proof.
  intros Hwf H.
  split; [| split; [| apply ior_load_gpu_freqs_table; exact Hwf]].
  all: revert H; unfold ior_sample; intros H.
  all: assert (forall rc g1,
            (if negb (ior_initialized (ior g)) then ior_init p g else Some (0, g))
              = Some (rc, g1) ->
            gpu_table_wf (gpu_freqs (ior g1)) /\
            (gpu_freqs (ior g) <> [] -> gpu_freqs (ior g1) = gpu_freqs (ior g))) as Hinit
    by (intros rc g1 E; destruct (negb _);
        [now apply ior_init_table in E | inversion E; subst; now split]).
  all: destruct (if negb (ior_initialized (ior g)) then ior_init p g else Some (0, g))
    as [[rc g1] |]; [| discriminate].
  all: specialize (Hinit rc g1 eq_refl); destruct Hinit as [Hw1 Hk1].
  all: destruct (negb (rc =? 0)); [inversion H; subst; assumption |].
  all: destruct (negb (ior_subscription _)); [inversion H; subst; assumption |].
  all: destruct (negb (pIOReportCreateSamples _)); [discriminate |].
  all: destruct (ior_create_samples p) as [sample |]; [| inversion H; subst; assumption].
  all: cbv zeta in H.
  all: repeat match type of H with
         | context [match ?x with _ => _ end] =>
             match x with
             | context [match _ with _ => _ end] => fail 1
             | _ => destruct x
             end
         end; try discriminate; inversion H; subst; cbn; assumption.
Qed.

Lemma gpu_table_stays_well_formed_witness :
  exists g1 : Globals,
    ior_sample (ior_machine all_symbols 1 1000 []
                  (voltage_state 444000000 700 ++ voltage_state 0 0
                   ++ voltage_state 1398000000 900)) initial_globals = Some (tt, g1) /\
    gpu_freqs (ior g1) = [444; 1398] /\ gpu_table_wf (gpu_freqs (ior g1)).
Proof.
  eexists. split; [vm_compute; reflexivity |]. split; [reflexivity |].
  refine (proj1 (gpu_table_stays_well_formed
                   (ior_machine all_symbols 1 1000 []
                      (voltage_state 444000000 700 ++ voltage_state 0 0
                       ++ voltage_state 1398000000 900))
                   initial_globals _ tt _ _)).
  - split; [cbn; discriminate | constructor].
  - vm_compute. reflexivity.
Defined.

(** ** The snapshot of a cycle *)

Lemma collect_stats_steps (p : Platform) (g g' : Globals) (st : PcStatus) :
  collect_stats p g = Some (st, g') ->
  exists g2 : Globals,
    (if negb (use_native_temps g =? 0)
     then exists u, ior_sample p (snd (update_temperatures_native p g)) = Some (u, g2)
     else g2 = g) /\
    let fans := fst (get_fan_info p g2) in
    let g3 := snd (get_fan_info p g2) in
    g' = snd (smc_get_board_temperature p g3) /\
    frame g' = frame g2 /\
    board_temp (board st) = fst (smc_get_board_temperature p g3) /\
    board_rpm (board st) =
      (if 0 <? fan_count fans then nth 0 (fan_rpm fans) F32.zero else F32.of_Z 0) /\
    gpu_rpm (gpu st) =
      (if 1 <? fan_count fans then nth 1 (fan_rpm fans) F32.zero else F32.of_Z 0) /\
    cpu_temp (cpu st) = cached_cpu_temp g2 /\ gpu_temp (gpu st) = cached_gpu_temp g2 /\
    cpu_core1Temp (cpu st) = cached_cpu_temp g2 /\
    cpu_core1DistanceToTjMax (cpu st) = F32.sub (F32.of_Z 100) (cached_cpu_temp g2) /\
    (cpu_consume (cpu st), gpu_consume (gpu st), gpu_freq (gpu st), gpu_load (gpu st))
      = sampler_outputs g2.
Proof.
  unfold collect_stats. intros H. cbv zeta in H.
  assert (exists g2,
            (if negb (use_native_temps g =? 0)
             then exists u, ior_sample p (snd (update_temperatures_native p g)) = Some (u, g2)
             else g2 = g) /\
            (let (fans, g3) := get_fan_info p g2 in
             let (btemp, g4) := smc_get_board_temperature p g3 in
             Some
               ({| board :=
                     {| board_temp := btemp;
                        board_rpm := if 0 <? fan_count fans
                                     then nth 0 (fan_rpm fans) F32.zero else F32.of_Z 0;
                        board_tick := uptime_seconds p |};
                   cpu :=
                     {| cpu_temp := cached_cpu_temp g4;
                        cpu_tempMax := F32.of_Z 100;
                        cpu_load := cpu_usage p;
                        cpu_consume := cached_cpu_power (ior g4);
                        cpu_tjMax := 100;
                        cpu_core1DistanceToTjMax :=
                          F32.sub (F32.of_Z 100) (cached_cpu_temp g4);
                        cpu_core1Temp := cached_cpu_temp g4 |};
                   gpu :=
                     {| gpu_temp := cached_gpu_temp g4;
                        gpu_tempMax := F32.of_Z 100;
                        gpu_load := cached_gpu_load (ior g4);
                        gpu_consume := cached_gpu_power (ior g4);
                        gpu_rpm := if 1 <? fan_count fans
                                   then nth 1 (fan_rpm fans) F32.zero else F32.of_Z 0;
                        gpu_memUsed := F32.of_Z 0;
                        gpu_memTotal := F32.of_Z 0;
                        gpu_freq := cached_gpu_freq (ior g4) |};
                   storage := get_disk_usage p;
                   memory := memory_usage p;
                   network := network_throughput p;
                   cmd := 1230;
                   time_stamp := wrap_signed 64 (time_s p + tm_gmtoff p - 3600) |},
                g4)) = Some (st, g')) as (g2 & Hfirst & Hrest).
  { destruct (negb (use_native_temps g =? 0)).
    - destruct (update_temperatures_native p g) as [u g1]. cbn [snd].
      destruct (ior_sample p g1) as [[u1 g2] |]; [| discriminate].
      exists g2. split; [now exists u1 | exact H].
    - exists g. split; [reflexivity | exact H]. }
  exists g2. split; [exact Hfirst |]. cbv zeta.
  pose proof (touches_get_fan_info p g2) as Hf.
  destruct (get_fan_info p g2) as [fans g3]. cbn [fst snd] in *.
  pose proof (touches_smc_get_board_temperature p g3) as Hb.
  destruct (smc_get_board_temperature p g3) as [btemp g4]. cbn [fst snd] in *.
  pose proof (smc_only_trans _ _ _ Hf Hb) as Hall.
  destruct (frame_fields _ _ (proj1 Hall)) as (Hi & Hc & Hg & _).
  inversion Hrest; subst. cbn. unfold sampler_outputs. rewrite Hi, Hc, Hg.
  repeat apply conj; try reflexivity. exact (proj1 Hall).
Qed.

(** X17: in a cycle with temperature reporting enabled the snapshot
    carries the readings of this very cycle: cpu.temp, cpu.core1Temp and
    gpu.temp are what [get_apple_silicon_temps] returned at the start of
    the cycle, core1DistanceToTjMax is 100 minus that CPU temperature,
    the power, frequency and load fields are the sampler outputs the
    cycle leaves behind, and the cached temperatures are updated to the
    same readings, so reading the fans and the board sensors in between
    changes none of them. *)
Theorem enabled_cycle_reports_its_own_readings (p : Platform) (g g' : Globals)
  (st : PcStatus) :
  use_native_temps g <> 0 -> collect_stats p g = Some (st, g') ->
  let t := fst (get_apple_silicon_temps p g) in
  cpu_temp (cpu st) = fst t /\ cpu_core1Temp (cpu st) = fst t /\
  gpu_temp (gpu st) = snd t /\
  cpu_core1DistanceToTjMax (cpu st) = F32.sub (F32.of_Z 100) (fst t) /\
  cached_cpu_temp g' = fst t /\ cached_gpu_temp g' = snd t /\
  (cpu_consume (cpu st), gpu_consume (gpu st), gpu_freq (gpu st), gpu_load (gpu st))
    = sampler_outputs g'.
Proof.
  intros Hon H. destruct (collect_stats_steps p g g' st H) as (g2 & Hfirst & Hrest).
  cbv zeta in Hrest.
  destruct Hrest as (_ & Hframe & _ & _ & _ & Hc & Hg & Hc1 & Hd & Ho).
  destruct (frame_fields _ _ Hframe) as (Hi & Hct & Hgt & _).
  replace (negb (use_native_temps g =? 0)) with true in Hfirst
    by (symmetry; apply negb_true_iff; now apply Z.eqb_neq).
  destruct Hfirst as (u & Hs).
  destruct (ior_sample_keeps_temps _ _ _ _ Hs) as [Hk1 Hk2].
  assert (cached_cpu_temp (snd (update_temperatures_native p g))
            = fst (fst (get_apple_silicon_temps p g)) /\
          cached_gpu_temp (snd (update_temperatures_native p g))
            = snd (fst (get_apple_silicon_temps p g))) as [Hu1 Hu2].
  { unfold update_temperatures_native.
    destruct (get_apple_silicon_temps p g) as [t g1]. now split. }
  cbv zeta. unfold sampler_outputs in *. rewrite Hi, Hct, Hgt, Hc, Hc1, Hg, Hd, Ho, Hk1, Hk2, Hu1, Hu2.
  repeat apply conj; reflexivity.
Qed.

(** X18: in every snapshot, board.rpm is the positive actual RPM of fan
    0 or is 0.0 when no fan answers, gpu.rpm is the positive RPM of fan 1
    or 0.0, and a positive gpu.rpm implies a positive board.rpm; neither
    is ever negative or NaN. *)
Theorem snapshot_rpm_fields (p : Platform) (g g' : Globals) (st : PcStatus) :
  collect_stats p g = Some (st, g') ->
  (board_rpm (board st) = F32.of_Z 0 \/ fgt (board_rpm (board st)) (F32.of_Z 0) = true) /\
  (gpu_rpm (gpu st) = F32.of_Z 0 \/ fgt (gpu_rpm (gpu st)) (F32.of_Z 0) = true) /\
  (fgt (gpu_rpm (gpu st)) (F32.of_Z 0) = true ->
   fgt (board_rpm (board st)) (F32.of_Z 0) = true).
Proof.
  intros H. destruct (collect_stats_steps p g g' st H) as (g2 & _ & Hrest).
  cbv zeta in Hrest. destruct Hrest as (_ & _ & _ & Hb & Hg & _).
  destruct (get_fan_info_wf p g2) as (_ & _ & _ & _ & Hbelow & _).
  rewrite Hb, Hg.
  destruct (Z.ltb_spec 1 (fan_count (fst (get_fan_info p g2)))) as [H1 | H1].
  - replace (0 <? fan_count (fst (get_fan_info p g2))) with true
      by (symmetry; apply Z.ltb_lt; lia).
    split; [right; apply (Hbelow 0%nat); lia |].
    split; [right; apply (Hbelow 1%nat); lia |].
    intros _. apply (Hbelow 0%nat); lia.
  - split.
    + destruct (Z.ltb_spec 0 (fan_count (fst (get_fan_info p g2)))); [| now left].
      right. apply (Hbelow 0%nat); lia.
    + split; [now left | intros Hx; vm_compute in Hx; discriminate].
Qed.

Lemma enabled_cycle_reports_its_own_readings_witness :
  exists (st : PcStatus) (g' : Globals),
    collect_stats m1_machine temps_enabled = Some (st, g') /\
    cpu_temp (cpu st) = F32.of_Z 55 /\ gpu_temp (gpu st) = F32.of_Z 60 /\
    cached_cpu_temp g' = F32.of_Z 55.
Proof.
  destruct (collect_stats m1_machine temps_enabled) as [[st g'] |] eqn:E.
  - exists st, g'. split; [reflexivity |].
    destruct (enabled_cycle_reports_its_own_readings m1_machine temps_enabled g' st)
      as (Hc & _ & Hg & _ & Hcc & _); [discriminate | exact E |].
    rewrite Hc, Hg, Hcc. vm_compute. repeat split.
  - vm_compute in E. discriminate E.
Defined.

Lemma snapshot_rpm_fields_witness :
  exists (st : PcStatus) (g' : Globals),
    collect_stats one_fan_machine initial_globals = Some (st, g') /\
    (board_rpm (board st) = F32.of_Z 0 \/ fgt (board_rpm (board st)) (F32.of_Z 0) = true) /\
    (gpu_rpm (gpu st) = F32.of_Z 0 \/ fgt (gpu_rpm (gpu st)) (F32.of_Z 0) = true) /\
    (fgt (gpu_rpm (gpu st)) (F32.of_Z 0) = true ->
     fgt (board_rpm (board st)) (F32.of_Z 0) = true).
Proof.
  destruct (collect_stats one_fan_machine initial_globals) as [[st g'] |] eqn:E.
  - exists st, g'. split; [reflexivity |].
    exact (snapshot_rpm_fields one_fan_machine initial_globals g' st E).
  - vm_compute in E. discriminate E.
Defined.

(** ** The CPU and network collectors *)

Lemma wrap_unsigned_idem (w x : Z) : 0 < w -> wrap_unsigned w (wrap_unsigned w x) = wrap_unsigned w x.
Proof. intros Hw. unfold wrap_unsigned. apply Z.mod_mod. apply Z.pow_nonzero; lia. Qed.

Lemma sum_ticks_range (cpu_ticks : list Z) : 0 <= sum_ticks cpu_ticks < 2 ^ 64.
Proof.
  unfold sum_ticks, CPU_STATE_MAX. cbn [seq fold_left]. unfold wrap_unsigned at 1.
  apply Z.mod_pos_bound. lia.
Qed.

(** X19: [get_cpu_usage] returns 0.0 and keeps its baseline when
    [host_statistics] fails, so a failed call does not affect what the
    next call measures; a successful call always moves the baseline to
    the counters it read, and a call that finds the counters where the
    baseline is returns 0.0 instead of dividing by zero. *)
Theorem get_cpu_usage_baseline (ticks : list Z) (s : CpuTicks) :
  get_cpu_usage None s = (F32.zero, s) /\
  (let s1 := snd (get_cpu_usage (Some ticks) s) in
   prev_total_ticks s1 = sum_ticks ticks /\
   prev_idle_ticks s1 = wrap_unsigned 64 (nth CPU_STATE_IDLE ticks 0) /\
   fst (get_cpu_usage (Some ticks) s1) = F32.zero /\
   snd (get_cpu_usage (Some ticks) s1) = s1 /\
   forall later : list Z,
     get_cpu_usage (Some later) (snd (get_cpu_usage None s1)) = get_cpu_usage (Some later) s1).
Proof.
  split; [reflexivity |]. cbv zeta.
  assert (snd (get_cpu_usage (Some ticks) s) =
            {| prev_total_ticks := sum_ticks ticks;
               prev_idle_ticks := wrap_unsigned 64 (nth CPU_STATE_IDLE ticks 0) |}) as ->.
  { unfold get_cpu_usage. now destruct (_ =? 0). }
  cbn [prev_total_ticks prev_idle_ticks].
  split; [reflexivity |]. split; [reflexivity |].
  assert (get_cpu_usage (Some ticks)
            {| prev_total_ticks := sum_ticks ticks;
               prev_idle_ticks := wrap_unsigned 64 (nth CPU_STATE_IDLE ticks 0) |}
          = (F32.zero,
             {| prev_total_ticks := sum_ticks ticks;
                prev_idle_ticks := wrap_unsigned 64 (nth CPU_STATE_IDLE ticks 0) |})) as Hsame.
  { unfold get_cpu_usage. cbn [prev_total_ticks prev_idle_ticks].
    rewrite Z.sub_diag. reflexivity. }
  rewrite Hsame. repeat split.
Qed.

Lemma counter_sum_cons (pick : Z * Z -> Z) (ifa : Interface) (rest : list Interface) :
  counter_sum pick (ifa :: rest) =
    (if counted ifa
     then match ifa_counters ifa with Some c => pick c | None => 0 end
     else 0) + counter_sum pick rest.
Proof. unfold counter_sum. cbn [filter]. now destruct (counted ifa). Qed.

Lemma count_bytes_cons (ifa : Interface) (rest : list Interface) (bytes_in bytes_out : Z) :
  count_bytes (ifa :: rest) bytes_in bytes_out =
    match (if counted ifa then ifa_counters ifa else None) with
    | Some (ibytes, obytes) =>
        count_bytes rest (wrap_unsigned 64 (bytes_in + ibytes))
          (wrap_unsigned 64 (bytes_out + obytes))
    | None => count_bytes rest bytes_in bytes_out
    end.
Proof.
  cbn [count_bytes]. unfold counted.
  destruct (ifa_has_addr ifa), (ifa_is_link ifa), (ifa_up ifa), (ifa_loopback ifa);
    reflexivity.
Qed.

Lemma counter_sum_nonneg (ifs : list Interface) :
  counters_nonneg ifs -> 0 <= counter_sum fst ifs /\ 0 <= counter_sum snd ifs.
Proof.
  induction ifs as [| ifa rest IH]; intros Hall; [unfold counter_sum; cbn; lia |].
  inversion Hall as [| x l Hhd Htl]; subst. specialize (IH Htl).
  rewrite !counter_sum_cons. destruct (counted ifa); [| lia].
  destruct (ifa_counters ifa) as [[i o] |]; cbn [fst snd]; lia.
Qed.

Lemma count_bytes_sums (ifs : list Interface) :
  forall bytes_in bytes_out : Z,
    0 <= bytes_in -> 0 <= bytes_out -> counters_nonneg ifs ->
    bytes_in + counter_sum fst ifs < 2 ^ 64 ->
    bytes_out + counter_sum snd ifs < 2 ^ 64 ->
    count_bytes ifs bytes_in bytes_out =
      (bytes_in + counter_sum fst ifs, bytes_out + counter_sum snd ifs).
Proof.
  induction ifs as [| ifa rest IH]; intros bi bo Hi Ho Hall Hbi Hbo.
  - unfold counter_sum. cbn. now rewrite !Z.add_0_r.
  - inversion Hall as [| x l Hhd Htl]; subst.
    destruct (counter_sum_nonneg rest Htl) as [Hn1 Hn2].
    rewrite count_bytes_cons. rewrite counter_sum_cons in Hbi, Hbo. rewrite !counter_sum_cons.
    destruct (counted ifa).
    + destruct (ifa_counters ifa) as [[i o] |]; cbn [fst snd] in *.
      * unfold wrap_unsigned. rewrite !Z.mod_small by lia.
        rewrite IH; try lia; try assumption. f_equal; lia.
      * rewrite IH; try lia; try assumption. f_equal; lia.
    + rewrite IH; try lia; try assumption. f_equal; lia.
Qed.

(** X20: [get_network_throughput] always moves its baseline to the
    current time and counters, which are the sums of the byte counters
    over the interfaces that have a link-level address, are up and are
    not loopback.  It reports 0.0 in both directions when the baseline
    input counter is 0 or the time has not advanced; so after a call in
    which [getifaddrs] failed, the next call reports 0.0 whatever the
    traffic. *)
Theorem get_network_throughput_baseline (now : Z * Z) (ifaddrs : option (list Interface))
  (s : NetBaseline) :
  prev_net_time (snd (get_network_throughput now ifaddrs s)) = now /\
  (prev_bytes_in s <= 0 \/ now = prev_net_time s ->
   fst (get_network_throughput now ifaddrs s)
     = {| net_up := F32.of_Z 0; net_down := F32.of_Z 0 |}) /\
  (ifaddrs = None ->
   forall (later : Z * Z) (ifs : option (list Interface)),
     fst (get_network_throughput later ifs (snd (get_network_throughput now ifaddrs s)))
       = {| net_up := F32.of_Z 0; net_down := F32.of_Z 0 |}) /\
  (forall ifs : list Interface,
     ifaddrs = Some ifs -> counters_nonneg ifs ->
     counter_sum fst ifs < 2 ^ 64 -> counter_sum snd ifs < 2 ^ 64 ->
     prev_bytes_in (snd (get_network_throughput now ifaddrs s)) = counter_sum fst ifs /\
     prev_bytes_out (snd (get_network_throughput now ifaddrs s)) = counter_sum snd ifs).
Proof.
  assert (forall (t : Z * Z) (a : option (list Interface)) (b : NetBaseline),
            snd (get_network_throughput t a b) =
              {| prev_bytes_in := fst (match a with
                                       | Some ifs => count_bytes ifs 0 0
                                       | None => (0, 0)
                                       end);
                 prev_bytes_out := snd (match a with
                                        | Some ifs => count_bytes ifs 0 0
                                        | None => (0, 0)
                                        end);
                 prev_net_time := t |}) as Hstate.
  { intros t a b. unfold get_network_throughput.
    destruct (match a with Some ifs => count_bytes ifs 0 0 | None => (0, 0) end) as [bi bo].
    now destruct (fgt _ _ && _). }
  assert (forall (t : Z * Z) (a : option (list Interface)) (b : NetBaseline),
            prev_bytes_in b <= 0 \/ t = prev_net_time b ->
            fst (get_network_throughput t a b)
              = {| net_up := F32.of_Z 0; net_down := F32.of_Z 0 |}) as Hzero.
  { intros t a b Hcase. unfold get_network_throughput.
    destruct (match a with Some ifs => count_bytes ifs 0 0 | None => (0, 0) end) as [bi bo].
    destruct Hcase as [Hprev | ->].
    - replace (0 <? prev_bytes_in b) with false by (symmetry; apply Z.ltb_ge; exact Hprev).
      now rewrite andb_false_r.
    - rewrite !Z.sub_diag. reflexivity. }
  split; [now rewrite Hstate |]. split; [apply Hzero |]. split.
  - intros -> later ifs. apply Hzero. left. rewrite Hstate. cbn. lia.
  - intros ifs -> Hnn H1 H2. rewrite Hstate. cbn [prev_bytes_in prev_bytes_out].
    rewrite (count_bytes_sums ifs 0 0); try lia; try assumption. now split.
Qed.
